(** * HR agent: query parser, scoring, search, shortlists and e-mail drafts

    A shallow embedding of [hr_agent.py] and the properties of its
    specification.

    Conventions of the embedding.
    - Python [str] values are Rocq [string]s, the bytes of the UTF-8
      text.  The embedding is exact on ASCII text: the case mappings and
      the character classes [\d], [\s], [\w] are Python's on the ASCII
      range.  A byte outside that range is no letter, digit, space or word
      character, and the non-ASCII characters that the source's patterns
      name are matched as their byte sequences.
    - Python [int] is [Z]; [None]-able values are [option]s.
    - A [dict] with a fixed set of keys is a record; a key read with
      [d.get(k, default)] is an [option] field.
    - The three JSON files are a typed store; a file is absent, holds text
      that is not JSON, or holds a document.
    - [datetime.date.fromisoformat] and the clock are parameters of the
      scoring section.
    - The functions are first given by the value they compute.  The
      exceptions that the source lets through ([int] on more than 4300
      digits, [json.load] on bytes that are not UTF-8 or on text the
      parser gives up on) are threaded through the functions of the module
      [Raising], over the bytes of the files and with [json.loads] as a
      parameter.
    - A property that depends on the text being ASCII says so, by the
      hypothesis [Py.is_ascii]. *)

From Stdlib Require Import ZArith Ascii String List Sorted Lia.
From stdpp Require Import gmap strings list pretty sorting.

Open Scope Z_scope.

(** ** Python string methods *)

Module Py.

Definition code (c : ascii) : N := N_of_ascii c.

Definition between (lo hi : N) (c : ascii) : bool :=
  ((lo <=? code c) && (code c <=? hi))%N.

Definition is_upper : ascii -> bool := between 65 90.
Definition is_lower : ascii -> bool := between 97 122.
Definition is_digit : ascii -> bool := between 48 57.

(** [str.isspace] on the ASCII range: TAB..CR, FS..US and the blank. *)
Definition is_space (c : ascii) : bool :=
  between 9 13 c || between 28 32 c.

(** The class [\w]. *)
Definition is_word (c : ascii) : bool :=
  is_upper c || is_lower c || is_digit c || (code c =? 95)%N.

Definition lower_char (c : ascii) : ascii :=
  if is_upper c then ascii_of_N (code c + 32) else c.

Definition upper_char (c : ascii) : ascii :=
  if is_lower c then ascii_of_N (code c - 32) else c.

Fixpoint map_chars (f : ascii -> ascii) (s : string) : string :=
  match s with
  | EmptyString => EmptyString
  | String c s' => String (f c) (map_chars f s')
  end.

Definition lower : string -> string := map_chars lower_char.
Definition upper : string -> string := map_chars upper_char.

Fixpoint lstrip (s : string) : string :=
  match s with
  | String c s' => if is_space c then lstrip s' else s
  | EmptyString => EmptyString
  end.

Definition reverse (s : string) : string :=
  string_of_list_ascii (rev (list_ascii_of_string s)).

Definition rstrip (s : string) : string := reverse (lstrip (reverse s)).

Definition strip (s : string) : string := rstrip (lstrip s).

(** [str.capitalize]: first character upper-cased, the rest lower-cased. *)
Definition capitalize (s : string) : string :=
  match s with
  | EmptyString => EmptyString
  | String c s' => String (upper_char c) (lower s')
  end.

(** [str.title]: a cased character is upper-cased when the character
    before it is not cased, and lower-cased otherwise. *)
Fixpoint title_from (prev_cased : bool) (s : string) : string :=
  match s with
  | EmptyString => EmptyString
  | String c s' =>
      if is_upper c || is_lower c
      then String (if prev_cased then lower_char c else upper_char c)
                  (title_from true s')
      else String c (title_from false s')
  end.

Definition title : string -> string := title_from false.

(** [needle in hay]. *)
Fixpoint contains (needle hay : string) : bool :=
  String.prefix needle hay ||
  match hay with
  | EmptyString => false
  | String _ hay' => contains needle hay'
  end.

(** [sep.join(parts)]. *)
Definition join (sep : string) (parts : list string) : string :=
  String.concat sep parts.

(** Every character of [s] satisfies [p]. *)
Fixpoint all_chars (p : ascii -> bool) (s : string) : bool :=
  match s with
  | EmptyString => true
  | String c s' => p c && all_chars p s'
  end.

(** The value of [int(s)] for a string of decimal digits;
    [Raising.int] below has the limit on their number. *)
Definition digit_value (c : ascii) : Z := Z.of_N (code c - 48).

Fixpoint int_from (acc : Z) (s : string) : Z :=
  match s with
  | EmptyString => acc
  | String c s' => int_from (10 * acc + digit_value c) s'
  end.

Definition int : string -> Z := int_from 0.

(** [str(n)] and the [{n}] field of an f-string. *)
Definition str (n : Z) : string := pretty n.

(** Truth value of a string and of an integer. *)
Definition truthy_str (s : string) : bool :=
  match s with EmptyString => false | _ => true end.

Definition truthy_int (n : Z) : bool := negb (n =? 0).

Definition truthy_list {A} (l : list A) : bool :=
  match l with [] => false | _ => true end.

(** [x in l] for a list of strings. *)
Definition mem (x : string) (l : list string) : bool := bool_decide (x ∈ l).

(** [len(l)]. *)
Definition len {A} (l : list A) : Z := Z.of_nat (length l).

(** The line feed. *)
Definition nl : string := String (ascii_of_N 10) EmptyString.

(** [l[:n]] for a possibly negative [n]. *)
Definition slice_to {A} (l : list A) (n : Z) : list A :=
  if 0 <=? n then take (Z.to_nat n) l
  else take (length l - Z.to_nat (- n))%nat l.

(** The text is ASCII: every byte is below 128.  On such text the
    functions of this module are Python's. *)
Definition is_ascii (s : string) : bool := all_chars (between 0 127) s.



(** [sys.get_int_max_str_digits()] as CPython sets it: [int] refuses a
    numeral of more digits. *)
Definition int_max_str_digits : nat := 4300.

(** [c * n], the character [c] repeated. *)
Fixpoint repeat (c : ascii) (n : nat) : string :=
  match n with
  | O => EmptyString
  | S n' => String c (repeat c n')
  end.

(** The bytes are well-formed UTF-8, as the strict decoder of
    [open(path, encoding="utf-8")] requires: no stray or missing
    continuation byte, no overlong form, no surrogate, nothing above
    U+10FFFF. *)
Fixpoint utf8_valid (s : string) : bool :=
  match s with
  | EmptyString => true
  | String a s1 =>
      if between 0 127 a then utf8_valid s1
      else
        match s1 with
        | EmptyString => false
        | String b s2 =>
            if between 194 223 a then between 128 191 b && utf8_valid s2
            else
              match s2 with
              | EmptyString => false
              | String c s3 =>
                  if between 224 239 a then
                    (if (code a =? 224)%N then between 160 191 b
                     else if (code a =? 237)%N then between 128 159 b
                     else between 128 191 b)
                    && between 128 191 c && utf8_valid s3
                  else
                    match s3 with
                    | EmptyString => false
                    | String d s4 =>
                        between 240 244 a
                        && (if (code a =? 240)%N then between 144 191 b
                            else if (code a =? 244)%N then between 128 143 b
                            else between 128 191 b)
                        && between 128 191 c && between 128 191 d
                        && utf8_valid s4
                    end
              end
        end
  end.

End Py.

(** ** Regular expressions: the fragment of [re] the source uses

    A backtracking matcher with Python's priorities: alternatives are tried
    left to right, repetition is greedy, [search] returns the leftmost
    match.  The matcher is written in continuation-passing style; the
    continuation receives the character just consumed (for [\b]), the rest
    of the input and the groups captured so far. *)

Module Re.

Inductive regex : Type :=
| Eps
| Class (p : ascii -> bool)
| Seq (r1 r2 : regex)
| Alt (r1 r2 : regex)
| Star (r : regex)
| Group (n : nat) (r : regex)
| WordBoundary.

Definition captures := list (nat * string).

Record match_object := MatchObject {
  whole : string;          (* group(0) *)
  groups : captures
}.

Definition group (n : nat) (m : match_object) : option string :=
  snd <$> List.find (fun '(k, _) => Nat.eqb k n) (groups m).

Definition consumed (before after : string) : string :=
  substring 0 (String.length before - String.length after) before.

Definition word_at (c : option ascii) : bool :=
  match c with Some c => Py.is_word c | None => false end.

Definition next_char (s : string) : option ascii :=
  match s with String c _ => Some c | EmptyString => None end.

(** The continuation of a match: it is given the character before the
    position reached, the rest of the input and the groups. *)
Definition cont (A : Type) : Type :=
  option ascii -> string -> captures -> option A.

(** Greedy repetition of [body]: one more iteration is tried first, and
    only an iteration that consumes input is continued. *)
Fixpoint star_loop {A} (body : option ascii -> string -> captures ->
                               cont A -> option A)
    (k : cont A) (fuel : nat) (prev : option ascii) (s : string)
    (caps : captures) : option A :=
  match fuel with
  | O => k prev s caps
  | S fuel' =>
      match
        body prev s caps (fun prev' s' caps' =>
          if (String.length s' <? String.length s)%nat
          then star_loop body k fuel' prev' s' caps'
          else None)
      with
      | Some x => Some x
      | None => k prev s caps
      end
  end.

Fixpoint run {A} (r : regex) (prev : option ascii) (s : string)
    (caps : captures) (k : cont A) : option A :=
  match r with
  | Eps => k prev s caps
  | Class p =>
      match s with
      | String c s' => if p c then k (Some c) s' caps else None
      | EmptyString => None
      end
  | Seq r1 r2 =>
      run r1 prev s caps (fun prev' s' caps' => run r2 prev' s' caps' k)
  | Alt r1 r2 =>
      match run r1 prev s caps k with
      | Some x => Some x
      | None => run r2 prev s caps k
      end
  | Star r1 => star_loop (run r1) k (String.length s) prev s caps
  | Group n r1 =>
      run r1 prev s caps (fun prev' s' caps' =>
        k prev' s' ((n, consumed s s') :: caps'))
  | WordBoundary =>
      if xorb (word_at prev) (word_at (next_char s))
      then k prev s caps else None
  end.

(** The character before the position reached after [s] is read. *)
Fixpoint last_char (prev : option ascii) (s : string) : option ascii :=
  match s with
  | EmptyString => prev
  | String c s' => last_char (Some c) s'
  end.

(** [rest] does not start with a character of the class [p]. *)
Definition stops (p : ascii -> bool) (rest : string) : Prop :=
  match rest with String c _ => p c = false | EmptyString => True end.

(** One step of the matcher on a character class. *)
Definition class_step {A} (p : ascii -> bool) (prev : option ascii)
    (s : string) (caps : captures) (k : cont A) : option A :=
  match s with
  | String c s' => if p c then k (Some c) s' caps else None
  | EmptyString => None
  end.

(** A match anchored at the current position. *)
Definition match_here (r : regex) (prev : option ascii) (s : string)
    : option match_object :=
  run r prev s [] (fun _ s' caps => Some (MatchObject (consumed s s') caps)).

Fixpoint search_from (r : regex) (prev : option ascii) (s : string)
    : option match_object :=
  match match_here r prev s with
  | Some m => Some m
  | None =>
      match s with
      | EmptyString => None
      | String c s' => search_from r (Some c) s'
      end
  end.

(** [re.search(r, s)]. *)
Definition search (r : regex) (s : string) : option match_object :=
  search_from r None s.

(** Non-overlapping matches, left to right; [skip] counts the characters
    of the last match that are still to be stepped over. *)
Fixpoint finditer_from (r : regex) (prev : option ascii) (s : string)
    (skip : nat) : list match_object :=
  match skip with
  | S skip' =>
      match s with
      | EmptyString => []
      | String c s' => finditer_from r (Some c) s' skip'
      end
  | O =>
      match match_here r prev s with
      | Some m =>
          m :: match s with
               | EmptyString => []
               | String c s' =>
                   finditer_from r (Some c) s' (String.length (whole m) - 1)
               end
      | None =>
          match s with
          | EmptyString => []
          | String c s' => finditer_from r (Some c) s' 0
          end
      end
  end.

(** [re.findall(r, s)] for a pattern with exactly one group. *)
Definition findall (r : regex) (s : string) : list string :=
  omap (group 1) (finditer_from r None s 0).

(** Pattern combinators. *)
Definition chr (c : ascii) : regex := Class (Ascii.eqb c).

Fixpoint lit (s : string) : regex :=
  match s with
  | EmptyString => Eps
  | String c EmptyString => chr c
  | String c s' => Seq (chr c) (lit s')
  end.

Definition never : regex := Class (fun _ => false).

Fixpoint alts (rs : list regex) : regex :=
  match rs with
  | [] => never
  | [r] => r
  | r :: rs' => Alt r (alts rs')
  end.

Fixpoint seqs (rs : list regex) : regex :=
  match rs with
  | [] => Eps
  | [r] => r
  | r :: rs' => Seq r (seqs rs')
  end.

Definition plus (r : regex) : regex := Seq r (Star r).
Definition opt (r : regex) : regex := Alt r Eps.

Definition digits : regex := plus (Class Py.is_digit).     (* \d+ *)
Definition spaces : regex := Star (Class Py.is_space).     (* \s* *)

End Re.

Import Re.

(** ** Data model *)

(** A candidate of [candidates.json].  The fields that the source reads
    with [c.get] may be absent; the two names are taken to be there. *)
Module Candidate.
Record t := Make {
  firstName : string;
  lastName : string;
  location : option string;
  skills : option (list string);
  experienceYears : option Z;
  availabilityDate : option string;
  stage : option string
}.
End Candidate.

(** A job of [jobs.json]. *)
Module Job.
Record t := Make {
  title : string;
  location : string;
  skillsRequired : list string;
  jdSnippet : string
}.
End Job.

(** The filter dictionary built by [parse_query]. *)
Module Filter.
Record t := Make {
  role : option string;
  skills : list string;
  location : option string;
  minExp : option Z;
  maxExp : option Z;
  availabilityWindowDays : option Z
}.

Definition set_role (v : option string) (f : t) : t :=
  Make v (skills f) (location f) (minExp f) (maxExp f)
       (availabilityWindowDays f).
Definition set_skills (v : list string) (f : t) : t :=
  Make (role f) v (location f) (minExp f) (maxExp f)
       (availabilityWindowDays f).
Definition set_location (v : option string) (f : t) : t :=
  Make (role f) (skills f) v (minExp f) (maxExp f)
       (availabilityWindowDays f).
Definition set_minExp (v : option Z) (f : t) : t :=
  Make (role f) (skills f) (location f) v (maxExp f)
       (availabilityWindowDays f).
Definition set_maxExp (v : option Z) (f : t) : t :=
  Make (role f) (skills f) (location f) (minExp f) v
       (availabilityWindowDays f).
Definition set_availabilityWindowDays (v : option Z) (f : t) : t :=
  Make (role f) (skills f) (location f) (minExp f) (maxExp f) v.

(** The dictionary [parse_query] starts from. *)
Definition empty : t := Make None [] None None None None.
End Filter.

(** One entry of a search result. *)
Module Scored.
Record t := Make {
  index : Z;
  candidate : Candidate.t;
  score : Z;
  reason : string
}.
End Scored.

(** The dictionary returned by [draft_email]. *)
Module Email.
Record t := Make {
  subject : string;
  text : string
}.
End Email.

(** ** parse_query *)

(** The patterns of [parse_query], in the order the source compiles them. *)

(* (intern|junior|frontend|backend|full[- ]?stack|react\s*ui|trainee) *)
Definition role_re : regex :=
  Group 1 (alts [
    lit "intern"; lit "junior"; lit "frontend"; lit "backend";
    seqs [lit "full"; opt (Class (fun c => Ascii.eqb c "-" || Ascii.eqb c " "));
          lit "stack"];
    seqs [lit "react"; spaces; lit "ui"];
    lit "trainee" ]).

(* [a-zéèêîïâàç\-] *)
Definition loc_char : regex :=
  alts [ Class (fun c => Py.is_lower c || Ascii.eqb c "-");
         lit "é"; lit "è"; lit "ê"; lit "î"; lit "ï"; lit "â"; lit "à";
         lit "ç" ].

(* \bin\s+([a-zéèêîïâàç\-]+) *)
Definition loc_re : regex :=
  seqs [ WordBoundary; lit "in"; plus (Class Py.is_space);
         Group 1 (plus loc_char) ].

Definition known_cities : list string :=
  ["casablanca"; "rabat"; "marrakesh"; "marrakech"; "tangier"; "fes";
   "agadir"].

(* (?:years?|y) *)
Definition year_unit : regex :=
  Alt (Seq (lit "year") (opt (lit "s"))) (lit "y").

(* (\d+)\s*[-–]\s*(\d+)\s*(?:years?|y) *)
Definition range_re : regex :=
  seqs [ Group 1 digits; spaces; Alt (lit "-") (lit "–"); spaces;
         Group 2 digits; spaces; year_unit ].

(* (\d+)\s*(?:years?|y) *)
Definition single_re : regex :=
  seqs [ Group 1 digits; spaces; year_unit ].

(* \b(react|javascript|js|typescript|ts|html|css|git|python|flask|sql|
      django|redux|node|next\.?js|tailwind)\b *)
Definition skill_re : regex :=
  seqs [ WordBoundary;
         Group 1 (alts [
           lit "react"; lit "javascript"; lit "js"; lit "typescript";
           lit "ts"; lit "html"; lit "css"; lit "git"; lit "python";
           lit "flask"; lit "sql"; lit "django"; lit "redux"; lit "node";
           seqs [lit "next"; opt (lit "."); lit "js"];
           lit "tailwind" ]);
         WordBoundary ].

(* available\s*(?:in)?\s*(\d+)\s*days *)
Definition avail_re : regex :=
  seqs [ lit "available"; spaces; opt (lit "in"); spaces; Group 1 digits;
         spaces; lit "days" ].

Definition norm : gmap string string :=
  list_to_map [ ("javascript", "JS"); ("ts", "TypeScript");
                ("next.js", "Next.js"); ("nextjs", "Next.js") ].

(** The body of the loop over [skill_candidates]. *)
Definition normalise_skill (s : string) : string :=
  let s2 := Py.lower s in
  let s2 := default (if (2 <? String.length s2)%nat then Py.capitalize s2
                     else Py.upper s2) (norm !! s2) in
  if String.eqb s2 "Js" then "JS" else s2.

Definition collect_skill (acc : list string) (s : string) : list string :=
  let s2 := normalise_skill s in
  if bool_decide (s2 ∈ acc) then acc else acc ++ [s2].

(** The gazetteer scan: the first known city that occurs in [t]. *)
Fixpoint first_city (cities : list string) (t : string) : option string :=
  match cities with
  | [] => None
  | city :: rest =>
      if Py.contains city t then Some (Py.title city) else first_city rest t
  end.

Definition group_or_empty (n : nat) (m : match_object) : string :=
  default EmptyString (group n m).

Definition parse_location (t : string) (filters : Filter.t) : Filter.t :=
  match search loc_re t with
  | Some m =>
      Filter.set_location
        (Some (Py.title (Py.strip (group_or_empty 1 m)))) filters
  | None =>
      match first_city known_cities t with
      | Some city => Filter.set_location (Some city) filters
      | None => filters
      end
  end.

Definition parse_experience (t : string) (filters : Filter.t) : Filter.t :=
  match search range_re t with
  | Some m =>
      Filter.set_maxExp (Some (Py.int (group_or_empty 2 m)))
        (Filter.set_minExp (Some (Py.int (group_or_empty 1 m))) filters)
  | None =>
      match search single_re t with
      | Some m =>
          let v := Py.int (group_or_empty 1 m) in
          Filter.set_maxExp (Some v)
            (Filter.set_minExp (Some (Z.max 0 (v - 1))) filters)
      | None => filters
      end
  end.

Definition parse_skills (t : string) (filters : Filter.t) : Filter.t :=
  Filter.set_skills
    (fold_left collect_skill (findall skill_re t) (Filter.skills filters))
    filters.

Definition parse_availability (t : string) (filters : Filter.t) : Filter.t :=
  if Py.contains "available this month" t || Py.contains "this month" t
  then Filter.set_availabilityWindowDays (Some 30) filters
  else
    let filters :=
      match search avail_re t with
      | Some m =>
          Filter.set_availabilityWindowDays
            (Some (Py.int (group_or_empty 1 m))) filters
      | None => filters
      end in
    if Py.contains "available next month" t
    then Filter.set_availabilityWindowDays (Some 45) filters
    else filters.

Definition parse_role (t : string) (filters : Filter.t) : Filter.t :=
  match search role_re t with
  | Some m => Filter.set_role (Some (whole m)) filters
  | None => filters
  end.

Definition parse_query (text : string) : Filter.t :=
  let t := Py.strip (Py.lower text) in
  let filters := Filter.empty in
  let filters := parse_role t filters in
  let filters := parse_location t filters in
  let filters := parse_experience t filters in
  let filters := parse_skills t filters in
  let filters := parse_availability t filters in
  filters.

(** ** Calendar dates *)

Module Date.
Record t := Make { year : Z; month : Z; day : Z }.

Definition is_leap (y : Z) : bool :=
  (y mod 4 =? 0) && (negb (y mod 100 =? 0) || (y mod 400 =? 0)).

Definition days_in_month (y m : Z) : Z :=
  if m =? 2 then (if is_leap y then 29 else 28)
  else if (m =? 4) || (m =? 6) || (m =? 9) || (m =? 11) then 30
  else 31.

Definition days_before_year (y : Z) : Z :=
  let p := y - 1 in p * 365 + p / 4 - p / 100 + p / 400.

Fixpoint days_before_month_from (y : Z) (m : nat) : Z :=
  match m with
  | O => 0
  | S m' => days_before_month_from y m' + days_in_month y (Z.of_nat m)
  end.

Definition days_before_month (y m : Z) : Z :=
  days_before_month_from y (Z.to_nat (m - 1)).

(** [date.toordinal()]: 1 for 0001-01-01. *)
Definition toordinal (d : t) : Z :=
  days_before_year (year d) + days_before_month (year d) (month d) + day d.

(** [(a - b).days]. *)
Definition days_between (a b : t) : Z := toordinal a - toordinal b.

Definition valid (d : t) : bool :=
  (1 <=? year d) && (year d <=? 9999) &&
  (1 <=? month d) && (month d <=? 12) &&
  (1 <=? day d) && (day d <=? days_in_month (year d) (month d)).

(** The format YYYY-MM-DD, which every version of
    [datetime.date.fromisoformat] accepts; used as the instance of the
    date parser in the examples. *)
Definition fromisoformat (s : string) : option t :=
  let y := substring 0 4 s in
  let m := substring 5 2 s in
  let d := substring 8 2 s in
  if (String.length s =? 10)%nat
     && String.eqb (substring 4 1 s) "-" && String.eqb (substring 7 1 s) "-"
     && Py.all_chars Py.is_digit y && Py.all_chars Py.is_digit m
     && Py.all_chars Py.is_digit d
  then
    let r := Make (Py.int y) (Py.int m) (Py.int d) in
    if valid r then Some r else None
  else None.
End Date.

(** ** Storage accessor *)

Inductive path : Type := CANDIDATES_FP | JOBS_FP | SHORTLISTS_FP.

(** The shape of the document each file holds (section 6 of the
    specification). *)
Definition document (p : path) : Type :=
  match p with
  | CANDIDATES_FP => list Candidate.t
  | JOBS_FP => list Job.t
  | SHORTLISTS_FP => gmap string (list Z)
  end.

(** What a file that exists holds: the text of a JSON document, kept as
    the value [json.load] returns for it, or text that [json.load] rejects
    with [JSONDecodeError].  A file on which [json.load] raises another
    exception is no value of this type; [Raising._load_json] below has
    it. *)
Inductive contents (A : Type) : Type :=
| Json (doc : A)
| Malformed (raw : string).
Arguments Json {A} doc.
Arguments Malformed {A} raw.

(** The file system: each path has no file or a file with its contents. *)
Definition file_system : Type := forall p : path, option (contents (document p)).

Definition _load_json (fs : file_system) (p : path) (default : document p)
    : document p :=
  match fs p with
  | None => default                      (* not os.path.exists(path) *)
  | Some (Json doc) => doc               (* json.load(f) *)
  | Some (Malformed _) => default        (* except json.JSONDecodeError *)
  end.

Definition _save_json (fs : file_system) (p : path)
    : document p -> file_system :=
  match p return document p -> file_system with
  | CANDIDATES_FP => fun obj q =>
      match q return option (contents (document q)) with
      | CANDIDATES_FP => Some (Json obj)
      | q' => fs q'
      end
  | JOBS_FP => fun obj q =>
      match q return option (contents (document q)) with
      | JOBS_FP => Some (Json obj)
      | q' => fs q'
      end
  | SHORTLISTS_FP => fun obj q =>
      match q return option (contents (document q)) with
      | SHORTLISTS_FP => Some (Json obj)
      | q' => fs q'
      end
  end.

(** A file system with no file at all. *)
Definition no_files : file_system := fun _ => None.

(** ** Scoring engine and search orchestrator *)

(** The running pair [(score, reasons)] of [_score_candidate]. *)
Definition tally : Type := Z * list string.

(** [score += pts; reasons.append(reason)]. *)
Definition award (pts : Z) (reason : string) (st : tally) : tally :=
  (fst st + pts, snd st ++ [reason]).

Section Scoring.

(** [datetime.date.fromisoformat]; [None] stands for the exception it
    raises on text that is not a date. *)
Variable fromisoformat : string -> option Date.t.

(** [datetime.date.today()], the reference date. *)
Variable today : Date.t.

(* +2 per required skill *)
Definition skills_rule (c : Candidate.t) (required_skills : list string)
    (st : tally) : tally :=
  if Py.truthy_list required_skills then
    let matched :=
      List.filter (fun s => Py.mem s (default [] (Candidate.skills c)))
                  required_skills in
    if Py.truthy_list matched then
      let pts := 2 * Py.len matched in
      award pts (Py.join "+" matched +:+ " match (+" +:+ Py.str pts +:+ ")")
            st
    else st
  else st.

(* +1 location exact match *)
Definition location_rule (c : Candidate.t) (location : option string)
    (st : tally) : tally :=
  match location with
  | Some loc =>
      if Py.truthy_str loc
         && String.eqb (Py.lower loc)
                       (Py.lower (default "" (Candidate.location c)))
      then award 1 (loc +:+ " (+1)") st
      else st
  | None => st
  end.

(* +1 experience within range (±1 ok) *)
Definition experience_rule (c : Candidate.t) (minExp maxExp : option Z)
    (st : tally) : tally :=
  match minExp, maxExp with
  | Some lo, Some hi =>
      let exp := default 0 (Candidate.experienceYears c) in
      if (lo - 1 <=? exp) && (exp <=? hi + 1)
      then award 1 (Py.str exp +:+ "y fits (±1) (+1)") st
      else st
  | _, _ => st
  end.

(* +1 availability within next X days *)
Definition availability_rule (c : Candidate.t) (availability_days : option Z)
    (st : tally) : tally :=
  match availability_days with
  | Some window =>
      if Py.truthy_int window then
        match Candidate.availabilityDate c ≫= fromisoformat with
        | Some avail =>
            let delta := Date.days_between avail today in
            if (0 <=? delta) && (delta <=? window)
            then award 1 ("available in " +:+ Py.str delta +:+ "d (+1)") st
            else st
        | None => st                     (* except Exception: pass *)
        end
      else st
  | None => st
  end.

Definition _score_candidate (c : Candidate.t) (required_skills : list string)
    (location : option string) (minExp maxExp : option Z)
    (availability_days : option Z) : tally :=
  let st : tally := (0, []) in
  let st := skills_rule c required_skills st in
  let st := location_rule c location st in
  let st := experience_rule c minExp maxExp st in
  let st := availability_rule c availability_days st in
  st.

(** The required skills [search_candidates] scores with: the filter's own,
    or those of the first job whose title contains the role. *)
Definition derive_required_skills (jobs : list Job.t) (filters : Filter.t)
    : list string :=
  let required_skills := Filter.skills filters in
  match Filter.role filters with
  | Some role =>
      if negb (Py.truthy_list required_skills) && Py.truthy_str role then
        let key := Py.lower role in
        match List.find (fun j => Py.contains key (Py.lower (Job.title j)))
                        jobs with
        | Some j => Job.skillsRequired j
        | None => required_skills
        end
      else required_skills
  | None => required_skills
  end.

(** The reason text of a result entry. *)
Definition reason_text (score : Z) (reasons : list string) : string :=
  if Py.truthy_list reasons
  then Py.join ", " reasons +:+ " → score " +:+ Py.str score
  else "score " +:+ Py.str score.

(** The loop over [enumerate(candidates, start=1)], from index [idx]. *)
Fixpoint scan (filters : Filter.t) (required_skills : list string) (idx : Z)
    (candidates : list Candidate.t) : list Scored.t :=
  match candidates with
  | [] => []
  | c :: rest =>
      let '(score, reasons) :=
        _score_candidate c required_skills (Filter.location filters)
          (Filter.minExp filters) (Filter.maxExp filters)
          (Filter.availabilityWindowDays filters) in
      (if 0 <? score
       then [Scored.Make idx c score (reason_text score reasons)]
       else [])
      ++ scan filters required_skills (idx + 1) rest
  end.

(** [results.sort(key=lambda x: x["score"], reverse=True)]: the sort is
    stable, so entries of equal score keep their order.  An entry is put
    in front of the first entry whose score is not greater than its own. *)
Fixpoint insert_by_score (x : Scored.t) (l : list Scored.t) : list Scored.t :=
  match l with
  | [] => [x]
  | y :: l' =>
      if Scored.score x <? Scored.score y
      then y :: insert_by_score x l'
      else x :: y :: l'
  end.

Definition sort_by_score_desc (l : list Scored.t) : list Scored.t :=
  foldr insert_by_score [] l.

Definition search_candidates (fs : file_system) (filters : Filter.t)
    (top_n : Z) : list Scored.t :=
  let candidates := _load_json fs CANDIDATES_FP [] in
  let jobs := _load_json fs JOBS_FP [] in
  let required_skills := derive_required_skills jobs filters in
  let results := scan filters required_skills 1 candidates in
  let results := sort_by_score_desc results in
  Py.slice_to results top_n.

End Scoring.

(** ** Shortlist manager *)

Definition save_shortlist (fs : file_system) (name : string)
    (candidate_indices : list Z) : file_system * bool :=
  let lists := _load_json fs SHORTLISTS_FP ∅ in
  let lists := <[name := candidate_indices]> lists in
  (_save_json fs SHORTLISTS_FP lists, true).

(* #?(\d+) *)
Definition number_re : regex := Seq (opt (lit "#")) (Group 1 digits).

(** The loop that dereferences the indices: an index outside
    [1..len(candidates)] is passed over. *)
Fixpoint pick (candidates : list Candidate.t) (indices : list Z)
    : list Candidate.t :=
  match indices with
  | [] => []
  | i :: rest =>
      (if (1 <=? i) && (i <=? Py.len candidates)
       then option_list (candidates !! Z.to_nat (i - 1))
       else [])
      ++ pick candidates rest
  end.

Definition _recipients_from_name_or_indices (fs : file_system)
    (target : string) : list Candidate.t :=
  let candidates := _load_json fs CANDIDATES_FP [] in
  let lists : gmap string (list Z) := _load_json fs SHORTLISTS_FP ∅ in
  let indices :=
    match lists !! target with
    | Some saved => saved
    | None => Py.int <$> findall number_re target
    end in
  pick candidates indices.

(** ** E-mail composer *)

Definition closings : gmap string string :=
  list_to_map [
    ("friendly", "Cheers," +:+ Py.nl +:+ "Soukaina — Talent Team");
    ("formal", "Kind regards," +:+ Py.nl +:+ "Soukaina" +:+ Py.nl
               +:+ "Talent Acquisition");
    ("concise", "Thanks," +:+ Py.nl +:+ "Soukaina") ].

Definition draft_email (fs : file_system) (recipients : list Candidate.t)
    (job_title tone : string) : Email.t :=
  if negb (Py.truthy_list recipients) then Email.Make "" ""
  else
    let jobs := _load_json fs JOBS_FP [] in
    let job :=
      List.find (fun j => String.eqb (Py.lower (Job.title j))
                                     (Py.lower job_title)) jobs in
    let jd := from_option Job.jdSnippet "" job in
    let skills :=
      from_option (fun j => Py.join ", " (Job.skillsRequired j)) "" job in
    let '(subject, greeting) :=
      match recipients with
      | [r] =>
          (Candidate.firstName r +:+ ", quick chat about a " +:+ job_title
             +:+ " opportunity?",
           "Hi " +:+ Candidate.firstName r +:+ ",")
      | _ =>
          ("Quick chat about a " +:+ job_title +:+ " opportunity?",
           "Hi there,")
      end in
    let closing :=
      default (default "" (closings !! "friendly")) (closings !! tone) in
    let body_lines :=
      [ greeting; "";
        "I'm reaching out about a " +:+ job_title +:+ " role in "
          +:+ from_option Job.location "our team" job +:+ "." ] in
    let body_lines :=
      if Py.truthy_str jd then body_lines ++ [jd] else body_lines in
    let body_lines :=
      if Py.truthy_str skills
      then body_lines ++ ["Nice-to-have: " +:+ skills +:+ "."]
      else body_lines in
    let body_lines :=
      body_lines ++
      [ "";
        "Would you be open to a quick chat this week? I’d love to learn more about your interests.";
        ""; closing ] in
    Email.Make subject (Py.join Py.nl body_lines).

(** ** The statements of the specification, as definitions *)

(** One point when [P] holds. *)
Definition point (P : Prop) `{Decision P} : Z := if bool_decide P then 1 else 0.

(** Two strings are equal up to case. *)
Definition same_ignoring_case (a b : string) : Prop := Py.lower a = Py.lower b.

#[global] Instance same_ignoring_case_dec a b : Decision (same_ignoring_case a b).
Proof. unfold same_ignoring_case. apply _. Defined.

(** The text [parse_query] extracts from. *)
Definition normalised (text : string) : string := Py.strip (Py.lower text).

Section RulePoints.

Variable fromisoformat : string -> option Date.t.
Variable today : Date.t.

(** 2 points per required skill present in the candidate's skills. *)
Fixpoint skill_points (candidate_skills required_skills : list string) : Z :=
  match required_skills with
  | [] => 0
  | s :: rest =>
      (if bool_decide (s ∈ candidate_skills) then 2 else 0)
      + skill_points candidate_skills rest
  end.

(** 1 point when both bounds are given and the experience lies in
    [minExp - 1, maxExp + 1]. *)
Definition experience_point (c : Candidate.t) (minExp maxExp : option Z) : Z :=
  match minExp, maxExp with
  | Some lo, Some hi =>
      let exp := default 0 (Candidate.experienceYears c) in
      point (lo - 1 <= exp <= hi + 1)
  | _, _ => 0
  end.

(** The candidate's availability date lies 0 to [window] days after
    [today]. *)
Definition available_within (c : Candidate.t) (window : Z) : Prop :=
  exists avail,
    Candidate.availabilityDate c ≫= fromisoformat = Some avail /\
    0 <= Date.days_between avail today <= window.

#[local] Instance available_within_dec c window :
  Decision (available_within c window).
Proof.
  unfold available_within.
  destruct (Candidate.availabilityDate c ≫= fromisoformat) as [avail|].
  - destruct (decide (0 <= Date.days_between avail today <= window)).
    + left. eauto.
    + right. intros (a & [= <-] & ?). tauto.
  - right. intros (a & [=] & ?).
Defined.

(** The location and availability points as the specification words them:
    the filter is given, and it matches. *)
Definition location_point_as_stated (c : Candidate.t)
    (location : option string) : Z :=
  match location with
  | Some loc =>
      point (same_ignoring_case loc (default "" (Candidate.location c)))
  | None => 0
  end.

Definition availability_point_as_stated (c : Candidate.t)
    (availability_days : option Z) : Z :=
  match availability_days with
  | Some window => point (available_within c window)
  | None => 0
  end.

Definition rule_points_as_stated (c : Candidate.t)
    (required_skills : list string) (location : option string)
    (minExp maxExp availability_days : option Z) : Z :=
  skill_points (default [] (Candidate.skills c)) required_skills
  + location_point_as_stated c location
  + experience_point c minExp maxExp
  + availability_point_as_stated c availability_days.

(** The same points with the guards of the source: an empty location text
    and a window of 0 days count as no filter. *)
Definition location_point (c : Candidate.t) (location : option string) : Z :=
  match location with
  | Some loc =>
      point (loc <> "" /\
             same_ignoring_case loc (default "" (Candidate.location c)))
  | None => 0
  end.

Definition availability_point (c : Candidate.t)
    (availability_days : option Z) : Z :=
  match availability_days with
  | Some window => point (window <> 0 /\ available_within c window)
  | None => 0
  end.

Definition rule_points (c : Candidate.t) (required_skills : list string)
    (location : option string) (minExp maxExp availability_days : option Z)
    : Z :=
  skill_points (default [] (Candidate.skills c)) required_skills
  + location_point c location
  + experience_point c minExp maxExp
  + availability_point c availability_days.

(** A candidate record as the data model describes it: a city, a list of
    skills, a non-negative number of years and an ISO date. *)
Definition well_formed (c : Candidate.t) : Prop :=
  (exists city, Candidate.location c = Some city /\ city <> "") /\
  is_Some (Candidate.skills c) /\
  (exists years, Candidate.experienceYears c = Some years /\ 0 <= years) /\
  is_Some (Candidate.availabilityDate c ≫= fromisoformat).

(** The score pair [search_candidates] computes for [c]. *)
Definition scored_with (filters : Filter.t) (required_skills : list string)
    (c : Candidate.t) : tally :=
  _score_candidate fromisoformat today c required_skills (Filter.location filters)
    (Filter.minExp filters) (Filter.maxExp filters)
    (Filter.availabilityWindowDays filters).

(** What an entry made by the loop from index [idx] over [cs] records. *)
Definition entry_of (filters : Filter.t) (required_skills : list string)
    (idx : Z) (cs : list Candidate.t) (r : Scored.t) : Prop :=
  exists k : nat,
    Scored.index r = idx + Z.of_nat k /\
    cs !! k = Some (Scored.candidate r) /\
    Scored.score r = fst (scored_with filters required_skills (Scored.candidate r)) /\
    0 < Scored.score r /\
    Scored.reason r
    = reason_text (Scored.score r)
        (snd (scored_with filters required_skills (Scored.candidate r))).

(** The invariant of the running pair: every reason recorded came with at
    least one point, and no point came without a reason. *)
Definition in_step (st : tally) : Prop :=
  Py.len (snd st) <= fst st /\ (snd st = [] -> fst st = 0).

End RulePoints.

(** The candidate [c] with the skill [s] added to its skills. *)
Definition with_skill (s : string) (c : Candidate.t) : Candidate.t :=
  Candidate.Make (Candidate.firstName c) (Candidate.lastName c)
    (Candidate.location c) (Some (default [] (Candidate.skills c) ++ [s]))
    (Candidate.experienceYears c) (Candidate.availabilityDate c)
    (Candidate.stage c).

(** The order of a result list: higher score first, and among equal scores
    the smaller candidate index first. *)
Definition ranked_before (a b : Scored.t) : Prop :=
  Scored.score b < Scored.score a \/
  (Scored.score a = Scored.score b /\ Scored.index a < Scored.index b).

(** The candidate at the 1-based position [i], if there is one. *)
Definition candidate_at (candidates : list Candidate.t) (i : Z)
    : option Candidate.t :=
  if 0 <? i then candidates !! Z.to_nat (i - 1) else None.

(** The availability window if the three checks were independent
    assignments made one after the other, the last one winning. *)
Definition availability_last_wins (t : string) : option Z :=
  let w := None in
  let w := if Py.contains "available this month" t || Py.contains "this month" t
           then Some 30 else w in
  let w := match search avail_re t with
           | Some m => Some (Py.int (group_or_empty 1 m))
           | None => w
           end in
  let w := if Py.contains "available next month" t then Some 45 else w in
  w.


(** ** Sample data *)

Module Sample.
Definition today : Date.t := Date.Make 2025 1 10.

Definition amina : Candidate.t :=
  Candidate.Make "Amina" "Idrissi" (Some "Casablanca") (Some ["React"; "JS"])
    (Some 1) (Some "2025-01-15") (Some "SCREEN").

Definition omar : Candidate.t :=
  Candidate.Make "Omar" "Tazi" (Some "Rabat") (Some ["Python"; "React"])
    (Some 5) (Some "2025-03-15") (Some "APPLIED").

Definition salma : Candidate.t :=
  Candidate.Make "Salma" "Alaoui" (Some "Rabat") (Some ["React"; "Redux"])
    (Some 2) (Some "2025-01-10") (Some "APPLIED").

Definition frontend_intern : Job.t :=
  Job.Make "Frontend Intern" "Casablanca" ["React"; "JS"]
    "Build and ship UI features.".

Definition files : file_system :=
  _save_json (_save_json no_files CANDIDATES_FP [omar; amina; salma])
    JOBS_FP [frontend_intern].

(** The candidate file of [files] after it lost its last entry. *)
Definition files_shrunk : file_system :=
  _save_json (fst (save_shortlist files "FE-Intern-A" [2; 3]))
    CANDIDATES_FP [omar; amina].

Definition react_filter : Filter.t :=
  Filter.Make None ["React"] None None None None.

(** A record with a name and skills only, as the scoring accepts it, and
    the sample candidates with this record added. *)
Definition nadia : Candidate.t :=
  Candidate.Make "Nadia" "Berrada" None (Some ["React"]) None None None.

Definition files_with_nadia : file_system :=
  _save_json files CANDIDATES_FP [omar; amina; salma; nadia].

End Sample.

(** ** More Python text operations *)

Module PyText.

(** The double quote. *)
Definition dq_char : ascii := ascii_of_N 34.
Definition dq : string := String dq_char EmptyString.

(** [s.split(sep)] for a separator of one character: the segments between
    the occurrences of [sep]; there is always at least one segment. *)
Fixpoint split (sep : ascii) (s : string) : list string :=
  match s with
  | EmptyString => [EmptyString]
  | String c s' =>
      if Ascii.eqb c sep then EmptyString :: split sep s'
      else match split sep s' with
           | first :: rest => String c first :: rest
           | [] => [String c EmptyString]
           end
  end.

Definition nl_char : ascii := ascii_of_N 10.

(** [s.isdigit()] on the ASCII range: a non-empty string of digits. *)
Definition isdigit (s : string) : bool :=
  match s with
  | EmptyString => false
  | _ => Py.all_chars Py.is_digit s
  end.

(** [s.startswith(prefix)]. *)
Definition startswith (prefix s : string) : bool := String.prefix prefix s.

(** [l.index(x)]; [None] stands for the [ValueError]. *)
Fixpoint index (x : string) (l : list string) : option Z :=
  match l with
  | [] => None
  | y :: l' => if String.eqb y x then Some 0 else Z.succ <$> index x l'
  end.

(** The text of a list of integers in an f-string. *)
Definition repr_ints (l : list Z) : string :=
  "[" +:+ Py.join ", " (Py.str <$> l) +:+ "]".

(** [print(s)] writes [s] and a line feed. *)
Definition print (s : string) : list string := [s +:+ Py.nl].

End PyText.

(** ** Analytics *)

(** A [defaultdict(int)] or [Counter]: the keys in the order they were
    first counted, each with its count. *)
Definition counter : Type := list (string * Z).

(** [m[key] += 1]. *)
Fixpoint bump (key : string) (m : counter) : counter :=
  match m with
  | [] => [(key, 1)]
  | (k, v) :: rest =>
      if String.eqb k key then (k, v + 1) :: rest
      else (k, v) :: bump key rest
  end.

(** [m[key]], 0 for a key that was never counted. *)
Fixpoint count_of (key : string) (m : counter) : Z :=
  match m with
  | [] => 0
  | (k, v) :: rest => if String.eqb k key then v else count_of key rest
  end.

(** [Counter.most_common(n)]: the entries by descending count, entries of
    equal count in the order they were first counted, cut after [n]. *)
Fixpoint insert_by_count (x : string * Z) (l : counter) : counter :=
  match l with
  | [] => [x]
  | y :: l' =>
      if snd x <? snd y then y :: insert_by_count x l' else x :: y :: l'
  end.

Definition most_common (n : Z) (m : counter) : counter :=
  Py.slice_to (foldr insert_by_count [] m) n.

Module Analytics.
Record t := Make {
  countByStage : counter;
  topSkills : counter
}.
End Analytics.

(** The stage [analytics_summary] counts a candidate under, and the skills
    it counts for it. *)
Definition stage_of (c : Candidate.t) : string :=
  default "UNKNOWN" (Candidate.stage c).

Definition skills_of (c : Candidate.t) : list string :=
  default [] (Candidate.skills c).

(** How often [x] occurs in [l]. *)
Definition occurrences (x : string) (l : list string) : Z :=
  Py.len (List.filter (String.eqb x) l).

(** The sum of the counts. *)
Definition total (m : counter) : Z := foldr (fun kv acc => snd kv + acc) 0 m.

(** The loop of [analytics_summary] over the candidates. *)
Definition tally_candidate (acc : counter * counter) (c : Candidate.t)
    : counter * counter :=
  let countByStage := bump (default "UNKNOWN" (Candidate.stage c)) (fst acc) in
  let skills_counter :=
    fold_left (fun m s => bump s m) (default [] (Candidate.skills c))
              (snd acc) in
  (countByStage, skills_counter).

Definition analytics_summary (fs : file_system) : Analytics.t :=
  let candidates := _load_json fs CANDIDATES_FP [] in
  let '(countByStage, skills_counter) :=
    fold_left tally_candidate candidates ([], []) in
  let topSkills := most_common 3 skills_counter in
  Analytics.Make countByStage topSkills.

(** ** HTML preview *)

(** An e-mail as the dictionary the source passes around. *)
Definition email_dict (e : Email.t) : gmap string string :=
  <["subject" := Email.subject e]> (<["text" := Email.text e]> ∅).

(** One line of the text as HTML. *)
Definition render_line (line : string) : string :=
  if Py.truthy_str (Py.strip line) then "<p>" +:+ line +:+ "</p>"
  else "<br/>".

Definition paragraphs (text : string) : string :=
  Py.join "" (render_line <$> PyText.split PyText.nl_char text).

Definition html_template (email : gmap string string) : string :=
  let subject := default "(no subject)" (email !! "subject") in
  let text := default "" (email !! "text") in
  let paras := paragraphs text in
  let q := PyText.dq in
  Py.join Py.nl [
    "<!DOCTYPE html>";
    "<html>";
    "  <head>";
    "    <meta charset=" +:+ q +:+ "utf-8" +:+ q +:+ "/>";
    "    <title>" +:+ subject +:+ "</title>";
    "    <style>";
    "      body { font-family: Arial, sans-serif; line-height:1.5; padding:24px; background:#f9fafb; }";
    "      .card { max-width:640px; margin:auto; background:white; border:1px solid #e5e7eb; border-radius:12px; padding:24px; }";
    "      .subject { font-size:20px; font-weight:700; margin-bottom:12px; }";
    "      .meta { color:#6b7280; font-size:12px; margin-bottom:16px; }";
    "    </style>";
    "  </head>";
    "  <body>";
    "    <div class=" +:+ q +:+ "card" +:+ q +:+ ">";
    "      <div class=" +:+ q +:+ "subject" +:+ q +:+ ">" +:+ subject
      +:+ "</div>";
    "      <div class=" +:+ q +:+ "meta" +:+ q +:+ ">Preview only</div>";
    "      <div class=" +:+ q +:+ "content" +:+ q +:+ ">" +:+ paras
      +:+ "</div>";
    "    </div>";
    "  </body>";
    "</html>" ].

(** ** Intent classification *)

Definition classify_intent (text : string) : string :=
  let t := Py.lower text in
  if existsb (fun k => Py.contains k t) ["find"; "search"; "look for"]
  then "search"
  else if PyText.startswith "save " t || Py.contains " save " t
  then "save"
  else if PyText.startswith "draft " t
          || Py.contains "draft outreach email" t
          || PyText.startswith "email " t
  then "email"
  else if PyText.startswith "change the subject" t
          || Py.contains "edit subject" t || Py.contains "closing" t
  then "edit_email"
  else if Py.contains "analytics" t || Py.contains "show analytics" t
  then "analytics"
  else if String.eqb t "quit" || String.eqb t "exit"
  then "quit"
  else "unknown".

(** ** The command loop *)

(** The patterns of [repl]; those compiled with [re.IGNORECASE] match
    their letters in either case. *)
Fixpoint lit_i (s : string) : regex :=
  match s with
  | EmptyString => Eps
  | String c EmptyString => Class (fun x => Ascii.eqb (Py.lower_char x) c)
  | String c s' =>
      Seq (Class (fun x => Ascii.eqb (Py.lower_char x) c)) (lit_i s')
  end.

(* Q([^Q]+)Q, where Q stands for the double quote *)
Definition quoted : regex :=
  seqs [ chr PyText.dq_char;
         Group 1 (plus (Class (fun c => negb (Ascii.eqb c PyText.dq_char))));
         chr PyText.dq_char ].

Definition spaces1 : regex := plus (Class Py.is_space).        (* \s+ *)

(* as\s+Q([^Q]+)Q *)
Definition save_name_re : regex := seqs [lit_i "as"; spaces1; quoted].
(* #(\d+) *)
Definition hash_re : regex := Seq (lit "#") (Group 1 digits).
(* for\s+Q([^Q]+)Q *)
Definition for_re : regex := seqs [lit_i "for"; spaces1; quoted].
(* job\s+Q([^Q]+)Q *)
Definition job_re : regex := seqs [lit_i "job"; spaces1; quoted].
(* in\s+(friendly|formal|concise)\s+tone *)
Definition tone_re : regex :=
  seqs [ lit_i "in"; spaces1;
         Group 1 (alts [lit_i "friendly"; lit_i "formal"; lit_i "concise"]);
         spaces1; lit_i "tone" ].
(* subject to\s+Q([^Q]+)Q *)
Definition subject_re : regex := seqs [lit_i "subject to"; spaces1; quoted].
(* closing to\s+Q([^Q]+)Q *)
Definition closing_re : regex := seqs [lit_i "closing to"; spaces1; quoted].

(** The context the loop keeps between two commands, and the files. *)
Record session := Session {
  store : file_system;
  last_search : list Scored.t;
  last_email : option Email.t
}.

(** How a command leaves the loop: it goes on, it ends, or an exception
    that nothing catches ends the program. *)
Inductive status : Type := Running | Finished | Crashed.

(** The indices a save command stores: for each number within
    [1..len(last_search)], the candidate index of the entry listed under
    that number. *)
Fixpoint mapped_indices (last_search : list Scored.t) (nums : list string)
    : list Z :=
  match nums with
  | [] => []
  | n :: rest =>
      let i := Py.int n in
      (if (1 <=? i) && (i <=? Py.len last_search)
       then option_list (Scored.index <$> last_search !! Z.to_nat (i - 1))
       else [])
      ++ mapped_indices last_search rest
  end.

(** The entries of the listing a save command names: for each number
    within [1..len(last_search)], the entry listed under it. *)
Fixpoint displayed (last_search : list Scored.t) (nums : list string)
    : list Scored.t :=
  match nums with
  | [] => []
  | n :: rest =>
      let i := Py.int n in
      (if (1 <=? i) && (i <=? Py.len last_search)
       then option_list (last_search !! Z.to_nat (i - 1))
       else [])
      ++ displayed last_search rest
  end.

(** A candidate record with the keys that the listing reads by subscript
    and that the scoring lets be absent.  (The two names, read by
    subscript too, are always present in a record of type
    [Candidate.t].) *)
Definition complete (c : Candidate.t) : Prop :=
  is_Some (Candidate.location c) /\ is_Some (Candidate.experienceYears c)
  /\ is_Some (Candidate.skills c).

(** The closing of a text replaced: the lines after the last empty line
    give way to [closing]. *)
Definition replace_closing (text closing : string) : string :=
  let parts := PyText.split PyText.nl_char text in
  let last_blank :=
    match PyText.index "" (reverse parts) with
    | Some i => Py.len parts - 1 - i
    | None => Py.len parts - 1                    (* except ValueError *)
    end in
  Py.join Py.nl (Py.slice_to parts (last_blank + 1) ++ [closing]).

(** The closing [draft_email] takes for a tone. *)
Definition closing_for (tone : string) : string :=
  default (default "" (closings !! "friendly")) (closings !! tone).

(** The preview both e-mail commands print. *)
Definition preview (email : Email.t) : list string :=
  PyText.print ("Subject: " +:+ Email.subject email)
  ++ PyText.print "----- HTML PREVIEW BEGIN -----"
  ++ PyText.print (html_template (email_dict email))
  ++ PyText.print "----- HTML PREVIEW END -----".

(** The lines of one entry of the listing; a candidate without location,
    experience or skills raises [KeyError]. *)
Definition listing_entry (i : Z) (r : Scored.t) : option (list string) :=
  let c := Scored.candidate r in
  location ← Candidate.location c;
  years ← Candidate.experienceYears c;
  skills ← Candidate.skills c;
  let full :=
    Candidate.firstName c +:+ " " +:+ Candidate.lastName c +:+ " — "
    +:+ location +:+ " — " +:+ Py.str years +:+ "y — skills: "
    +:+ Py.join ", " skills in
  Some (PyText.print ("#" +:+ Py.str i +:+ " (idx "
                      +:+ Py.str (Scored.index r) +:+ "): " +:+ full)
        ++ PyText.print ("   Why: " +:+ Scored.reason r)).

(** The listing from the display number [i] on: what is printed, and
    whether the loop got to its end. *)
Fixpoint listing (i : Z) (results : list Scored.t) : list string * bool :=
  match results with
  | [] => ([], true)
  | r :: rest =>
      match listing_entry i r with
      | Some lines =>
          let '(more, ok) := listing (i + 1) rest in (lines ++ more, ok)
      | None => ([], false)
      end
  end.

Section Router.

Variable fromisoformat : string -> option Date.t.
Variable today : Date.t.

Definition on_search (st : session) (q : string)
    : status * session * list string :=
  let filters := parse_query q in
  let results := search_candidates fromisoformat today (store st) filters 5 in
  let st := Session (store st) results (last_email st) in
  if negb (Py.truthy_list results)
  then (Running, st,
        PyText.print "No matches found."
        ++ PyText.print ("Tip: Save #1 #3 as " +:+ PyText.dq +:+ "Name-Here"
                         +:+ PyText.dq))
  else
    let '(lines, ok) := listing 1 results in
    if ok
    then (Running, st,
          lines
          ++ PyText.print ("Tip: Save #1 #3 as " +:+ PyText.dq
                           +:+ "Name-Here" +:+ PyText.dq))
    else (Crashed, st, lines).

Definition on_save (st : session) (q : string)
    : status * session * list string :=
  let name_match := search save_name_re q in
  let nums := findall hash_re q in
  match name_match with
  | Some m =>
      if Py.truthy_list nums then
        let name := group_or_empty 1 m in
        let mapped := mapped_indices (last_search st) nums in
        if negb (Py.truthy_list mapped)
        then (Running, st,
              PyText.print "Nothing saved; numbers out of range.")
        else
          let fs := fst (save_shortlist (store st) name mapped) in
          (Running, Session fs (last_search st) (last_email st),
           PyText.print ("Shortlist " +:+ PyText.dq +:+ name +:+ PyText.dq
                         +:+ " saved with indices: "
                         +:+ PyText.repr_ints mapped))
      else (Running, st,
            PyText.print ("Usage: Save #1 #3 as " +:+ PyText.dq
                          +:+ "Shortlist-Name" +:+ PyText.dq
                          +:+ " (use # from last search)"))
  | None =>
      (Running, st,
       PyText.print ("Usage: Save #1 #3 as " +:+ PyText.dq
                     +:+ "Shortlist-Name" +:+ PyText.dq
                     +:+ " (use # from last search)"))
  end.

(** The recipients text of an e-mail command: the quoted name after
    [for], or else the numbers after [#] joined by commas. *)
Definition email_target (q : string) : string :=
  match search for_re q with
  | Some m => group_or_empty 1 m
  | None =>
      let nums := findall hash_re q in
      if Py.truthy_list nums then Py.join "," nums else ""
  end.

Definition email_job_title (q : string) : string :=
  match search job_re q with
  | Some m => group_or_empty 1 m
  | None => "Opportunity"
  end.

Definition email_tone (q : string) : string :=
  match search tone_re q with
  | Some m => Py.lower (group_or_empty 1 m)
  | None => "friendly"
  end.

Definition on_email (st : session) (q : string)
    : status * session * list string :=
  let recipients :=
    _recipients_from_name_or_indices (store st) (email_target q) in
  let email :=
    draft_email (store st) recipients (email_job_title q) (email_tone q) in
  (Running, Session (store st) (last_search st) (Some email),
   preview email
   ++ PyText.print ("Edit subject or closing? Example: Change the subject to "
                    +:+ PyText.dq +:+ "New subject" +:+ PyText.dq)).

Definition on_edit_email (st : session) (q : string)
    : status * session * list string :=
  match last_email st with
  | None => (Running, st, PyText.print "No email in context. Draft one first.")
  | Some email =>
      let email :=
        match search subject_re q with
        | Some m => Email.Make (group_or_empty 1 m) (Email.text email)
        | None => email
        end in
      let email :=
        match search closing_re q with
        | Some m =>
            Email.Make (Email.subject email)
              (replace_closing (Email.text email) (group_or_empty 1 m))
        | None => email
        end in
      (Running, Session (store st) (last_search st) (Some email),
       preview email)
  end.

Definition on_analytics (st : session) : status * session * list string :=
  let a := analytics_summary (store st) in
  (Running, st,
   PyText.print ("Pipeline by stage: "
                 +:+ Py.join ", "
                       ((fun '(k, v) => k +:+ "=" +:+ Py.str v)
                          <$> Analytics.countByStage a))
   ++ PyText.print ("Top skills: "
                    +:+ Py.join ", "
                          ((fun '(k, v) => k +:+ "(" +:+ Py.str v +:+ ")")
                             <$> Analytics.topSkills a))).

(** One turn of the loop on the line read. *)
Definition on_line (st : session) (line : string)
    : status * session * list string :=
  let q := Py.strip line in
  if negb (Py.truthy_str q) then (Running, st, [])
  else
    let intent := classify_intent q in
    if String.eqb intent "quit" then (Finished, st, PyText.print "Bye.")
    else if String.eqb intent "search" then on_search st q
    else if String.eqb intent "save" then on_save st q
    else if String.eqb intent "email" then on_email st q
    else if String.eqb intent "edit_email" then on_edit_email st q
    else if String.eqb intent "analytics" then on_analytics st
    else (Running, st,
          PyText.print "I didn't understand. Try: Find React interns in Casablanca, 0–2 years, available this month").

(** The loop on the lines of the input; the end of the input ends it. *)
Fixpoint repl_from (st : session) (inputs : list string)
    : status * session * list string :=
  match inputs with
  | [] => (Finished, st, ["> "] ++ PyText.print (Py.nl +:+ "Bye."))
  | line :: rest =>
      let '(s, st', out) := on_line st line in
      match s with
      | Running =>
          let '(s', st'', out') := repl_from st' rest in
          (s', st'', ["> "] ++ out ++ out')
      | _ => (s, st', ["> "] ++ out)
      end
  end.

Definition repl (fs : file_system) (inputs : list string)
    : status * session * list string :=
  let '(s, st, out) := repl_from (Session fs [] None) inputs in
  (s, st, PyText.print "HR Agent — type 'Quit' to exit." ++ out).

End Router.

(** ** The exceptions the source lets through

    The definitions above give the value each function computes on a
    typed store.  Two library calls of the source can raise an exception
    that no handler of the source catches: [int] on a numeral of more than
    4300 digits, and [json.load] on a file that is not UTF-8 or that the
    parser gives up on.  The module [Raising] holds the functions around
    these calls once more, with the exception threaded through, over the
    bytes of the files. *)

Inductive exn : Type :=
| ValueError
| JSONDecodeError
| UnicodeDecodeError
| RecursionError.

(** A call returns a value or raises. *)
Inductive outcome (A : Type) : Type :=
| Returns (a : A)
| Raises (e : exn).
Arguments Returns {A} a.
Arguments Raises {A} e.

#[global] Instance outcome_ret : MRet outcome := fun A a => Returns a.

#[global] Instance outcome_bind : MBind outcome :=
  fun A B f m => match m with Returns a => f a | Raises e => Raises e end.

(** The exception of an outcome, if it is one. *)
Definition raised {A} (m : outcome A) : option exn :=
  match m with Returns _ => None | Raises e => Some e end.

(** The files as bytes: each path has no file or the bytes of one. *)
Definition disk : Type := path -> option string.

Module Raising.

(** [int(s)] for a string of decimal digits. *)
Definition int (s : string) : outcome Z :=
  if (Py.int_max_str_digits <? String.length s)%nat then Raises ValueError
  else Returns (Py.int s).

Definition parse_experience (t : string) (filters : Filter.t)
    : outcome Filter.t :=
  match search range_re t with
  | Some m =>
      lo ← int (group_or_empty 1 m);
      hi ← int (group_or_empty 2 m);
      Returns (Filter.set_maxExp (Some hi)
                 (Filter.set_minExp (Some lo) filters))
  | None =>
      match search single_re t with
      | Some m =>
          v ← int (group_or_empty 1 m);
          Returns (Filter.set_maxExp (Some v)
                     (Filter.set_minExp (Some (Z.max 0 (v - 1))) filters))
      | None => Returns filters
      end
  end.

Definition parse_availability (t : string) (filters : Filter.t)
    : outcome Filter.t :=
  if Py.contains "available this month" t || Py.contains "this month" t
  then Returns (Filter.set_availabilityWindowDays (Some 30) filters)
  else
    filters ←
      match search avail_re t with
      | Some m =>
          days ← int (group_or_empty 1 m);
          Returns (Filter.set_availabilityWindowDays (Some days) filters)
      | None => Returns filters
      end;
    if Py.contains "available next month" t
    then Returns (Filter.set_availabilityWindowDays (Some 45) filters)
    else Returns filters.

Definition parse_query (text : string) : outcome Filter.t :=
  let t := Py.strip (Py.lower text) in
  let filters := Filter.empty in
  let filters := parse_role t filters in
  let filters := parse_location t filters in
  filters ← parse_experience t filters;
  let filters := parse_skills t filters in
  parse_availability t filters.

(** [f.read()] on a file opened with [encoding="utf-8"]: the text, or
    [UnicodeDecodeError] for bytes that are not UTF-8. *)
Definition read_text (raw : string) : outcome string :=
  if Py.utf8_valid raw then Returns raw else Raises UnicodeDecodeError.

Section Files.

(** [json.loads] on the text of the file at a path: the document, or the
    exception the parser raises. *)
Variable json_loads : forall p : path, string -> outcome (document p).

Definition _load_json (d : disk) (p : path) (default : document p)
    : outcome (document p) :=
  match d p with
  | None => Returns default              (* not os.path.exists(path) *)
  | Some raw =>
      text ← read_text raw;
      match json_loads p text with
      | Raises JSONDecodeError => Returns default
      | loaded => loaded
      end
  end.

(** The typed store a disk amounts to where its files can be read. *)
Definition store_of (d : disk) : file_system :=
  fun p =>
    match d p with
    | None => None
    | Some raw =>
        match json_loads p raw with
        | Returns doc => Some (Json doc)
        | Raises _ => Some (Malformed raw)
        end
    end.

Variable fromisoformat : string -> option Date.t.
Variable today : Date.t.

Definition search_candidates (d : disk) (filters : Filter.t) (top_n : Z)
    : outcome (list Scored.t) :=
  candidates ← _load_json d CANDIDATES_FP [];
  jobs ← _load_json d JOBS_FP [];
  let required_skills := derive_required_skills jobs filters in
  let results := scan fromisoformat today filters required_skills 1
                      candidates in
  let results := sort_by_score_desc results in
  Returns (Py.slice_to results top_n).

End Files.

End Raising.

(** Sample files as bytes, and a parser that knows them. *)
Module SampleBytes.

(** A quoted JSON string. *)
Definition quote (s : string) : string := PyText.dq +:+ s +:+ PyText.dq.

(** The text of a candidates file with one record, and of two jobs
    files. *)
Definition candidates_text : string :=
  "[{" +:+ quote "firstName" +:+ ": " +:+ quote "Amina" +:+ ", "
  +:+ quote "lastName" +:+ ": " +:+ quote "Idrissi" +:+ ", "
  +:+ quote "skills" +:+ ": [" +:+ quote "React" +:+ "]}]".

Definition jobs_text : string :=
  "[{" +:+ quote "title" +:+ ": " +:+ quote "Frontend Intern" +:+ ", "
  +:+ quote "location" +:+ ": " +:+ quote "Casablanca" +:+ ", "
  +:+ quote "skillsRequired" +:+ ": [" +:+ quote "React" +:+ "], "
  +:+ quote "jdSnippet" +:+ ": " +:+ quote "Build UI." +:+ "}]".

(** What [json.loads] returns for these texts; the instance takes any
    other text to be no JSON. *)
Definition json_loads (p : path) (text : string) : outcome (document p) :=
  match p with
  | CANDIDATES_FP =>
      if String.eqb text candidates_text
      then Returns [Candidate.Make "Amina" "Idrissi" None (Some ["React"])
                      None None None]
      else if String.eqb text "[]" then Returns []
      else Raises JSONDecodeError
  | JOBS_FP =>
      if String.eqb text jobs_text
      then Returns [Job.Make "Frontend Intern" "Casablanca" ["React"]
                      "Build UI."]
      else if String.eqb text "[]" then Returns []
      else Raises JSONDecodeError
  | SHORTLISTS_FP =>
      if String.eqb text "{}" then Returns ∅ else Raises JSONDecodeError
  end.

Definition disk_with_jobs : disk :=
  fun p =>
    match p with
    | CANDIDATES_FP => Some candidates_text
    | JOBS_FP => Some jobs_text
    | SHORTLISTS_FP => None
    end.

Definition disk_without_jobs : disk :=
  fun p =>
    match p with
    | CANDIDATES_FP => Some candidates_text
    | _ => None
    end.

(** The text [["Zoé"]] as Latin-1 encodes it: the byte E9 stands for the
    accented letter, and the bytes are not UTF-8. *)
Definition latin1_text : string :=
  "[" +:+ quote ("Zo" +:+ String (ascii_of_N 233) "") +:+ "]".

(** A disk whose three files hold these bytes. *)
Definition disk_latin1 : disk := fun _ => Some latin1_text.

End SampleBytes.



(** ** Properties of the scoring engine *)

Section ScoringProperties.

Variable fromisoformat : string -> option Date.t.
Variable today : Date.t.

Abbreviation score_candidate := (_score_candidate fromisoformat today).
Abbreviation points := (rule_points fromisoformat today).

Lemma truthy_list_false {A} (l : list A) : Py.truthy_list l = false -> l = [].
Proof. destruct l; [reflexivity | discriminate]. Qed.

Lemma truthy_str_spec (s : string) : Py.truthy_str s = true <-> s <> "".
Proof. destruct s; simpl; split; congruence. Qed.

Lemma skill_points_filter (cs req : list string) :
  skill_points cs req = 2 * Py.len (List.filter (fun s => Py.mem s cs) req).
Proof.
  unfold Py.len, Py.mem.
  induction req as [|s req IH]; [reflexivity|].
  cbn [skill_points List.filter]. rewrite IH.
  destruct (bool_decide (s ∈ cs)); cbn [length]; lia.
Qed.

Lemma skill_points_nonneg (cs req : list string) : 0 <= skill_points cs req.
Proof.
  induction req as [|s req IH]; cbn [skill_points]; [lia|].
  destruct (bool_decide (s ∈ cs)); lia.
Qed.

(** Each rule adds its points to the running score. *)
Lemma fst_skills_rule c req st :
  fst (skills_rule c req st)
  = fst st + skill_points (default [] (Candidate.skills c)) req.
Proof.
  unfold skills_rule. rewrite skill_points_filter.
  destruct (Py.truthy_list req) eqn:Hreq.
  - destruct (Py.truthy_list (List.filter _ req)) eqn:Hm.
    + unfold award. cbn [fst]. reflexivity.
    + apply truthy_list_false in Hm. rewrite Hm. unfold Py.len. cbn [length]. lia.
  - apply truthy_list_false in Hreq. subst req. unfold Py.len. cbn [List.filter length]. lia.
Qed.

Lemma fst_location_rule c loc st :
  fst (location_rule c loc st) = fst st + location_point c loc.
Proof.
  unfold location_rule, location_point, point.
  destruct loc as [loc|]; [|cbn; lia].
  destruct (Py.truthy_str loc) eqn:Ht; cbn [andb].
  - apply truthy_str_spec in Ht.
    destruct (String.eqb_spec (Py.lower loc)
                (Py.lower (default "" (Candidate.location c)))) as [He|He].
    + rewrite bool_decide_eq_true_2 by (split; assumption). reflexivity.
    + rewrite bool_decide_eq_false_2; [cbn; lia|].
      intros [_ Hc]. exact (He Hc).
  - rewrite bool_decide_eq_false_2; [cbn; lia|].
    intros [Hne _]. apply truthy_str_spec in Hne. congruence.
Qed.

Lemma fst_experience_rule c lo hi st :
  fst (experience_rule c lo hi st) = fst st + experience_point c lo hi.
Proof.
  unfold experience_rule, experience_point, point.
  destruct lo as [lo|], hi as [hi|]; try (cbn; lia).
  cbn zeta. set (exp := default 0 (Candidate.experienceYears c)).
  destruct (lo - 1 <=? exp) eqn:H1, (exp <=? hi + 1) eqn:H2; cbn [andb];
    case_bool_decide; cbn; lia.
Qed.

Lemma available_within_parsed c w avail :
  Candidate.availabilityDate c ≫= fromisoformat = Some avail ->
  available_within fromisoformat today c w
  <-> 0 <= Date.days_between avail today <= w.
Proof.
  intros Ha. unfold available_within. rewrite Ha. split.
  - intros (a & [= <-] & H). exact H.
  - intros H. exists avail. split; [reflexivity | exact H].
Qed.

Lemma available_within_unparsed c w :
  Candidate.availabilityDate c ≫= fromisoformat = None ->
  ~ available_within fromisoformat today c w.
Proof.
  intros Ha (a & H & _). rewrite Ha in H. discriminate H.
Qed.

Lemma fst_availability_rule c w st :
  fst (availability_rule fromisoformat today c w st)
  = fst st + availability_point fromisoformat today c w.
Proof.
  unfold availability_rule, availability_point, point, Py.truthy_int.
  destruct w as [w|]; [|cbn; lia].
  destruct (Z.eqb_spec w 0) as [->|Hw]; cbn [negb].
  - rewrite bool_decide_eq_false_2 by tauto. cbn; lia.
  - destruct (Candidate.availabilityDate c ≫= fromisoformat) as [avail|] eqn:Ha.
    + cbn zeta. pose proof (available_within_parsed c w avail Ha) as Hiff.
      destruct (0 <=? Date.days_between avail today) eqn:H1,
               (Date.days_between avail today <=? w) eqn:H2; cbn [andb].
      * rewrite bool_decide_eq_true_2; [reflexivity|].
        split; [assumption|]. apply Hiff. lia.
      * rewrite bool_decide_eq_false_2; [cbn; lia|].
        intros [_ H]. apply Hiff in H. lia.
      * rewrite bool_decide_eq_false_2; [cbn; lia|].
        intros [_ H]. apply Hiff in H. lia.
      * rewrite bool_decide_eq_false_2; [cbn; lia|].
        intros [_ H]. apply Hiff in H. lia.
    + rewrite bool_decide_eq_false_2; [cbn; lia|].
      intros [_ H]. exact (available_within_unparsed c w Ha H).
Qed.

Lemma score_sum c req loc lo hi w :
  fst (score_candidate c req loc lo hi w) = points c req loc lo hi w.
Proof.
  unfold _score_candidate, rule_points.
  rewrite fst_availability_rule, fst_experience_rule, fst_location_rule,
    fst_skills_rule.
  cbn [fst]. lia.
Qed.

Lemma award_in_step pts reason st :
  0 < pts -> in_step st -> in_step (award pts reason st).
Proof.
  intros Hpts [Hlen _]. unfold in_step, award, Py.len in *. cbn [fst snd].
  split.
  - rewrite length_app. cbn [length]. lia.
  - intros H. destruct (snd st); discriminate H.
Qed.

Lemma skills_rule_in_step c req st :
  in_step st -> in_step (skills_rule c req st).
Proof.
  intros Hst. unfold skills_rule.
  destruct (Py.truthy_list req); [|assumption].
  destruct (List.filter _ req) as [|m ms] eqn:Hm; cbn [Py.truthy_list];
    [assumption|].
  apply award_in_step; [|assumption]. unfold Py.len. cbn [length]. lia.
Qed.

Lemma location_rule_in_step c loc st :
  in_step st -> in_step (location_rule c loc st).
Proof.
  intros Hst. unfold location_rule. destruct loc; [|assumption].
  destruct (_ && _); [|assumption]. apply award_in_step; [lia | assumption].
Qed.

Lemma experience_rule_in_step c lo hi st :
  in_step st -> in_step (experience_rule c lo hi st).
Proof.
  intros Hst. unfold experience_rule.
  destruct lo, hi; try assumption. cbn zeta.
  destruct (_ && _); [|assumption]. apply award_in_step; [lia | assumption].
Qed.

Lemma availability_rule_in_step c w st :
  in_step st -> in_step (availability_rule fromisoformat today c w st).
Proof.
  intros Hst. unfold availability_rule. destruct w; [|assumption].
  destruct (Py.truthy_int _); [|assumption].
  destruct (_ ≫= _); [|assumption]. cbn zeta.
  destruct (_ && _); [|assumption]. apply award_in_step; [lia | assumption].
Qed.

Lemma score_in_step c req loc lo hi w :
  in_step (score_candidate c req loc lo hi w).
Proof.
  unfold _score_candidate.
  apply availability_rule_in_step, experience_rule_in_step,
    location_rule_in_step, skills_rule_in_step.
  split; [unfold Py.len; cbn [fst snd length]; lia | reflexivity].
Qed.

Lemma score_zero_iff c req loc lo hi w :
  fst (score_candidate c req loc lo hi w) = 0
  <-> snd (score_candidate c req loc lo hi w) = [].
Proof.
  destruct (score_in_step c req loc lo hi w) as [Hlen Hnil].
  split; [|exact Hnil]. intros Hzero. rewrite Hzero in Hlen.
  unfold Py.len in Hlen.
  destruct (snd (score_candidate c req loc lo hi w)); [reflexivity|].
  cbn [length] in Hlen. lia.
Qed.

Lemma lower_nonempty (s : string) : s <> "" -> Py.lower s <> "".
Proof. destruct s; [congruence | discriminate]. Qed.

(** For a candidate with a city, the guard on the location text changes
    nothing. *)
Lemma location_point_well_formed c loc :
  well_formed fromisoformat c ->
  location_point c loc = location_point_as_stated c loc.
Proof.
  intros [(city & Hcity & Hne) _].
  unfold location_point, location_point_as_stated, point, same_ignoring_case.
  destruct loc as [loc|]; [|reflexivity]. rewrite Hcity. cbn [default from_option id].
  destruct (decide (loc = "")) as [->|Hloc].
  - rewrite !bool_decide_eq_false_2; [reflexivity | |].
    + intros H. apply (lower_nonempty city Hne). symmetry. exact H.
    + intros [H _]. apply H. reflexivity.
  - rewrite (bool_decide_ext (loc <> "" /\ Py.lower loc = Py.lower city)
               (Py.lower loc = Py.lower city)) by tauto.
    reflexivity.
Qed.

Lemma skill_points_app (cs req1 req2 : list string) :
  skill_points cs (req1 ++ req2) = skill_points cs req1 + skill_points cs req2.
Proof.
  induction req1 as [|s req1 IH]; cbn [skill_points app]; [lia|].
  rewrite IH. lia.
Qed.

Lemma skill_points_mono (cs cs' req : list string) :
  cs ⊆ cs' -> skill_points cs req <= skill_points cs' req.
Proof.
  intros Hsub. induction req as [|s req IH]; cbn [skill_points]; [lia|].
  destruct (bool_decide_reflect (s ∈ cs)) as [Hin|Hin].
  - rewrite bool_decide_eq_true_2 by (apply Hsub; exact Hin). lia.
  - destruct (bool_decide (s ∈ cs')); lia.
Qed.

End ScoringProperties.

(** ** Properties of the search orchestrator *)

Section SearchProperties.

Variable fromisoformat : string -> option Date.t.
Variable today : Date.t.

Abbreviation scored := (scored_with fromisoformat today).
Abbreviation entry := (entry_of fromisoformat today).

Lemma scan_cons filters req idx c rest :
  scan fromisoformat today filters req idx (c :: rest)
  = (if 0 <? fst (scored filters req c)
     then [Scored.Make idx c (fst (scored filters req c))
             (reason_text (fst (scored filters req c))
                          (snd (scored filters req c)))]
     else [])
    ++ scan fromisoformat today filters req (idx + 1) rest.
Proof.
  cbn [scan]. unfold scored_with.
  destruct (_score_candidate fromisoformat today c req _ _ _ _)
    as [score reasons].
  reflexivity.
Qed.

Lemma scan_entries filters req cs : forall idx,
  Forall (entry filters req idx cs)
         (scan fromisoformat today filters req idx cs).
Proof.
  induction cs as [|c rest IH]; intros idx; [constructor|].
  rewrite scan_cons. apply Forall_app. split.
  - destruct (0 <? fst (scored filters req c)) eqn:Hpos; [|constructor].
    repeat constructor. exists 0%nat. cbn.
    repeat split; try reflexivity; lia.
  - eapply Forall_impl; [apply IH|].
    intros r (k & Hi & Hk & Hrest). exists (S k).
    split; [lia|]. split; [exact Hk | exact Hrest].
Qed.

Lemma scan_index_sorted filters req cs : forall idx,
  StronglySorted (fun a b => Scored.index a < Scored.index b)
                 (scan fromisoformat today filters req idx cs).
Proof.
  induction cs as [|c rest IH]; intros idx; [constructor|].
  rewrite scan_cons.
  destruct (0 <? fst (scored filters req c)); cbn [app]; [|apply IH].
  constructor; [apply IH|].
  eapply Forall_impl; [apply scan_entries|].
  intros r (k & Hi & _). cbn. lia.
Qed.

Lemma scan_none_positive filters req cs : forall idx,
  Forall (fun c => fst (scored filters req c) <= 0) cs ->
  scan fromisoformat today filters req idx cs = [].
Proof.
  induction cs as [|c rest IH]; intros idx Hall; [reflexivity|].
  rewrite scan_cons. inversion Hall as [|? ? Hc Hrest]; subst.
  rewrite IH by assumption.
  destruct (Z.ltb_spec 0 (fst (scored filters req c))); [lia|reflexivity].
Qed.

(** The stable sort. *)
Lemma insert_by_score_perm x l : insert_by_score x l ≡ₚ x :: l.
Proof.
  induction l as [|y l IH]; cbn [insert_by_score]; [reflexivity|].
  destruct (Scored.score x <? Scored.score y); [|reflexivity].
  rewrite IH. apply perm_swap.
Qed.

Lemma sort_by_score_desc_perm l : sort_by_score_desc l ≡ₚ l.
Proof.
  induction l as [|x l IH]; [reflexivity|].
  cbn [sort_by_score_desc foldr]. rewrite insert_by_score_perm.
  apply Permutation_cons; [reflexivity | exact IH].
Qed.

Lemma ranked_before_not_greater a b :
  ranked_before a b -> Scored.score b <= Scored.score a.
Proof. unfold ranked_before. lia. Qed.

Lemma insert_by_score_sorted x l :
  StronglySorted ranked_before l ->
  Forall (fun y => Scored.index x < Scored.index y) l ->
  StronglySorted ranked_before (insert_by_score x l).
Proof.
  induction l as [|y l IH]; intros Hs Hidx; cbn [insert_by_score].
  - repeat constructor.
  - inversion Hs as [|? ? Hs' Hy]; subst.
    inversion Hidx as [|? ? Hxy Hidx']; subst.
    destruct (Z.ltb_spec (Scored.score x) (Scored.score y)) as [Hlt|Hge].
    + constructor; [apply IH; assumption|].
      rewrite insert_by_score_perm. constructor; [|assumption].
      left. exact Hlt.
    + constructor; [exact Hs|]. constructor.
      * unfold ranked_before. lia.
      * rewrite Forall_forall in Hy, Hidx' |- *. intros z Hz.
        specialize (Hy z Hz). specialize (Hidx' z Hz).
        apply ranked_before_not_greater in Hy. unfold ranked_before. lia.
Qed.

Lemma sort_by_score_desc_sorted l :
  StronglySorted (fun a b => Scored.index a < Scored.index b) l ->
  StronglySorted ranked_before (sort_by_score_desc l).
Proof.
  induction l as [|x l IH]; intros Hs; [constructor|].
  inversion Hs as [|? ? Hs' Hx]; subst.
  cbn [sort_by_score_desc foldr]. apply insert_by_score_sorted.
  - apply IH. exact Hs'.
  - fold (sort_by_score_desc l). rewrite sort_by_score_desc_perm. exact Hx.
Qed.

(** The slice [results[:top_n]]. *)
Lemma StronglySorted_take {A} (R : A -> A -> Prop) (l : list A) : forall n,
  StronglySorted R l -> StronglySorted R (take n l).
Proof.
  induction l as [|x l IH]; intros [|n] Hs; cbn [take]; try constructor.
  - inversion Hs; subst. apply IH. assumption.
  - inversion Hs; subst. apply Forall_take. assumption.
Qed.

Lemma slice_to_is_take {A} (l : list A) (n : Z) :
  exists k : nat, Py.slice_to l n = take k l /\ (0 <= n -> k = Z.to_nat n).
Proof.
  unfold Py.slice_to. destruct (Z.leb_spec 0 n).
  - eexists. split; [reflexivity | reflexivity].
  - eexists. split; [reflexivity | lia].
Qed.

Lemma slice_to_length {A} (l : list A) (n : Z) :
  0 <= n -> Py.len (Py.slice_to l n) <= n.
Proof.
  intros Hn. destruct (slice_to_is_take l n) as (k & -> & Hk).
  unfold Py.len. rewrite length_take, (Hk Hn). lia.
Qed.

Lemma search_candidates_unfold fs filters top_n :
  search_candidates fromisoformat today fs filters top_n
  = Py.slice_to
      (sort_by_score_desc
         (scan fromisoformat today filters
            (derive_required_skills (_load_json fs JOBS_FP []) filters) 1
            (_load_json fs CANDIDATES_FP [])))
      top_n.
Proof. reflexivity. Qed.

(** Whatever holds of every entry the loop makes holds of every result. *)
Lemma search_candidates_Forall (P : Scored.t -> Prop) fs filters top_n :
  Forall P (scan fromisoformat today filters
              (derive_required_skills (_load_json fs JOBS_FP []) filters) 1
              (_load_json fs CANDIDATES_FP [])) ->
  Forall P (search_candidates fromisoformat today fs filters top_n).
Proof.
  intros H. rewrite search_candidates_unfold.
  destruct (slice_to_is_take
              (sort_by_score_desc
                 (scan fromisoformat today filters
                    (derive_required_skills (_load_json fs JOBS_FP []) filters)
                    1 (_load_json fs CANDIDATES_FP []))) top_n)
    as (k & -> & _).
  apply Forall_take. rewrite sort_by_score_desc_perm. exact H.
Qed.

Lemma search_candidates_sorted fs filters top_n :
  StronglySorted ranked_before
    (search_candidates fromisoformat today fs filters top_n).
Proof.
  rewrite search_candidates_unfold.
  destruct (slice_to_is_take
              (sort_by_score_desc
                 (scan fromisoformat today filters
                    (derive_required_skills (_load_json fs JOBS_FP []) filters)
                    1 (_load_json fs CANDIDATES_FP []))) top_n)
    as (k & -> & _).
  apply StronglySorted_take, sort_by_score_desc_sorted, scan_index_sorted.
Qed.

Lemma entry_candidate_at filters req cs r :
  entry filters req 1 cs r ->
  candidate_at cs (Scored.index r) = Some (Scored.candidate r).
Proof.
  intros (k & Hi & Hk & _). unfold candidate_at. rewrite Hi.
  destruct (Z.ltb_spec 0 (1 + Z.of_nat k)); [|lia].
  replace (Z.to_nat (1 + Z.of_nat k - 1)) with k by lia. exact Hk.
Qed.

End SearchProperties.

(** ** Properties of the matcher *)

Section MatcherProperties.

Lemma str_app_cons (c : ascii) (a b : string) :
  String c a +:+ b = String c (a +:+ b).
Proof. reflexivity. Qed.

Lemma str_app_empty (b : string) : "" +:+ b = b.
Proof. reflexivity. Qed.

Lemma str_length_app (a b : string) :
  String.length (a +:+ b) = (String.length a + String.length b)%nat.
Proof.
  induction a as [|c a IH]; [reflexivity|].
  rewrite str_app_cons. cbn [String.length]. rewrite IH. reflexivity.
Qed.

(** Greedy repetition of a class reads the whole run [ds] when the
    continuation succeeds behind it. *)
Lemma star_loop_class {A} (p : ascii -> bool) (k : cont A) rest caps x ds :
  forall fuel prev,
  Py.all_chars p ds = true -> stops p rest ->
  (String.length (ds +:+ rest) <= fuel)%nat ->
  k (last_char prev ds) rest caps = Some x ->
  star_loop (class_step p) k fuel prev (ds +:+ rest) caps = Some x.
Proof.
  induction ds as [|d ds IH]; intros fuel prev Hall Hstop Hfuel Hk.
  - rewrite str_app_empty. cbn [last_char] in Hk.
    destruct fuel as [|fuel]; [exact Hk|].
    cbn [star_loop]. unfold class_step at 1.
    destruct rest as [|c rest]; [exact Hk|].
    cbn [stops] in Hstop. rewrite Hstop. exact Hk.
  - cbn [Py.all_chars] in Hall. apply andb_prop in Hall as [Hd Hall].
    rewrite str_app_cons in Hfuel |- *. cbn [String.length] in Hfuel.
    destruct fuel as [|fuel]; [lia|].
    cbn [star_loop]. unfold class_step at 1. rewrite Hd. cbn [String.length].
    rewrite (proj2 (Nat.ltb_lt _ _) (Nat.lt_succ_diag_r _)).
    rewrite (IH fuel (Some d)); try assumption; [reflexivity | lia].
Qed.

Lemma run_star_class {A} (p : ascii -> bool) (k : cont A) prev rest caps x ds :
  Py.all_chars p ds = true -> stops p rest ->
  k (last_char prev ds) rest caps = Some x ->
  run (Star (Class p)) prev (ds +:+ rest) caps k = Some x.
Proof.
  intros. change (star_loop (class_step p) k (String.length (ds +:+ rest))
                    prev (ds +:+ rest) caps = Some x).
  apply star_loop_class; auto.
Qed.

Lemma substring_app (ds rest : string) :
  substring 0 (String.length ds) (ds +:+ rest) = ds.
Proof.
  induction ds as [|d ds IH].
  - rewrite str_app_empty. destruct rest; reflexivity.
  - rewrite str_app_cons. cbn [String.length substring]. rewrite IH. reflexivity.
Qed.

Lemma consumed_app (ds rest : string) : consumed (ds +:+ rest) rest = ds.
Proof.
  unfold consumed. rewrite str_length_app.
  replace (String.length ds + String.length rest - String.length rest)%nat
    with (String.length ds) by lia.
  apply substring_app.
Qed.

(** [\d+] reads a whole run of digits. *)
Lemma run_digits {A} (k : cont A) prev rest caps x d ds :
  Py.is_digit d = true -> Py.all_chars Py.is_digit ds = true ->
  stops Py.is_digit rest ->
  k (last_char (Some d) ds) rest caps = Some x ->
  run digits prev (String d ds +:+ rest) caps k = Some x.
Proof.
  intros Hd Hds Hstop Hk. unfold digits, plus. rewrite str_app_cons.
  change (run (Seq (Class Py.is_digit) (Star (Class Py.is_digit))) prev
            (String d (ds +:+ rest)) caps k)
    with (if Py.is_digit d
          then run (Star (Class Py.is_digit)) (Some d) (ds +:+ rest) caps k
          else None).
  rewrite Hd. apply run_star_class; auto.
Qed.

Lemma run_star_class_stop {A} (p : ascii -> bool) (k : cont A) prev rest caps x :
  stops p rest -> k prev rest caps = Some x ->
  run (Star (Class p)) prev rest caps k = Some x.
Proof.
  intros Hstop Hk. apply (run_star_class p k prev rest caps x ""); auto.
Qed.

Lemma alt_first {A} (a b : option A) (x : A) :
  a = Some x -> match a with Some y => Some y | None => b end = Some x.
Proof. intros ->. reflexivity. Qed.

Lemma consumed_all (s : string) : consumed s "" = s.
Proof.
  unfold consumed. cbn [String.length]. rewrite Nat.sub_0_r.
  induction s as [|c s IH]; [reflexivity|].
  cbn [String.length substring]. rewrite IH. reflexivity.
Qed.

Lemma digit_not_space (c : ascii) : Py.is_digit c = true -> Py.is_space c = false.
Proof.
  unfold Py.is_digit, Py.is_space, Py.between.
  rewrite !andb_true_iff, orb_false_iff, !andb_false_iff, !N.leb_le, !N.leb_gt.
  lia.
Qed.

(** The range pattern on two numerals joined by a hyphen. *)
Lemma match_range d1 ds1 d2 ds2 :
  Py.all_chars Py.is_digit (String d1 ds1) = true ->
  Py.all_chars Py.is_digit (String d2 ds2) = true ->
  match_here range_re None (String d1 ds1 +:+ "-" +:+ String d2 ds2 +:+ " years")
  = Some (MatchObject (String d1 ds1 +:+ "-" +:+ String d2 ds2 +:+ " years")
            [(2%nat, String d2 ds2); (1%nat, String d1 ds1)]).
Proof.
  intros H1 H2. cbn [Py.all_chars] in H1, H2.
  apply andb_prop in H1 as [Hd1 Hds1]. apply andb_prop in H2 as [Hd2 Hds2].
  unfold match_here, range_re. cbn [seqs run].
  apply run_digits; try assumption; [reflexivity|].
  apply run_star_class_stop; [reflexivity|].
  apply alt_first. rewrite !str_app_cons, str_app_empty. cbn [lit chr run]. 
  change (Ascii.eqb "-" "-") with true. cbn iota.
  apply run_star_class_stop; [apply digit_not_space, Hd2|].
  rewrite <- str_app_cons.
  apply run_digits; try assumption; [reflexivity|].
  apply (run_star_class Py.is_space _ _ "years" _ _ " "); try reflexivity.
  cbn [last_char]. cbn -[consumed String.append].
  rewrite consumed_all, consumed_app, <- str_app_cons, consumed_app.
  reflexivity.
Qed.

(** The single-value pattern on a numeral. *)
Lemma match_single d ds :
  Py.all_chars Py.is_digit (String d ds) = true ->
  match_here single_re None (String d ds +:+ " years")
  = Some (MatchObject (String d ds +:+ " years") [(1%nat, String d ds)]).
Proof.
  intros H. cbn [Py.all_chars] in H. apply andb_prop in H as [Hd Hds].
  unfold match_here, single_re. cbn [seqs run].
  apply run_digits; try assumption; [reflexivity|].
  apply (run_star_class Py.is_space _ _ "years" _ _ " "); try reflexivity.
  cbn [last_char]. cbn -[consumed String.append].
  rewrite consumed_all, consumed_app. reflexivity.
Qed.

(** A match at the start of the text is the one [search] returns. *)
Lemma search_first r s m : match_here r None s = Some m -> search r s = Some m.
Proof. intros H. unfold search. destruct s; cbn [search_from]; rewrite H; reflexivity. Qed.

(** Greedy repetition of a class fails when the continuation fails behind
    every prefix of the run [ds]. *)
Lemma star_loop_class_fails {A} (p : ascii -> bool) (k : cont A) rest caps ds :
  forall fuel prev,
  Py.all_chars p ds = true -> stops p rest ->
  (forall a b prev', ds = a +:+ b -> k prev' (b +:+ rest) caps = None) ->
  star_loop (class_step p) k fuel prev (ds +:+ rest) caps = None.
Proof.
  induction ds as [|d ds IH]; intros fuel prev Hall Hstop Hk.
  - rewrite str_app_empty. pose proof (Hk "" "" prev eq_refl) as Hk0.
    rewrite str_app_empty in Hk0.
    destruct fuel as [|fuel]; [exact Hk0|].
    cbn [star_loop]. unfold class_step at 1.
    destruct rest as [|c rest]; [exact Hk0|].
    cbn [stops] in Hstop. rewrite Hstop. exact Hk0.
  - cbn [Py.all_chars] in Hall. apply andb_prop in Hall as [Hd Hall].
    pose proof (Hk "" (String d ds) prev eq_refl) as Hk0.
    destruct fuel as [|fuel]; [exact Hk0|].
    rewrite str_app_cons in Hk0 |- *.
    cbn [star_loop]. unfold class_step at 1. rewrite Hd. cbn [String.length].
    rewrite (proj2 (Nat.ltb_lt _ _) (Nat.lt_succ_diag_r _)).
    rewrite (IH fuel (Some d)); try assumption.
    intros a b prev' ->. apply (Hk (String d a) b prev'). reflexivity.
Qed.

Lemma run_star_class_fails {A} (p : ascii -> bool) (k : cont A) prev rest caps ds :
  Py.all_chars p ds = true -> stops p rest ->
  (forall a b prev', ds = a +:+ b -> k prev' (b +:+ rest) caps = None) ->
  run (Star (Class p)) prev (ds +:+ rest) caps k = None.
Proof.
  intros. change (star_loop (class_step p) k (String.length (ds +:+ rest))
                    prev (ds +:+ rest) caps = None).
  apply star_loop_class_fails; auto.
Qed.

Lemma all_chars_app p a b :
  Py.all_chars p (a +:+ b) = Py.all_chars p a && Py.all_chars p b.
Proof.
  induction a as [|c a IH]; [reflexivity|].
  rewrite str_app_cons. cbn [Py.all_chars]. rewrite IH. apply andb_assoc.
Qed.

Lemma digit_not_dash (c : ascii) : Py.is_digit c = true -> Ascii.eqb "-" c = false.
Proof.
  intros H. destruct (Ascii.eqb_spec "-" c) as [<-|]; [discriminate H | reflexivity].
Qed.

Lemma digit_not_E2 (c : ascii) : Py.is_digit c = true -> Ascii.eqb "226" c = false.
Proof.
  intros H. destruct (Ascii.eqb_spec "226" c) as [<-|]; [discriminate H | reflexivity].
Qed.

(** The range pattern finds nothing in a numeral followed by [ years]. *)
Lemma range_fails_here prev ds :
  Py.all_chars Py.is_digit ds = true ->
  match_here range_re prev (ds +:+ " years") = None.
Proof.
  intros Hds. unfold match_here, range_re. cbn [seqs run].
  destruct ds as [|d ds].
  - reflexivity.
  - cbn [Py.all_chars] in Hds. apply andb_prop in Hds as [Hd Hds].
    unfold digits at 1, plus. rewrite str_app_cons.
    match goal with |- run (Seq (Class _) (Star _)) ?p (String ?c ?s) ?caps ?k = _ =>
      change (run (Seq (Class Py.is_digit) (Star (Class Py.is_digit))) p (String c s) caps k)
        with (if Py.is_digit c then run (Star (Class Py.is_digit)) (Some c) s caps k else None)
    end.
    rewrite Hd. apply run_star_class_fails; [assumption | reflexivity|].
    intros a b prev' ->. rewrite all_chars_app in Hds.
    apply andb_prop in Hds as [_ Hb].
    destruct b as [|e b].
    + rewrite str_app_empty.
      cbn -[consumed String.append]. reflexivity.
    + cbn [Py.all_chars] in Hb. apply andb_prop in Hb as [He _].
      rewrite str_app_cons.
      match goal with |- run spaces ?p ?s ?caps ?k = None =>
        change (run spaces p s caps k) with (run (Star (Class Py.is_space)) p ("" +:+ s) caps k)
      end.
      apply run_star_class_fails; [reflexivity | apply digit_not_space, He|].
      intros a' b' prev'' Hab. destruct a'; [|discriminate Hab].
      rewrite str_app_empty in Hab. subst b'. rewrite str_app_empty.
      cbn [run lit chr]. rewrite (digit_not_dash e He).
      cbn [lit chr run]. rewrite (digit_not_E2 e He). reflexivity.
Qed.

Lemma search_range_none ds : forall prev,
  Py.all_chars Py.is_digit ds = true ->
  search_from range_re prev (ds +:+ " years") = None.
Proof.
  induction ds as [|d ds IH]; intros prev Hds.
  - vm_compute. reflexivity.
  - pose proof (range_fails_here prev (String d ds) Hds) as Hhere.
    rewrite str_app_cons in Hhere |- *. cbn [search_from]. rewrite Hhere.
    cbn [Py.all_chars] in Hds. apply andb_prop in Hds as [_ Hds].
    apply IH, Hds.
Qed.

(** What a greedy class loop that succeeds has read. *)
Lemma star_loop_class_inv {A} (p : ascii -> bool) (k : cont A) caps x fuel :
  forall prev s,
  star_loop (class_step p) k fuel prev s caps = Some x ->
  exists ds rest prev',
    s = ds +:+ rest /\ Py.all_chars p ds = true /\
    k prev' rest caps = Some x.
Proof.
  induction fuel as [|fuel IH]; intros prev s H; cbn [star_loop] in H.
  - exists "", s, prev. auto.
  - unfold class_step at 1 in H. destruct s as [|c s].
    + exists "", "", prev. auto.
    + destruct (p c) eqn:Hc; [|exists "", (String c s), prev; auto].
      destruct (String.length s <? String.length (String c s))%nat;
        [|exists "", (String c s), prev; auto].
      destruct (star_loop (class_step p) k fuel (Some c) s caps) as [y|] eqn:Hy.
      * injection H as <-. destruct (IH _ _ Hy) as (ds & rest & prev' & -> & Hds & Hk).
        exists (String c ds), rest, prev'. cbn [Py.all_chars]. rewrite Hc, Hds.
        auto.
      * exists "", (String c s), prev. auto.
Qed.

End MatcherProperties.

(** ** Properties of the query parser *)

Section ParserProperties.

Ltac unfold_parser :=
  unfold parse_query, parse_availability, parse_skills, parse_experience,
    parse_location, parse_role, normalised;
  cbn zeta.



Lemma parse_query_minExp text :
  Filter.minExp (parse_query text)
  = match search range_re (normalised text) with
    | Some m => Some (Py.int (group_or_empty 1 m))
    | None =>
        (fun m => Z.max 0 (Py.int (group_or_empty 1 m) - 1))
          <$> search single_re (normalised text)
    end.
Proof. unfold_parser. repeat case_match; reflexivity. Qed.

Lemma parse_query_maxExp text :
  Filter.maxExp (parse_query text)
  = match search range_re (normalised text) with
    | Some m => Some (Py.int (group_or_empty 2 m))
    | None =>
        (fun m => Py.int (group_or_empty 1 m))
          <$> search single_re (normalised text)
    end.
Proof. unfold_parser. repeat case_match; reflexivity. Qed.

Lemma parse_query_skills text :
  Filter.skills (parse_query text)
  = fold_left collect_skill (findall skill_re (normalised text)) [].
Proof. unfold_parser. repeat case_match; reflexivity. Qed.

Lemma parse_query_availability text :
  Filter.availabilityWindowDays (parse_query text)
  = let t := normalised text in
    if Py.contains "available this month" t || Py.contains "this month" t
    then Some 30
    else if Py.contains "available next month" t then Some 45
    else (fun m => Py.int (group_or_empty 1 m)) <$> search avail_re t.
Proof. unfold_parser. repeat case_match; reflexivity. Qed.







(** Normalisation leaves these texts unchanged. *)
Lemma lower_app a b : Py.lower (a +:+ b) = Py.lower a +:+ Py.lower b.
Proof.
  unfold Py.lower. induction a as [|c a IH]; [reflexivity|].
  rewrite str_app_cons. cbn [Py.map_chars]. rewrite IH. reflexivity.
Qed.

Lemma lower_digit c : Py.is_digit c = true -> Py.lower_char c = c.
Proof.
  unfold Py.lower_char. intros H.
  replace (Py.is_upper c) with false; [reflexivity|].
  symmetry. revert H. unfold Py.is_digit, Py.is_upper, Py.between.
  rewrite andb_true_iff, andb_false_iff, !N.leb_le, !N.leb_gt. lia.
Qed.

Lemma lower_digits ds : Py.all_chars Py.is_digit ds = true -> Py.lower ds = ds.
Proof.
  unfold Py.lower. induction ds as [|d ds IH]; intros H; [reflexivity|].
  cbn [Py.all_chars] in H. apply andb_prop in H as [Hd H].
  cbn [Py.map_chars]. rewrite (lower_digit d Hd), (IH H). reflexivity.
Qed.

Lemma str_app_assoc (a b c : string) : (a +:+ b) +:+ c = a +:+ (b +:+ c).
Proof.
  induction a as [|x a IH]; [reflexivity|].
  rewrite !str_app_cons, IH. reflexivity.
Qed.

Lemma list_ascii_of_app (a b : string) :
  list_ascii_of_string (a +:+ b)
  = (list_ascii_of_string a ++ list_ascii_of_string b)%list.
Proof.
  induction a as [|x a IH]; [reflexivity|].
  rewrite str_app_cons. cbn [list_ascii_of_string]. rewrite IH. reflexivity.
Qed.

Lemma string_of_list_app (a b : list ascii) :
  string_of_list_ascii (a ++ b)
  = string_of_list_ascii a +:+ string_of_list_ascii b.
Proof.
  induction a as [|x a IH]; [reflexivity|].
  cbn [string_of_list_ascii app]. rewrite IH. reflexivity.
Qed.

Lemma reverse_snoc (s : string) (c : ascii) :
  Py.reverse (s +:+ String c "") = String c (Py.reverse s).
Proof.
  unfold Py.reverse. rewrite list_ascii_of_app. cbn [list_ascii_of_string].
  rewrite rev_app_distr. reflexivity.
Qed.

Lemma reverse_cons (s : string) (c : ascii) :
  Py.reverse (String c s) = Py.reverse s +:+ String c "".
Proof.
  unfold Py.reverse. cbn [list_ascii_of_string rev].
  rewrite string_of_list_app. reflexivity.
Qed.

Lemma reverse_involutive (s : string) : Py.reverse (Py.reverse s) = s.
Proof.
  unfold Py.reverse. rewrite list_ascii_of_string_of_list_ascii, rev_involutive.
  apply string_of_list_ascii_of_string.
Qed.

(** A text that starts and ends with a character that is not a space is
    its own [strip]. *)
Lemma strip_id (c : ascii) (s : string) (e : ascii) :
  Py.is_space c = false -> Py.is_space e = false ->
  Py.strip (String c s +:+ String e "") = String c s +:+ String e "".
Proof.
  intros Hc He. unfold Py.strip, Py.rstrip.
  rewrite str_app_cons. cbn [Py.lstrip]. rewrite Hc. rewrite <- str_app_cons.
  rewrite reverse_snoc. cbn [Py.lstrip]. rewrite He.
  rewrite <- reverse_snoc. apply reverse_involutive.
Qed.

(** Decimal numerals. *)
Lemma pretty_N_char_digit (n : N) : Py.is_digit (pretty_N_char n) = true.
Proof.
  unfold pretty_N_char. repeat case_match; reflexivity.
Qed.

Lemma digit_value_pretty (n : N) :
  (n < 10)%N -> Py.digit_value (pretty_N_char n) = Z.of_N n.
Proof.
  intros H. destruct n as [|p]; [reflexivity|].
  do 4 (try destruct p as [p|p|]); try reflexivity; lia.
Qed.

Lemma pretty_N_go_digits (x : N) : forall s,
  Py.all_chars Py.is_digit s = true ->
  Py.all_chars Py.is_digit (pretty_N_go x s) = true.
Proof.
  induction (N.lt_wf_0 x) as [x _ IH]. intros s Hs.
  destruct (N.eq_dec x 0%N) as [->|Hx]; [rewrite pretty_N_go_0; exact Hs|].
  rewrite pretty_N_go_step by lia. apply IH.
  - apply N.div_lt; lia.
  - cbn [Py.all_chars]. rewrite pretty_N_char_digit. exact Hs.
Qed.

Lemma pretty_N_go_int (x : N) : forall s,
  Py.int_from 0 (pretty_N_go x s) = Py.int_from (Z.of_N x) s.
Proof.
  induction (N.lt_wf_0 x) as [x _ IH]. intros s.
  destruct (N.eq_dec x 0%N) as [->|Hx]; [rewrite pretty_N_go_0; reflexivity|].
  rewrite pretty_N_go_step by lia. rewrite IH by (apply N.div_lt; lia).
  cbn [Py.int_from]. rewrite digit_value_pretty by (apply N.mod_lt; lia).
  f_equal. rewrite <- N2Z.inj_mul with (n := 10%N), <- N2Z.inj_add.
  f_equal. symmetry. apply N.div_mod. lia.
Qed.

Lemma pretty_N_go_cons (x : N) : forall c s,
  exists d ds, pretty_N_go x (String c s) = String d ds.
Proof.
  induction (N.lt_wf_0 x) as [x _ IH]. intros c s.
  destruct (N.eq_dec x 0%N) as [->|Hx]; [rewrite pretty_N_go_0; eauto|].
  rewrite pretty_N_go_step by lia. apply IH. apply N.div_lt; lia.
Qed.

(** [str(v)] for [v >= 0] is a non-empty string of digits that [int]
    reads back. *)
Lemma str_decimal (v : Z) :
  0 <= v ->
  exists d ds, Py.str v = String d ds /\
    Py.all_chars Py.is_digit (String d ds) = true /\
    Py.int (String d ds) = v.
Proof.
  intros Hv. unfold Py.str, pretty, pretty_Z.
  destruct v as [|p|p]; [|clear Hv|lia].
  - exists "0"%char, "". repeat split; reflexivity.
  - unfold pretty, pretty_positive, pretty, pretty_N.
    destruct (decide (N.pos p = 0%N)) as [H|_]; [discriminate H|].
    assert (exists d ds, pretty_N_go (N.pos p) "" = String d ds) as (d & ds & Heq).
    { rewrite pretty_N_go_step by lia. apply pretty_N_go_cons. }
    exists d, ds. split; [exact Heq|]. rewrite <- Heq. split.
    + apply pretty_N_go_digits. reflexivity.
    + unfold Py.int. rewrite pretty_N_go_int. reflexivity.
Qed.

Lemma normalised_range d1 ds1 d2 ds2 :
  Py.all_chars Py.is_digit (String d1 ds1) = true ->
  Py.all_chars Py.is_digit (String d2 ds2) = true ->
  normalised (String d1 ds1 +:+ "-" +:+ String d2 ds2 +:+ " years")
  = String d1 ds1 +:+ "-" +:+ String d2 ds2 +:+ " years".
Proof.
  intros H1 H2. unfold normalised.
  rewrite !lower_app, (lower_digits _ H1), (lower_digits _ H2).
  change (Py.lower "-") with "-". change (Py.lower " years") with " years".
  change " years" with (" year" +:+ "s").
  rewrite <- !str_app_assoc. rewrite !str_app_cons.
  cbn [Py.all_chars] in H1. apply andb_prop in H1 as [Hd1 _].
  rewrite <- str_app_cons.
  apply strip_id; [apply digit_not_space, Hd1 | reflexivity].
Qed.

Lemma normalised_single d ds :
  Py.all_chars Py.is_digit (String d ds) = true ->
  normalised (String d ds +:+ " years") = String d ds +:+ " years".
Proof.
  intros H. unfold normalised.
  rewrite lower_app, (lower_digits _ H).
  change (Py.lower " years") with " years".
  change " years" with (" year" +:+ "s").
  rewrite <- !str_app_assoc. rewrite !str_app_cons.
  cbn [Py.all_chars] in H. apply andb_prop in H as [Hd _].
  rewrite <- str_app_cons.
  apply strip_id; [apply digit_not_space, Hd | reflexivity].
Qed.

(** For all numbers [a] and [b], the text "a-b years" gives the bounds [a]
    and [b]. *)
Lemma parse_query_range_of_numbers (a b : Z) :
  0 <= a -> 0 <= b ->
  let filters := parse_query (Py.str a +:+ "-" +:+ Py.str b +:+ " years") in
  Filter.minExp filters = Some a /\ Filter.maxExp filters = Some b.
Proof.
  intros Ha Hb.
  destruct (str_decimal a Ha) as (d1 & ds1 & -> & H1 & <-).
  destruct (str_decimal b Hb) as (d2 & ds2 & -> & H2 & <-).
  cbn zeta. rewrite parse_query_minExp, parse_query_maxExp.
  rewrite (normalised_range d1 ds1 d2 ds2 H1 H2).
  rewrite (search_first _ _ _ (match_range d1 ds1 d2 ds2 H1 H2)).
  split; reflexivity.
Qed.

(** For every number [v], the text "v years" gives the bounds
    [max(0, v - 1)] and [v]. *)
Lemma parse_query_single_number (v : Z) :
  0 <= v ->
  let filters := parse_query (Py.str v +:+ " years") in
  Filter.minExp filters = Some (Z.max 0 (v - 1)) /\
  Filter.maxExp filters = Some v.
Proof.
  intros Hv.
  destruct (str_decimal v Hv) as (d & ds & -> & H & <-).
  cbn zeta. rewrite parse_query_minExp, parse_query_maxExp.
  rewrite (normalised_single d ds H).
  unfold search at 1 3. rewrite (search_range_none (String d ds) None H).
  rewrite (search_first _ _ _ (match_single d ds H)).
  split; reflexivity.
Qed.

End ParserProperties.

(** ** Properties of the storage accessor and of the shortlists *)

Section StorageProperties.

Lemma load_after_save fs p obj default :
  _load_json (_save_json fs p obj) p default = obj.
Proof. destruct p; reflexivity. Qed.

Lemma save_other_path fs p q obj :
  p <> q -> _save_json fs p obj q = fs q.
Proof. destruct p, q; intros H; try reflexivity; contradiction H; reflexivity. Qed.

Lemma pick_candidate_at (cs : list Candidate.t) (indices : list Z) :
  pick cs indices = omap (candidate_at cs) indices.
Proof.
  induction indices as [|i rest IH]; [reflexivity|].
  cbn [pick omap list_omap]. rewrite IH. unfold candidate_at, Py.len.
  destruct (Z.leb_spec 1 i) as [H1|H1], (Z.ltb_spec 0 i) as [H0|H0];
    cbn [andb app]; try lia; try reflexivity.
  destruct (Z.leb_spec i (Z.of_nat (length cs))) as [H2|H2].
  - destruct (lookup_lt_is_Some_2 cs (Z.to_nat (i - 1))) as [c Hc]; [lia|].
    rewrite Hc. reflexivity.
  - rewrite (lookup_ge_None_2 cs (Z.to_nat (i - 1))) by lia. reflexivity.
Qed.

Lemma candidate_at_is_Some (cs : list Candidate.t) (i : Z) :
  is_Some (candidate_at cs i) <-> 1 <= i <= Py.len cs.
Proof.
  unfold candidate_at, Py.len. destruct (Z.ltb_spec 0 i) as [H0|H0].
  - rewrite lookup_lt_is_Some. lia.
  - split; [intros [c Hc]; discriminate Hc | lia].
Qed.

Lemma recipients_of_saved_name fs name indices :
  (_load_json fs SHORTLISTS_FP ∅ : gmap string (list Z)) !! name
  = Some indices ->
  _recipients_from_name_or_indices fs name
  = omap (candidate_at (_load_json fs CANDIDATES_FP [])) indices.
Proof.
  intros H. unfold _recipients_from_name_or_indices. cbn zeta.
  rewrite H. apply pick_candidate_at.
Qed.

End StorageProperties.

(** ** Properties of the parser and the loader with their exceptions *)

Section RaisingParser.

























(** Whatever the text, a filter that is returned is the one [parse_query]
    computes, and the only exception is [ValueError]. *)
Lemma parse_experience_agrees t filters :
  Raising.parse_experience t filters = Returns (parse_experience t filters)
  \/ Raising.parse_experience t filters = Raises ValueError.
Proof.
  unfold Raising.parse_experience, parse_experience, Raising.int.
  destruct (search range_re t) as [m|].
  - destruct (_ <? String.length (group_or_empty 1 m))%nat;
      [right; reflexivity|].
    destruct (_ <? String.length (group_or_empty 2 m))%nat;
      [right | left]; reflexivity.
  - destruct (search single_re t) as [m|]; [|left; reflexivity].
    destruct (_ <? _)%nat; [right | left]; reflexivity.
Qed.

Lemma parse_availability_agrees t filters :
  Raising.parse_availability t filters
  = Returns (parse_availability t filters)
  \/ Raising.parse_availability t filters = Raises ValueError.
Proof.
  unfold Raising.parse_availability, parse_availability, Raising.int.
  destruct (_ || _); [left; reflexivity|].
  destruct (search avail_re t) as [m|].
  - destruct (_ <? _)%nat; [right; reflexivity|].
    cbn [mbind outcome_bind]. destruct (Py.contains _ t); left; reflexivity.
  - cbn [mbind outcome_bind]. destruct (Py.contains _ t); left; reflexivity.
Qed.

Lemma parse_query_agrees text :
  Raising.parse_query text = Returns (parse_query text)
  \/ Raising.parse_query text = Raises ValueError.
Proof.
  unfold Raising.parse_query, parse_query. cbn zeta.
  destruct (parse_experience_agrees (Py.strip (Py.lower text))
              (parse_location (Py.strip (Py.lower text))
                 (parse_role (Py.strip (Py.lower text)) Filter.empty)))
    as [-> | ->]; [|right; reflexivity].
  cbn [mbind outcome_bind]. apply parse_availability_agrees.
Qed.




End RaisingParser.

Section RaisingFiles.

Variable json_loads : forall p : path, string -> outcome (document p).

(** A document that is returned is the one the typed store gives. *)
Lemma load_json_agrees (d : disk) (p : path) (default x : document p) :
  Raising._load_json json_loads d p default = Returns x ->
  x = _load_json (Raising.store_of json_loads d) p default.
Proof.
  unfold Raising._load_json, _load_json, Raising.store_of, Raising.read_text.
  destruct (d p) as [raw|]; [|intros [= <-]; reflexivity].
  destruct (Py.utf8_valid raw); [|discriminate].
  cbn [mbind outcome_bind].
  destruct (json_loads p raw) as [doc|[]]; intros [= <-]; reflexivity.
Qed.

Variable fromisoformat : string -> option Date.t.
Variable today : Date.t.

Lemma search_candidates_agrees (d : disk) filters top_n results :
  Raising.search_candidates json_loads fromisoformat today d filters top_n
  = Returns results ->
  results
  = search_candidates fromisoformat today (Raising.store_of json_loads d)
      filters top_n.
Proof.
  unfold Raising.search_candidates, search_candidates.
  destruct (Raising._load_json json_loads d CANDIDATES_FP []) as [cs|e] eqn:Hc;
    [|discriminate].
  destruct (Raising._load_json json_loads d JOBS_FP []) as [js|e] eqn:Hj;
    [|discriminate].
  cbn [mbind outcome_bind]. intros [= <-].
  rewrite <- (load_json_agrees _ _ _ _ Hc), <- (load_json_agrees _ _ _ _ Hj).
  reflexivity.
Qed.

End RaisingFiles.

(** ** The examples of the source and of the specification *)

(** The first example of the module's docstring, with the dash of the
    source and with a hyphen. *)
Example parse_query_docstring_example :
  parse_query
    "Find top 5 React interns in Casablanca, 0–2 years, available this month"
  = Filter.Make (Some "intern") ["React"] (Some "Casablanca") (Some 0)
      (Some 2) (Some 30)
  /\
  parse_query
    "Find top 5 React interns in Casablanca, 0-2 years, available this month"
  = Filter.Make (Some "intern") ["React"] (Some "Casablanca") (Some 0)
      (Some 2) (Some 30).
Proof. split; vm_compute; reflexivity. Qed.

(** Skills are normalised, kept in the order they are first seen, and
    listed once. *)
Example parse_query_skills_example :
  Filter.skills
    (parse_query "JavaScript, next.js and nextjs, TS or js; html5, SQL")
  = ["JS"; "Next.js"; "TypeScript"; "Sql"].
Proof. vm_compute. reflexivity. Qed.

(** A day count of 0 is a window the parser produces. *)
Example parse_query_zero_days :
  Filter.availabilityWindowDays (parse_query "available in 0 days") = Some 0.
Proof. vm_compute. reflexivity. Qed.

(** The end-to-end scenario of the specification: the query of the
    docstring ranks Amina first with score 5. *)
Example search_docstring_example :
  (fun r => (Scored.index r, Candidate.firstName (Scored.candidate r),
             Scored.score r, Scored.reason r))
    <$> search_candidates Date.fromisoformat Sample.today Sample.files
          (parse_query
             "Find top 5 React interns in Casablanca, 0-2 years, available this month")
          5
  = [ (2, "Amina", 5,
       "React match (+2), Casablanca (+1), 1y fits (±1) (+1), available in 5d (+1) → score 5");
      (3, "Salma", 4,
       "React match (+2), 2y fits (±1) (+1), available in 0d (+1) → score 4");
      (1, "Omar", 2, "React match (+2) → score 2") ].
Proof. vm_compute. reflexivity. Qed.

(** Without skills in the text, the skills of the job matching the role
    are scored. *)
Example search_by_role_example :
  (fun r => (Scored.index r, Scored.score r))
    <$> search_candidates Date.fromisoformat Sample.today Sample.files
          (parse_query "Find interns") 5
  = [ (2, 4); (1, 2); (3, 2) ].
Proof. vm_compute. reflexivity. Qed.

(** A draft for one recipient. *)
Example draft_email_example :
  Email.subject (draft_email Sample.files [Sample.amina] "frontend intern"
                   "formal")
  = "Amina, quick chat about a frontend intern opportunity?".
Proof. vm_compute. reflexivity. Qed.

(** ** The properties of the specification *)

(** C1 at a window of 0 days.  The query ["available in 0 days"] parses
    to a window of 0 days.  Salma is a well-formed candidate available on
    the reference date, so the sum of the rule points as C1 states it
    gives her 1 point; [_score_candidate] guards the availability rule
    with [if availability_days:], gives her score 0 and no reason, and the
    search for that query returns nobody.  With a window of 1 day the same
    candidate is found. *)
Theorem zero_day_window_scores_nothing :
  let window :=
    Filter.availabilityWindowDays (parse_query "available in 0 days") in
  window = Some 0 /\
  well_formed Date.fromisoformat Sample.salma /\
  rule_points_as_stated Date.fromisoformat Sample.today Sample.salma
    [] None None None window = 1 /\
  _score_candidate Date.fromisoformat Sample.today Sample.salma
    [] None None None window = (0, []) /\
  search_candidates Date.fromisoformat Sample.today Sample.files
    (parse_query "available in 0 days") 5 = [] /\
  Scored.index
    <$> search_candidates Date.fromisoformat Sample.today Sample.files
          (parse_query "available in 1 days") 5
  = [3].
Proof.
  cbn zeta. split; [vm_compute; reflexivity|]. split.
  - split; [exists "Rabat"; split; [reflexivity | discriminate]|].
    split; [eexists; reflexivity|].
    split; [exists 2; split; [reflexivity | lia]|].
    eexists; reflexivity.
  - repeat split; vm_compute; reflexivity.
Qed.

(** C5.  For every candidate, every filter argument tuple and every skill
    [s], the candidate with [s] added to its skills scores at least as
    much as the candidate itself. *)
Theorem score_monotone_in_skills
    (fromisoformat : string -> option Date.t) (today : Date.t)
    (s : string) (c : Candidate.t) (required_skills : list string)
    (location : option string) (minExp maxExp availability_days : option Z) :
  fst (_score_candidate fromisoformat today (with_skill s c) required_skills
         location minExp maxExp availability_days)
  >= fst (_score_candidate fromisoformat today c required_skills
            location minExp maxExp availability_days).
Proof.
  rewrite !score_sum. unfold rule_points.
  change (location_point (with_skill s c) location)
    with (location_point c location).
  change (experience_point (with_skill s c) minExp maxExp)
    with (experience_point c minExp maxExp).
  change (availability_point fromisoformat today (with_skill s c)
            availability_days)
    with (availability_point fromisoformat today c availability_days).
  change (default [] (Candidate.skills (with_skill s c)))
    with (default [] (Candidate.skills c) ++ [s]).
  assert (default [] (Candidate.skills c)
            ⊆ default [] (Candidate.skills c) ++ [s]) as Hsub.
  { intros x Hx. apply elem_of_app. left. exact Hx. }
  pose proof (skill_points_mono _ _ required_skills Hsub) as Hmono.
  lia.
Qed.

(** C10.  For every candidate and every filter argument tuple the score
    returned by [_score_candidate] is 0 if and only if the returned reason
    list is empty, and there are at least as many points as reasons; hence
    every result of [search_candidates] carries the reason text built from
    a non-empty reason list, not the bare ["score N"] text. *)
Theorem score_zero_iff_no_reason
    (fromisoformat : string -> option Date.t) (today : Date.t) :
  (forall c required_skills location minExp maxExp availability_days,
     let st := _score_candidate fromisoformat today c required_skills
                 location minExp maxExp availability_days in
     (fst st = 0 <-> snd st = []) /\ Py.len (snd st) <= fst st) /\
  (forall fs filters top_n,
     let required_skills :=
       derive_required_skills (_load_json fs JOBS_FP []) filters in
     Forall (fun r =>
               let reasons :=
                 snd (scored_with fromisoformat today filters required_skills
                        (Scored.candidate r)) in
               reasons <> [] /\
               Scored.reason r
               = Py.join ", " reasons +:+ " → score "
                   +:+ Py.str (Scored.score r))
            (search_candidates fromisoformat today fs filters top_n)).
Proof.
  split.
  - intros. split; [apply score_zero_iff | apply score_in_step].
  - intros fs filters top_n. cbn zeta.
    apply search_candidates_Forall.
    eapply Forall_impl; [apply scan_entries|].
    intros r (k & _ & _ & Hscore & Hpos & Hreason).
    set (st := scored_with fromisoformat today filters
                 (derive_required_skills (_load_json fs JOBS_FP []) filters)
                 (Scored.candidate r)) in *.
    assert (snd st <> []) as Hne.
    { intros Hnil. destruct (score_in_step fromisoformat today
                               (Scored.candidate r)
                               (derive_required_skills
                                  (_load_json fs JOBS_FP []) filters)
                               (Filter.location filters)
                               (Filter.minExp filters) (Filter.maxExp filters)
                               (Filter.availabilityWindowDays filters))
        as [_ Hzero].
      fold (scored_with fromisoformat today filters
              (derive_required_skills (_load_json fs JOBS_FP []) filters)
              (Scored.candidate r)) in Hzero.
      fold st in Hzero. specialize (Hzero Hnil). lia. }
    split; [exact Hne|].
    rewrite Hreason. unfold reason_text.
    destruct (snd st); [contradiction|reflexivity].
Qed.

(** C10 at a candidate that no rule selects: the score is 0, so the
    reason list is empty. *)
Lemma score_zero_iff_no_reason_witness :
  snd (_score_candidate Date.fromisoformat Sample.today Sample.omar
         ["Django"] (Some "Agadir") None None (Some 7)) = [].
Proof.
  apply (proj1 (score_zero_iff_no_reason Date.fromisoformat Sample.today)).
  reflexivity.
Defined.

(** C2, as the code has it.  For every filter and every [top_n] the result
    of [search_candidates] holds only candidates of positive score, each
    with its 1-based position in the candidate collection and its score;
    it is sorted by descending score, entries of equal score in ascending
    order of candidate index; for [top_n >= 0] it has at most [top_n]
    entries; and it is empty when no candidate scores above 0. *)
Theorem search_results_ranked
    (fromisoformat : string -> option Date.t) (today : Date.t)
    (fs : file_system) (filters : Filter.t) (top_n : Z) :
  let candidates := _load_json fs CANDIDATES_FP [] in
  let required_skills :=
    derive_required_skills (_load_json fs JOBS_FP []) filters in
  let results := search_candidates fromisoformat today fs filters top_n in
  Forall (fun r =>
            0 < Scored.score r /\
            candidate_at candidates (Scored.index r)
            = Some (Scored.candidate r) /\
            Scored.score r
            = fst (scored_with fromisoformat today filters required_skills
                     (Scored.candidate r))) results /\
  StronglySorted ranked_before results /\
  (0 <= top_n -> Py.len results <= top_n) /\
  (Forall (fun c =>
             fst (scored_with fromisoformat today filters required_skills c)
             <= 0) candidates ->
   results = []).
Proof.
  cbn zeta. repeat split.
  - apply search_candidates_Forall.
    eapply Forall_impl; [apply scan_entries|].
    intros r Hr. pose proof (entry_candidate_at _ _ _ _ _ _ Hr) as Hat.
    destruct Hr as (k & _ & _ & Hscore & Hpos & _). auto.
  - apply search_candidates_sorted.
  - intros Hn. rewrite search_candidates_unfold. apply slice_to_length, Hn.
  - intros Hnone. rewrite search_candidates_unfold.
    rewrite (scan_none_positive _ _ _ _ _ 1 Hnone).
    unfold Py.slice_to. cbn. destruct (0 <=? top_n); apply take_nil.
Qed.

(** C2 at the sample files: at most two results for [top_n = 2], and no
    result for the filter that selects nobody. *)
Lemma search_results_ranked_witness :
  Py.len (search_candidates Date.fromisoformat Sample.today Sample.files
            Sample.react_filter 2) <= 2 /\
  search_candidates Date.fromisoformat Sample.today Sample.files
    Filter.empty 5 = [].
Proof.
  split.
  - apply (search_results_ranked Date.fromisoformat Sample.today Sample.files
             Sample.react_filter 2). lia.
  - apply (search_results_ranked Date.fromisoformat Sample.today Sample.files
             Filter.empty 5).
    repeat constructor; vm_compute; discriminate.
Defined.

(** C2 as stated fails for a negative [top_n]: the slice [results[:-1]]
    drops the last of three results, and two entries are more than -1. *)
Lemma search_length_fails_for_negative_top_n :
  let results :=
    search_candidates Date.fromisoformat Sample.today Sample.files
      Sample.react_filter (-1) in
  Py.len results = 2 /\ ~ Py.len results <= -1.
Proof. vm_compute. split; [reflexivity | intros H; apply H; reflexivity]. Qed.

(** C3, as the code has it.  Whenever the text contains ["this month"]
    (alone or after ["available"]), [availabilityWindowDays] is 30,
    whatever other availability phrase the text contains; in the other
    texts the checks for ["available in N days"] and
    ["available next month"] are assignments made in this order, the last
    one that matches giving the value. *)
Theorem availability_this_month_first (text : string) :
  let t := normalised text in
  (Py.contains "available this month" t || Py.contains "this month" t = true ->
   Filter.availabilityWindowDays (parse_query text) = Some 30) /\
  (Py.contains "available this month" t || Py.contains "this month" t = false ->
   Filter.availabilityWindowDays (parse_query text)
   = availability_last_wins t).
Proof.
  cbn zeta. rewrite parse_query_availability. unfold availability_last_wins.
  cbn zeta. split; intros ->.
  - reflexivity.
  - destruct (Py.contains "available next month" (normalised text));
      [reflexivity|].
    destruct (search avail_re (normalised text)); reflexivity.
Qed.

(** C3 at two texts: ["this month"] gives 30, and of a day count and
    ["available next month"] the latter gives the value. *)
Lemma availability_this_month_first_witness :
  Filter.availabilityWindowDays (parse_query "React, this month") = Some 30 /\
  Filter.availabilityWindowDays
    (parse_query "available in 10 days or available next month") = Some 45.
Proof.
  split.
  - apply (proj1 (availability_this_month_first "React, this month")).
    reflexivity.
  - rewrite (proj2 (availability_this_month_first
                      "available in 10 days or available next month"));
      reflexivity.
Defined.

(** C3 as stated fails when ["this month"] and ["available next month"]
    both occur: the last matching rule is the one for next month (45), and
    [parse_query] returns 30. *)
Lemma availability_last_wins_fails :
  let text := "available next month, if not this month" in
  availability_last_wins (normalised text) = Some 45 /\
  Filter.availabilityWindowDays (parse_query text) = Some 30 /\
  Filter.availabilityWindowDays (parse_query text)
  <> availability_last_wins (normalised text).
Proof. vm_compute. repeat split; discriminate. Qed.

(** C4.  For every text: if the range pattern (two numbers separated by a
    dash, then a year unit) is found, [minExp] and [maxExp] are its two
    numbers, whether or not the single-value pattern is found as well;
    otherwise, if the single-value pattern is found with the number [v],
    [minExp = max(0, v - 1)] and [maxExp = v].  In particular
    ["0-2 years"] gives 0 and 2, and ["2 years"] gives 1 and 2. *)
Theorem experience_range_first (text : string) :
  let t := normalised text in
  let filters := parse_query text in
  (forall m, search range_re t = Some m ->
     Filter.minExp filters = Some (Py.int (group_or_empty 1 m)) /\
     Filter.maxExp filters = Some (Py.int (group_or_empty 2 m))) /\
  (forall m, search range_re t = None -> search single_re t = Some m ->
     let v := Py.int (group_or_empty 1 m) in
     Filter.minExp filters = Some (Z.max 0 (v - 1)) /\
     Filter.maxExp filters = Some v) /\
  (Filter.minExp (parse_query "0-2 years"),
   Filter.maxExp (parse_query "0-2 years")) = (Some 0, Some 2) /\
  (Filter.minExp (parse_query "2 years"),
   Filter.maxExp (parse_query "2 years")) = (Some 1, Some 2).
Proof.
  cbn zeta. rewrite parse_query_minExp, parse_query_maxExp.
  split; [|split; [|split; reflexivity]].
  - intros m ->. split; reflexivity.
  - intros m -> ->. split; reflexivity.
Qed.

(** C4 at a text where both patterns are found, and at one where only the
    single-value pattern is. *)
Lemma experience_range_first_witness :
  (Filter.minExp (parse_query "3 years, or rather 1 - 4 y"),
   Filter.maxExp (parse_query "3 years, or rather 1 - 4 y"))
  = (Some 1, Some 4) /\
  (Filter.minExp (parse_query "with 0 y of Python"),
   Filter.maxExp (parse_query "with 0 y of Python")) = (Some 0, Some 0).
Proof.
  split.
  - destruct (search range_re (normalised "3 years, or rather 1 - 4 y"))
      as [m|] eqn:Hm; [|discriminate Hm].
    destruct (proj1 (experience_range_first "3 years, or rather 1 - 4 y")
                m Hm) as [-> ->].
    injection Hm as <-. reflexivity.
  - destruct (search single_re (normalised "with 0 y of Python"))
      as [m|] eqn:Hm; [|discriminate Hm].
    destruct (proj1 (proj2 (experience_range_first "with 0 y of Python"))
                m eq_refl Hm) as [-> ->].
    injection Hm as <-. reflexivity.
Defined.

(** C6.  For every name and index list, [save_shortlist] succeeds, and as
    long as the shortlists file is the one it wrote, resolving the
    recipients by that name gives the candidates at those 1-based
    positions of the current candidate collection, in the saved order; an
    index has a candidate at its position exactly when it lies in
    [1..len(candidates)], and the other indices are passed over. *)
Theorem shortlist_round_trip
    (fs : file_system) (name : string) (indices : list Z)
    (fs' : file_system) :
  fs' SHORTLISTS_FP = fst (save_shortlist fs name indices) SHORTLISTS_FP ->
  let candidates := _load_json fs' CANDIDATES_FP [] in
  snd (save_shortlist fs name indices) = true /\
  _recipients_from_name_or_indices fs' name
  = omap (candidate_at candidates) indices /\
  (forall i, is_Some (candidate_at candidates i)
             <-> 1 <= i <= Py.len candidates).
Proof.
  intros Hfile. cbn zeta. split; [reflexivity|]. split.
  - apply recipients_of_saved_name.
    unfold _load_json at 1. rewrite Hfile. cbn. apply lookup_insert_eq.
  - intros i. apply candidate_at_is_Some.
Qed.

(** C6 at the sample files, whose candidate file lost its third entry
    after the shortlist [2; 3] was saved: only the second candidate is
    resolved. *)
Lemma shortlist_round_trip_witness :
  _recipients_from_name_or_indices Sample.files_shrunk "FE-Intern-A"
  = [Sample.amina].
Proof.
  rewrite (proj1 (proj2 (shortlist_round_trip Sample.files "FE-Intern-A"
                           [2; 3] Sample.files_shrunk eq_refl))).
  reflexivity.
Defined.

(** C7.  For every job title and every tone, [draft_email] with no
    recipient returns the empty subject and the empty text. *)
Theorem draft_email_no_recipients
    (fs : file_system) (job_title tone : string) :
  draft_email fs [] job_title tone = Email.Make "" "".
Proof. reflexivity. Qed.




(** C9 at a file that is not UTF-8.  The bytes of the sample text are the
    Latin-1 encoding of a JSON list with an accented name.  Reading them
    raises [UnicodeDecodeError] inside [json.load]; the handler of
    [_load_json] names [json.JSONDecodeError] only, so for every path and
    default the exception leaves [_load_json] where C9 has the default
    returned.  This holds whatever the JSON parser does. *)
Theorem load_json_raises_on_latin1
    (json_loads : forall p : path, string -> outcome (document p))
    (p : path) (default : document p) :
  Py.utf8_valid SampleBytes.latin1_text = false /\
  Raising._load_json json_loads SampleBytes.disk_latin1 p default
  = Raises UnicodeDecodeError.
Proof. split; reflexivity. Qed.

(** * Further properties of the code *)

(** ** Further properties: the query parser *)

Section ParserInvariants.

Lemma collect_skill_NoDup acc s : NoDup acc -> NoDup (collect_skill acc s).
Proof.
  intros Hacc. unfold collect_skill. case_bool_decide as Hin; [exact Hacc|].
  apply NoDup_app. repeat split; [exact Hacc | | apply NoDup_singleton].
  intros x Hx Hx'. apply list_elem_of_singleton in Hx'. subst x. exact (Hin Hx).
Qed.

Lemma fold_collect_skill_NoDup found : forall acc,
  NoDup acc -> NoDup (fold_left collect_skill found acc).
Proof.
  induction found as [|s found IH]; intros acc Hacc; [exact Hacc|].
  cbn [fold_left]. apply IH, collect_skill_NoDup, Hacc.
Qed.

Lemma digit_value_nonneg c : 0 <= Py.digit_value c.
Proof. unfold Py.digit_value. lia. Qed.

Lemma int_from_nonneg s : forall acc, 0 <= acc -> 0 <= Py.int_from acc s.
Proof.
  induction s as [|c s IH]; intros acc Hacc; [exact Hacc|].
  cbn [Py.int_from]. apply IH. pose proof (digit_value_nonneg c). lia.
Qed.

Lemma int_nonneg s : 0 <= Py.int s.
Proof. apply int_from_nonneg. lia. Qed.

End ParserInvariants.

(** X1.  Whatever the text, the skills of the filter [parse_query] returns
    are pairwise different. *)
Theorem parse_query_skills_distinct (text : string) :
  NoDup (Filter.skills (parse_query text)).
Proof.
  rewrite parse_query_skills. apply fold_collect_skill_NoDup, NoDup_nil_2.
Qed.

(** X2.  Whatever the text, [parse_query] sets [minExp] and [maxExp]
    together or not at all, and no number of the filter is negative. *)
Theorem parse_query_numbers (text : string) :
  let filters := parse_query text in
  (Filter.minExp filters = None <-> Filter.maxExp filters = None) /\
  (forall v, Filter.minExp filters = Some v -> 0 <= v) /\
  (forall v, Filter.maxExp filters = Some v -> 0 <= v) /\
  (forall w, Filter.availabilityWindowDays filters = Some w -> 0 <= w).
Proof.
  cbn zeta.
  rewrite parse_query_minExp, parse_query_maxExp, parse_query_availability.
  cbn zeta. split; [|split; [|split]].
  - destruct (search range_re (normalised text)) as [m|];
      [|destruct (search single_re (normalised text)) as [m|]];
      cbn; split; congruence.
  - intros v.
    destruct (search range_re (normalised text)) as [m|];
      [|destruct (search single_re (normalised text)) as [m|]];
      cbn; intros [= <-]; [apply int_nonneg | lia].
  - intros v.
    destruct (search range_re (normalised text)) as [m|];
      [|destruct (search single_re (normalised text)) as [m|]];
      cbn; intros [= <-]; apply int_nonneg.
  - intros w.
    destruct (_ || _); [intros [= <-]; lia|].
    destruct (Py.contains "available next month" _); [intros [= <-]; lia|].
    destruct (search avail_re (normalised text)) as [m|];
      cbn; intros [= <-]. apply int_nonneg.
Qed.

(** X2 at a text with a single number of years and a number of days. *)
Lemma parse_query_numbers_witness :
  let filters := parse_query "4 years of python, available in 14 days" in
  (Filter.minExp filters = Some 3 /\ 0 <= 3) /\
  (Filter.availabilityWindowDays filters = Some 14 /\ 0 <= 14).
Proof.
  cbn zeta. split; (split; [reflexivity|]).
  - apply (proj1 (proj2 (parse_query_numbers
                           "4 years of python, available in 14 days")) 3).
    reflexivity.
  - apply (proj2 (proj2 (proj2 (parse_query_numbers
                           "4 years of python, available in 14 days"))) 14).
    reflexivity.
Defined.

(** ** Further properties: scoring and search *)

Section ScoreBounds.

Variable fromisoformat : string -> option Date.t.
Variable today : Date.t.

Lemma skill_points_le (cs req : list string) :
  skill_points cs req <= 2 * Py.len req.
Proof.
  unfold Py.len. induction req as [|s req IH]; cbn [skill_points length]; [lia|].
  destruct (bool_decide (s ∈ cs)); lia.
Qed.

Lemma point_range (P : Prop) `{Decision P} : 0 <= point P <= 1.
Proof. unfold point. destruct (bool_decide P); lia. Qed.

Lemma location_point_range c loc : 0 <= location_point c loc <= 1.
Proof. unfold location_point. destruct loc; [apply point_range | lia]. Qed.

Lemma experience_point_range c lo hi : 0 <= experience_point c lo hi <= 1.
Proof.
  unfold experience_point. destruct lo, hi; try lia. apply point_range.
Qed.

Lemma availability_point_range c w :
  0 <= availability_point fromisoformat today c w <= 1.
Proof. unfold availability_point. destruct w; [apply point_range | lia]. Qed.

(** Each rule records at most one reason. *)
Lemma award_reasons pts reason st :
  length (snd (award pts reason st)) = S (length (snd st)).
Proof. unfold award. cbn [snd]. rewrite length_app. cbn [length]. lia. Qed.

Lemma skills_rule_reasons c req st :
  (length (snd (skills_rule c req st)) <= S (length (snd st)))%nat.
Proof.
  unfold skills_rule. destruct (Py.truthy_list req); [|lia].
  destruct (Py.truthy_list _); [rewrite award_reasons|]; lia.
Qed.

Lemma location_rule_reasons c loc st :
  (length (snd (location_rule c loc st)) <= S (length (snd st)))%nat.
Proof.
  unfold location_rule. destruct loc; [|lia].
  destruct (_ && _); [rewrite award_reasons|]; lia.
Qed.

Lemma experience_rule_reasons c lo hi st :
  (length (snd (experience_rule c lo hi st)) <= S (length (snd st)))%nat.
Proof.
  unfold experience_rule. destruct lo, hi; try lia. cbn zeta.
  destruct (_ && _); [rewrite award_reasons|]; lia.
Qed.

Lemma availability_rule_reasons c w st :
  (length (snd (availability_rule fromisoformat today c w st))
   <= S (length (snd st)))%nat.
Proof.
  unfold availability_rule. destruct w; [|lia].
  destruct (Py.truthy_int _); [|lia]. destruct (_ ≫= _); [|lia]. cbn zeta.
  destruct (_ && _); [rewrite award_reasons|]; lia.
Qed.

End ScoreBounds.

(** X3.  For every candidate and every filter argument tuple, the score of
    [_score_candidate] is at least 0 and at most twice the number of
    required skills plus 3, and there are at most four reasons. *)
Theorem score_bounds
    (fromisoformat : string -> option Date.t) (today : Date.t)
    (c : Candidate.t) (required_skills : list string)
    (location : option string) (minExp maxExp availability_days : option Z) :
  let st := _score_candidate fromisoformat today c required_skills location
              minExp maxExp availability_days in
  0 <= fst st <= 2 * Py.len required_skills + 3 /\ Py.len (snd st) <= 4.
Proof.
  cbn zeta. split.
  - rewrite score_sum. unfold rule_points.
    pose proof (skill_points_nonneg (default [] (Candidate.skills c))
                  required_skills).
    pose proof (skill_points_le (default [] (Candidate.skills c))
                  required_skills).
    pose proof (location_point_range c location).
    pose proof (experience_point_range c minExp maxExp).
    pose proof (availability_point_range fromisoformat today c
                  availability_days).
    lia.
  - unfold _score_candidate, Py.len.
    pose proof (availability_rule_reasons fromisoformat today c
                  availability_days
                  (experience_rule c minExp maxExp
                     (location_rule c location
                        (skills_rule c required_skills (0, []))))).
    pose proof (experience_rule_reasons c minExp maxExp
                  (location_rule c location
                     (skills_rule c required_skills (0, [])))).
    pose proof (location_rule_reasons c location
                  (skills_rule c required_skills (0, []))).
    pose proof (skills_rule_reasons c required_skills (0, [])).
    cbn [snd length] in *. lia.
Qed.

Section SearchInvariants.

Variable fromisoformat : string -> option Date.t.
Variable today : Date.t.

Lemma StronglySorted_lt_NoDup (l : list Scored.t) :
  StronglySorted (fun a b => Scored.index a < Scored.index b) l ->
  NoDup (Scored.index <$> l).
Proof.
  induction 1 as [|x l Hs IH Hx]; cbn [fmap list_fmap]; constructor.
  - intros Hin. apply list_elem_of_fmap in Hin as (y & Hy & Hin).
    rewrite Forall_forall in Hx. specialize (Hx y Hin). lia.
  - exact IH.
Qed.

Lemma take_fmap_index (n : nat) (l : list Scored.t) :
  Scored.index <$> take n l = take n (Scored.index <$> l).
Proof. apply fmap_take. Qed.

Lemma slice_to_prefix {A} (l : list A) (k n : Z) :
  0 <= k <= n -> Py.slice_to l k = take (Z.to_nat k) (Py.slice_to l n).
Proof.
  intros H. unfold Py.slice_to.
  destruct (Z.leb_spec 0 k), (Z.leb_spec 0 n); try lia.
  rewrite take_take. f_equal. lia.
Qed.

Lemma derive_required_skills_given jobs filters :
  Filter.skills filters <> [] ->
  derive_required_skills jobs filters = Filter.skills filters.
Proof.
  intros Hne. unfold derive_required_skills.
  destruct (Filter.skills filters); [contradiction|].
  destruct (Filter.role filters); reflexivity.
Qed.

End SearchInvariants.

(** X4.  No candidate is listed twice: the candidate indices of the
    results of [search_candidates] are pairwise different. *)
Theorem search_indices_distinct
    (fromisoformat : string -> option Date.t) (today : Date.t)
    (fs : file_system) (filters : Filter.t) (top_n : Z) :
  NoDup (Scored.index
           <$> search_candidates fromisoformat today fs filters top_n).
Proof.
  rewrite search_candidates_unfold.
  destruct (slice_to_is_take
              (sort_by_score_desc
                 (scan fromisoformat today filters
                    (derive_required_skills (_load_json fs JOBS_FP []) filters)
                    1 (_load_json fs CANDIDATES_FP []))) top_n)
    as (k & -> & _).
  rewrite fmap_take. eapply sublist_NoDup; [|apply sublist_take].
  rewrite sort_by_score_desc_perm.
  apply StronglySorted_lt_NoDup, scan_index_sorted.
Qed.

(** X5.  The ranking does not depend on [top_n]: for [0 <= k <= n] the
    results for [top_n = k] are the first [k] results for [top_n = n]. *)
Theorem search_top_n_prefix
    (fromisoformat : string -> option Date.t) (today : Date.t)
    (fs : file_system) (filters : Filter.t) (k n : Z) :
  0 <= k <= n ->
  search_candidates fromisoformat today fs filters k
  = take (Z.to_nat k) (search_candidates fromisoformat today fs filters n).
Proof.
  intros H. rewrite !search_candidates_unfold. apply slice_to_prefix, H.
Qed.

(** X5 at the sample files. *)
Lemma search_top_n_prefix_witness :
  search_candidates Date.fromisoformat Sample.today Sample.files
    Sample.react_filter 1
  = take 1 (search_candidates Date.fromisoformat Sample.today Sample.files
              Sample.react_filter 3).
Proof.
  apply (search_top_n_prefix Date.fromisoformat Sample.today Sample.files
           Sample.react_filter 1 3).
  lia.
Defined.

(** X6.  When the filter names skills, the jobs file plays a part only
    through the exception that loading it raises, if any: two disks with
    the same candidates file, whose jobs files both load or both raise
    the same exception, give the same outcome. *)
Theorem search_with_skills_ignores_jobs
    (json_loads : forall p : path, string -> outcome (document p))
    (fromisoformat : string -> option Date.t) (today : Date.t)
    (d d' : disk) (filters : Filter.t) (top_n : Z) :
  Filter.skills filters <> [] ->
  d CANDIDATES_FP = d' CANDIDATES_FP ->
  raised (Raising._load_json json_loads d JOBS_FP [])
  = raised (Raising._load_json json_loads d' JOBS_FP []) ->
  Raising.search_candidates json_loads fromisoformat today d filters top_n
  = Raising.search_candidates json_loads fromisoformat today d' filters top_n.
Proof.
  intros Hskills Hcands Hjobs. unfold Raising.search_candidates.
  assert (Raising._load_json json_loads d CANDIDATES_FP []
          = Raising._load_json json_loads d' CANDIDATES_FP []) as ->
    by (unfold Raising._load_json; rewrite Hcands; reflexivity).
  destruct (Raising._load_json json_loads d' CANDIDATES_FP []) as [cs|e];
    [|reflexivity].
  cbn [mbind outcome_bind].
  destruct (Raising._load_json json_loads d JOBS_FP []) as [js|e],
           (Raising._load_json json_loads d' JOBS_FP []) as [js'|e'];
    cbn [raised] in Hjobs; try discriminate.
  - cbn [mbind outcome_bind].
    rewrite !derive_required_skills_given by exact Hskills. reflexivity.
  - injection Hjobs as ->. reflexivity.
Qed.

(** X6 at the sample disk with its jobs file and without it. *)
Lemma search_with_skills_ignores_jobs_witness :
  Raising.search_candidates SampleBytes.json_loads Date.fromisoformat
    Sample.today SampleBytes.disk_with_jobs Sample.react_filter 5
  = Raising.search_candidates SampleBytes.json_loads Date.fromisoformat
      Sample.today SampleBytes.disk_without_jobs Sample.react_filter 5.
Proof.
  apply search_with_skills_ignores_jobs; [discriminate | reflexivity..].
Defined.

(** X24.  A filter without criterion selects nobody: with no skill to
    score (none in the filter and none from a job), no location, a
    missing experience bound and no window or a window of 0 days, the
    result is empty whatever the candidates are. *)
Theorem search_without_criteria
    (fromisoformat : string -> option Date.t) (today : Date.t)
    (fs : file_system) (filters : Filter.t) (top_n : Z) :
  derive_required_skills (_load_json fs JOBS_FP []) filters = [] ->
  Filter.location filters = None ->
  Filter.minExp filters = None \/ Filter.maxExp filters = None ->
  Filter.availabilityWindowDays filters = None
  \/ Filter.availabilityWindowDays filters = Some 0 ->
  search_candidates fromisoformat today fs filters top_n = [].
Proof.
  intros Hskills Hloc Hexp Hwin. rewrite search_candidates_unfold.
  rewrite scan_none_positive.
  - unfold Py.slice_to. cbn [sort_by_score_desc foldr length].
    destruct (0 <=? top_n); apply take_nil.
  - rewrite Hskills. apply Forall_forall. intros c _.
    unfold scored_with. rewrite score_sum. unfold rule_points.
    rewrite Hloc. cbn [skill_points location_point].
    assert (experience_point c (Filter.minExp filters) (Filter.maxExp filters)
            = 0) as ->.
    { unfold experience_point. destruct Hexp as [-> | ->];
        [reflexivity | destruct (Filter.minExp filters); reflexivity]. }
    assert (availability_point fromisoformat today c
              (Filter.availabilityWindowDays filters) = 0) as ->.
    { unfold availability_point, point. destruct Hwin as [-> | ->];
        [reflexivity|].
      rewrite bool_decide_eq_false_2; [reflexivity | tauto]. }
    lia.
Qed.

(** X24 at a query without any token. *)
Lemma search_without_criteria_witness :
  search_candidates Date.fromisoformat Sample.today Sample.files
    (parse_query "Find somebody nice") 5 = [].
Proof.
  apply search_without_criteria;
    [reflexivity | reflexivity | left; reflexivity | left; reflexivity].
Defined.

(** ** Further properties: shortlists and recipients *)

Section RecipientProperties.

(** The numeral pattern at the head of a numeral. *)
Lemma match_number prev d ds rest :
  Py.is_digit d = true -> Py.all_chars Py.is_digit ds = true ->
  stops Py.is_digit rest ->
  match_here number_re prev (String d ds +:+ rest)
  = Some (MatchObject (String d ds) [(1%nat, String d ds)]).
Proof.
  intros Hd Hds Hstop. unfold match_here, number_re, opt.
  cbn [run lit chr]. rewrite str_app_cons.
  destruct (Ascii.eqb_spec "#" d) as [<-|_]; [discriminate Hd|].
  rewrite <- str_app_cons.
  apply run_digits; try assumption.
  rewrite !consumed_app. reflexivity.
Qed.

(** Stepping over the characters of a match. *)
Lemma finditer_skip r a : forall prev rest,
  finditer_from r prev (a +:+ rest) (String.length a)
  = finditer_from r (last_char prev a) rest 0.
Proof.
  induction a as [|c a IH]; intros prev rest; [reflexivity|].
  rewrite str_app_cons. cbn [String.length finditer_from last_char]. apply IH.
Qed.

Lemma finditer_number_last prev d ds :
  Py.is_digit d = true -> Py.all_chars Py.is_digit ds = true ->
  finditer_from number_re prev (String d ds) 0
  = [MatchObject (String d ds) [(1%nat, String d ds)]].
Proof.
  intros Hd Hds.
  pose proof (match_number prev d ds "" Hd Hds I) as Hm.
  replace (String d ds +:+ "") with (String d ds) in Hm
    by (clear; induction (String d ds) as [|c s IH]; [reflexivity|];
        rewrite str_app_cons, <- IH; reflexivity).
  cbn [finditer_from]. rewrite Hm. cbn [whole].
  replace (String.length (String d ds) - 1)%nat with (String.length ds)
    by (cbn [String.length]; lia).
  pose proof (finditer_skip number_re ds (Some d) "") as Hskip.
  replace (ds +:+ "") with ds in Hskip
    by (clear; induction ds as [|c s IH]; [reflexivity|];
        rewrite str_app_cons, <- IH; reflexivity).
  rewrite Hskip. reflexivity.
Qed.

Lemma finditer_number_comma prev d ds rest :
  Py.is_digit d = true -> Py.all_chars Py.is_digit ds = true ->
  finditer_from number_re prev (String d ds +:+ "," +:+ rest) 0
  = MatchObject (String d ds) [(1%nat, String d ds)]
    :: finditer_from number_re (Some ","%char) rest 0.
Proof.
  intros Hd Hds.
  pose proof (match_number prev d ds ("," +:+ rest) Hd Hds eq_refl) as Hm.
  rewrite str_app_cons in Hm |- *. cbn [finditer_from]. rewrite Hm.
  cbn [whole].
  replace (String.length (String d ds) - 1)%nat with (String.length ds)
    by (cbn [String.length]; lia).
  rewrite finditer_skip.
  rewrite str_app_cons, str_app_empty. cbn [finditer_from].
  reflexivity.
Qed.

Lemma str_app_empty_r (s : string) : s +:+ "" = s.
Proof.
  induction s as [|c s IH]; [reflexivity|].
  rewrite str_app_cons, IH. reflexivity.
Qed.

Lemma isdigit_cons (s : string) :
  PyText.isdigit s = true ->
  exists d ds, s = String d ds /\ Py.is_digit d = true
               /\ Py.all_chars Py.is_digit ds = true.
Proof.
  destruct s as [|d ds]; [discriminate|]. cbn [PyText.isdigit Py.all_chars].
  intros H. apply andb_prop in H as [Hd Hds]. eauto.
Qed.

(** The numerals of a comma-separated list are found one by one. *)
Lemma finditer_numbers nums : forall prev,
  Forall (fun n => PyText.isdigit n = true) nums ->
  finditer_from number_re prev (Py.join "," nums) 0
  = (fun n => MatchObject n [(1%nat, n)]) <$> nums.
Proof.
  induction nums as [|n nums IH]; intros prev Hall; [reflexivity|].
  inversion Hall as [|? ? Hn Hrest]; subst.
  destruct (isdigit_cons n Hn) as (d & ds & -> & Hd & Hds).
  destruct nums as [|n' nums].
  - cbn [Py.join String.concat fmap list_fmap].
    apply finditer_number_last; assumption.
  - change (Py.join "," (String d ds :: n' :: nums))
      with (String d ds +:+ "," +:+ Py.join "," (n' :: nums)).
    rewrite finditer_number_comma by assumption.
    rewrite IH by assumption. reflexivity.
Qed.

Lemma findall_numbers nums :
  Forall (fun n => PyText.isdigit n = true) nums ->
  findall number_re (Py.join "," nums) = nums.
Proof.
  intros Hall. unfold findall. rewrite finditer_numbers by assumption.
  clear Hall. induction nums as [|n nums IH]; [reflexivity|].
  cbn [fmap list_fmap omap list_omap]. cbn [group groups List.find Nat.eqb].
  cbn [fmap option_fmap option_map snd]. f_equal. exact IH.
Qed.

(** The numeral pattern finds nothing in a text without digit. *)
Lemma match_number_none prev s :
  Py.all_chars (fun c => negb (Py.is_digit c)) s = true ->
  match_here number_re prev s = None.
Proof.
  intros Hs. unfold match_here, number_re, opt, digits, plus.
  destruct s as [|c s]; [reflexivity|].
  cbn [Py.all_chars] in Hs. apply andb_prop in Hs as [Hc Hs].
  apply negb_true_iff in Hc.
  cbn [run lit chr]. rewrite Hc.
  destruct (Ascii.eqb "#" c); [|reflexivity].
  destruct s as [|c' s]; [reflexivity|].
  cbn [Py.all_chars] in Hs. apply andb_prop in Hs as [Hc' _].
  apply negb_true_iff in Hc'. rewrite Hc'. reflexivity.
Qed.

Lemma finditer_number_none s : forall prev,
  Py.all_chars (fun c => negb (Py.is_digit c)) s = true ->
  finditer_from number_re prev s 0 = [].
Proof.
  induction s as [|c s IH]; intros prev Hs.
  - reflexivity.
  - cbn [finditer_from]. rewrite (match_number_none prev _ Hs).
    cbn [Py.all_chars] in Hs. apply andb_prop in Hs as [_ Hs].
    apply IH, Hs.
Qed.

End RecipientProperties.

(** X7.  [save_shortlist] stores the indices under the name, leaves every
    other shortlist as it was, and does not touch the candidates and jobs
    files. *)
Theorem save_shortlist_updates_one_name
    (fs : file_system) (name : string) (indices : list Z) :
  let fs' := fst (save_shortlist fs name indices) in
  let before : gmap string (list Z) := _load_json fs SHORTLISTS_FP ∅ in
  let after : gmap string (list Z) := _load_json fs' SHORTLISTS_FP ∅ in
  after !! name = Some indices /\
  (forall other, other <> name -> after !! other = before !! other) /\
  fs' CANDIDATES_FP = fs CANDIDATES_FP /\
  fs' JOBS_FP = fs JOBS_FP.
Proof.
  cbn zeta.
  assert ((_load_json (fst (save_shortlist fs name indices)) SHORTLISTS_FP ∅
           : gmap string (list Z))
          = <[name := indices]> (_load_json fs SHORTLISTS_FP ∅ :
                                   gmap string (list Z))) as ->
    by reflexivity.
  repeat split.
  - apply lookup_insert_eq.
  - intros other Hne. apply lookup_insert_ne. congruence.
Qed.

(** X7 at the sample files: a second shortlist leaves the first one as it
    was. *)
Lemma save_shortlist_updates_one_name_witness :
  let fs := fst (save_shortlist Sample.files "A" [1; 2]) in
  let fs' := fst (save_shortlist fs "B" [3]) in
  (_load_json fs' SHORTLISTS_FP ∅ : gmap string (list Z)) !! "A"
  = Some [1; 2].
Proof.
  cbn zeta.
  rewrite (proj1 (proj2 (save_shortlist_updates_one_name
                           (fst (save_shortlist Sample.files "A" [1; 2]))
                           "B" [3])) "A"); [reflexivity | discriminate].
Defined.

(** X8.  A recipients text that is no shortlist name and consists of
    numerals separated by commas is read as candidate positions: the
    recipients are the candidates at these 1-based positions, in order,
    and a position without candidate is passed over. *)
Theorem recipients_from_numbers (fs : file_system) (nums : list string) :
  Forall (fun n => PyText.isdigit n = true) nums ->
  (_load_json fs SHORTLISTS_FP ∅ : gmap string (list Z))
    !! Py.join "," nums = None ->
  _recipients_from_name_or_indices fs (Py.join "," nums)
  = omap (candidate_at (_load_json fs CANDIDATES_FP [])) (Py.int <$> nums).
Proof.
  intros Hnums Hname. unfold _recipients_from_name_or_indices. cbn zeta.
  rewrite Hname, findall_numbers by assumption. apply pick_candidate_at.
Qed.

(** X8 at the sample files. *)
Lemma recipients_from_numbers_witness :
  _recipients_from_name_or_indices Sample.files
    (Py.join "," ["3"; "07"; "1"])
  = [Sample.salma; Sample.omar].
Proof.
  rewrite (recipients_from_numbers Sample.files ["3"; "07"; "1"]).
  - reflexivity.
  - repeat constructor.
  - reflexivity.
Defined.

(** X9.  An ASCII recipients text that is no shortlist name and holds no
    digit resolves to nobody. *)
Theorem recipients_unknown_name (fs : file_system) (target : string) :
  Py.is_ascii target = true ->
  (_load_json fs SHORTLISTS_FP ∅ : gmap string (list Z)) !! target = None ->
  Py.all_chars (fun c => negb (Py.is_digit c)) target = true ->
  _recipients_from_name_or_indices fs target = [].
Proof.
  intros _ Hname Hdigits. unfold _recipients_from_name_or_indices. cbn zeta.
  rewrite Hname. unfold findall.
  rewrite finditer_number_none by assumption. reflexivity.
Qed.

(** X9 at the sample files. *)
Lemma recipients_unknown_name_witness :
  _recipients_from_name_or_indices Sample.files "FE-Intern-A" = [].
Proof.
  apply recipients_unknown_name; reflexivity.
Defined.

(** ** Further properties: lines of text *)

Section LineProperties.

Abbreviation nlc := PyText.nl_char.
Abbreviation lines_of := (PyText.split PyText.nl_char).

Lemma split_nonempty (s : string) :
  exists first rest, lines_of s = first :: rest.
Proof.
  induction s as [|c s (f & r & IH)]; [cbn; eauto|].
  cbn [PyText.split]. destruct (Ascii.eqb c nlc); [eauto|].
  rewrite IH. eauto.
Qed.

(** The lines of two texts joined by a line feed are the lines of the one
    and then the lines of the other. *)
Lemma split_app (a b : string) :
  lines_of (a +:+ String nlc b) = lines_of a ++ lines_of b.
Proof.
  induction a as [|c a IH]; [reflexivity|].
  rewrite str_app_cons. cbn [PyText.split].
  destruct (Ascii.eqb c nlc); [rewrite IH; reflexivity|].
  rewrite IH. destruct (split_nonempty a) as (f & r & ->). reflexivity.
Qed.

Lemma split_one_line (s : string) :
  Py.all_chars (fun c => negb (Ascii.eqb c nlc)) s = true ->
  lines_of s = [s].
Proof.
  induction s as [|c s IH]; intros H; [reflexivity|].
  cbn [Py.all_chars] in H. apply andb_prop in H as [Hc H].
  apply negb_true_iff in Hc. cbn [PyText.split]. rewrite Hc, (IH H).
  reflexivity.
Qed.

Lemma join_cons (sep x y : string) (l : list string) :
  Py.join sep (x :: y :: l) = x +:+ sep +:+ Py.join sep (y :: l).
Proof. reflexivity. Qed.

Lemma join_app (sep : string) (l1 l2 : list string) :
  l1 <> [] -> l2 <> [] ->
  Py.join sep (l1 ++ l2) = Py.join sep l1 +:+ sep +:+ Py.join sep l2.
Proof.
  intros H1 H2. induction l1 as [|x l1 IH]; [contradiction|].
  destruct l1 as [|y l1].
  - destruct l2 as [|z l2]; [contradiction|]. reflexivity.
  - change ((x :: y :: l1) ++ l2) with (x :: y :: (l1 ++ l2)).
    rewrite !join_cons.
    change (y :: l1 ++ l2) with ((y :: l1) ++ l2).
    rewrite IH by discriminate. rewrite !str_app_assoc. reflexivity.
Qed.

(** Joining the lines of a text gives the text back. *)
Lemma join_split (s : string) : Py.join Py.nl (lines_of s) = s.
Proof.
  induction s as [|c s IH]; [reflexivity|]. cbn [PyText.split].
  destruct (split_nonempty s) as (f & r & Hs). rewrite Hs in IH |- *.
  destruct (Ascii.eqb_spec c nlc) as [->|_].
  - rewrite join_cons, IH. reflexivity.
  - destruct r as [|y r].
    + cbn in IH |- *. rewrite IH. reflexivity.
    + rewrite join_cons in IH |- *. rewrite str_app_cons, IH. reflexivity.
Qed.


Lemma index_after (x : string) (l1 l2 : list string) :
  Forall (fun y => y <> x) l1 ->
  PyText.index x (l1 ++ x :: l2) = Some (Py.len l1).
Proof.
  unfold Py.len. induction l1 as [|y l1 IH]; intros H.
  - cbn. rewrite String.eqb_refl. reflexivity.
  - inversion H as [|? ? Hy Hl1]; subst. cbn [app PyText.index].
    destruct (String.eqb_spec y x) as [->|_]; [contradiction|].
    rewrite (IH Hl1). cbn [fmap option_fmap option_map length]. f_equal. lia.
Qed.

(** The closing after the last empty line gives way to the new one. *)
Lemma replace_closing_after_blank (body closing closing' : string) :
  Forall (fun l => l <> "") (lines_of closing) ->
  replace_closing (body +:+ Py.nl +:+ Py.nl +:+ closing) closing'
  = body +:+ Py.nl +:+ Py.nl +:+ closing'.
Proof.
  intros Hclosing. unfold replace_closing.
  change (body +:+ Py.nl +:+ Py.nl +:+ closing)
    with (body +:+ String nlc ("" +:+ String nlc closing)).
  rewrite !split_app. change (lines_of "") with [""].
  set (B := lines_of body). set (C := lines_of closing) in *. cbn zeta.
  assert (reverse (B ++ [""] ++ C) = reverse C ++ "" :: reverse B) as ->.
  { rewrite !reverse_app. cbn. rewrite <- app_assoc. reflexivity. }
  rewrite index_after by (apply Forall_reverse; exact Hclosing).
  unfold Py.len. rewrite length_reverse, !length_app. cbn [length].
  replace (Z.of_nat (length B + (1 + length C)) - 1 - Z.of_nat (length C) + 1)
    with (Z.of_nat (S (length B))) by lia.
  unfold Py.slice_to. destruct (Z.leb_spec 0 (Z.of_nat (S (length B)))); [|lia].
  rewrite Nat2Z.id.
  replace (take (S (length B)) (B ++ [""] ++ C)) with (B ++ [""]).
  2:{ rewrite app_assoc.
      rewrite take_app_le by (rewrite length_app; cbn; lia).
      rewrite take_ge by (rewrite length_app; cbn; lia). reflexivity. }
  destruct (split_nonempty body) as (f & r & HB). fold B in HB.
  rewrite join_app by (rewrite ?HB; discriminate).
  rewrite join_app by (rewrite ?HB; discriminate).
  unfold B. rewrite join_split. cbn [Py.join String.concat].
  rewrite !str_app_assoc. reflexivity.
Qed.

End LineProperties.

(** ** Further properties: drafts and their preview *)

Section DraftProperties.

Lemma closings_other (tone : string) :
  tone <> "friendly" -> tone <> "formal" -> tone <> "concise" ->
  closings !! tone = None.
Proof.
  intros H1 H2 H3. unfold closings. cbn [list_to_map foldr curry fst snd].
  rewrite !lookup_insert_ne by congruence. apply lookup_empty.
Qed.

Lemma closing_for_cases (tone : string) :
  closing_for tone = closing_for "friendly" \/
  closing_for tone = closing_for "formal" \/
  closing_for tone = closing_for "concise".
Proof.
  destruct (decide (tone = "friendly")) as [->|H1]; [auto|].
  destruct (decide (tone = "formal")) as [->|H2]; [auto|].
  destruct (decide (tone = "concise")) as [->|H3]; [auto|].
  left. unfold closing_for. rewrite (closings_other tone H1 H2 H3).
  reflexivity.
Qed.

Lemma closing_for_lines (tone : string) :
  Forall (fun l => l <> "") (PyText.split PyText.nl_char (closing_for tone)).
Proof.
  destruct (closing_for_cases tone) as [-> | [-> | ->]];
    vm_compute; repeat constructor; discriminate.
Qed.

Lemma join_closing (L : list string) (cta c : string) :
  Py.join Py.nl (L ++ [""; cta; ""; c])
  = Py.join Py.nl (L ++ [""; cta]) +:+ Py.nl +:+ Py.nl +:+ c.
Proof.
  change (L ++ [""; cta; ""; c]) with (L ++ [""; cta] ++ [""; c]).
  rewrite app_assoc.
  rewrite (join_app Py.nl (L ++ [""; cta]) [""; c]);
    [reflexivity | destruct L; discriminate | discriminate].
Qed.

(** The text of a draft for at least one recipient: some lines, an empty
    line, and the closing of the tone. *)
Lemma draft_email_text fs r rs job_title tone :
  exists body,
    Email.text (draft_email fs (r :: rs) job_title tone)
    = body +:+ Py.nl +:+ Py.nl +:+ closing_for tone.
Proof.
  unfold draft_email. cbn [Py.truthy_list negb]. cbn zeta.
  fold (closing_for tone).
  destruct rs as [|r' rs];
    destruct (Py.truthy_str _); destruct (Py.truthy_str _);
    cbn [Email.text]; eexists; rewrite join_closing; reflexivity.
Qed.

End DraftProperties.

(** X10.  A tone other than friendly, formal and concise gives the draft
    of the friendly tone. *)
Theorem draft_email_unknown_tone
    (fs : file_system) (recipients : list Candidate.t)
    (job_title tone : string) :
  tone <> "friendly" -> tone <> "formal" -> tone <> "concise" ->
  draft_email fs recipients job_title tone
  = draft_email fs recipients job_title "friendly".
Proof.
  intros H1 H2 H3. unfold draft_email.
  rewrite (closings_other tone H1 H2 H3).
  replace (default (default "" (closings !! "friendly"))
             (closings !! "friendly"))
    with (default (default "" (closings !! "friendly")) (@None string))
    by (vm_compute; reflexivity).
  reflexivity.
Qed.

(** X10 at a tone the program does not know. *)
Lemma draft_email_unknown_tone_witness :
  draft_email Sample.files [Sample.amina] "Frontend Intern" "casual"
  = draft_email Sample.files [Sample.amina] "Frontend Intern" "friendly".
Proof.
  apply draft_email_unknown_tone; discriminate.
Defined.

(** X11.  The text of a draft for at least one recipient ends with an
    empty line and the closing of the tone, and replacing the closing
    keeps everything before it: the new text is the same body, the empty
    line and the new closing. *)
Theorem draft_email_closing_replaced
    (fs : file_system) (recipients : list Candidate.t)
    (job_title tone closing : string) :
  recipients <> [] ->
  exists body,
    Email.text (draft_email fs recipients job_title tone)
    = body +:+ Py.nl +:+ Py.nl +:+ closing_for tone /\
    replace_closing (Email.text (draft_email fs recipients job_title tone))
      closing
    = body +:+ Py.nl +:+ Py.nl +:+ closing.
Proof.
  intros Hne. destruct recipients as [|r rs]; [contradiction|].
  destruct (draft_email_text fs r rs job_title tone) as (body & Htext).
  exists body. split; [exact Htext|]. rewrite Htext.
  apply replace_closing_after_blank, closing_for_lines.
Qed.

(** X11 at a draft of three closing lines. *)
Lemma draft_email_closing_replaced_witness :
  exists body,
    Email.text (draft_email Sample.files [Sample.amina] "Frontend Intern"
                  "formal")
    = body +:+ Py.nl +:+ Py.nl +:+ closing_for "formal" /\
    replace_closing
      (Email.text (draft_email Sample.files [Sample.amina] "Frontend Intern"
                     "formal")) "Best, Soukaina"
    = body +:+ Py.nl +:+ Py.nl +:+ "Best, Soukaina".
Proof.
  apply (draft_email_closing_replaced Sample.files [Sample.amina]
           "Frontend Intern" "formal" "Best, Soukaina").
  discriminate.
Defined.

(** X12.  Once the closing is replaced, replacing it again gives the same
    text as replacing it once: for a closing [c1] of one non-empty line,
    the text [body, empty line, c1] with the closing [c2] is
    [body, empty line, c2]. *)
Theorem replace_closing_twice (body c0 c1 c2 : string) :
  Forall (fun l => l <> "") (PyText.split PyText.nl_char c0) ->
  c1 <> "" ->
  Py.all_chars (fun c => negb (Ascii.eqb c PyText.nl_char)) c1 = true ->
  let text := body +:+ Py.nl +:+ Py.nl +:+ c0 in
  replace_closing (replace_closing text c1) c2 = replace_closing text c2.
Proof.
  intros H0 Hne H1. cbn zeta.
  rewrite !(replace_closing_after_blank body c0) by exact H0.
  apply replace_closing_after_blank.
  rewrite (split_one_line c1 H1). repeat constructor. exact Hne.
Qed.

(** X12 at a text of two lines and a closing. *)
Lemma replace_closing_twice_witness :
  replace_closing
    (replace_closing ("Hi," +:+ Py.nl +:+ Py.nl +:+ "Cheers") "Best") "Bye"
  = replace_closing ("Hi," +:+ Py.nl +:+ Py.nl +:+ "Cheers") "Bye".
Proof.
  apply (replace_closing_twice "Hi," "Cheers" "Best" "Bye").
  - repeat constructor. discriminate.
  - discriminate.
  - reflexivity.
Defined.



(** ** Further properties: analytics *)

Section CounterProperties.

Lemma count_of_bump_same k m : count_of k (bump k m) = count_of k m + 1.
Proof.
  induction m as [|[k' v] m IH]; cbn [bump count_of].
  - rewrite String.eqb_refl. reflexivity.
  - destruct (String.eqb_spec k' k) as [->|Hne]; cbn [count_of].
    + rewrite String.eqb_refl. reflexivity.
    + destruct (String.eqb_spec k' k); [contradiction | exact IH].
Qed.

Lemma count_of_bump_other k k' m :
  k <> k' -> count_of k (bump k' m) = count_of k m.
Proof.
  intros Hne. induction m as [|[k0 v] m IH]; cbn [bump count_of].
  - destruct (String.eqb_spec k' k); [congruence | reflexivity].
  - destruct (String.eqb_spec k0 k') as [->|Hne']; cbn [count_of].
    + destruct (String.eqb_spec k' k); [congruence | reflexivity].
    + destruct (String.eqb_spec k0 k); [reflexivity | exact IH].
Qed.

Lemma occurrences_cons x y l :
  occurrences x (y :: l)
  = (if String.eqb x y then 1 else 0) + occurrences x l.
Proof.
  unfold occurrences, Py.len. cbn [List.filter].
  destruct (String.eqb x y); cbn [length]; lia.
Qed.

Lemma occurrences_nonneg x l : 0 <= occurrences x l.
Proof. unfold occurrences, Py.len. lia. Qed.

Lemma count_of_bumps k ks : forall m,
  count_of k (fold_left (fun m s => bump s m) ks m)
  = count_of k m + occurrences k ks.
Proof.
  induction ks as [|s ks IH]; intros m; cbn [fold_left].
  - unfold occurrences, Py.len. cbn. lia.
  - rewrite IH, occurrences_cons.
    destruct (String.eqb_spec k s) as [<-|Hne].
    + rewrite count_of_bump_same. lia.
    + rewrite count_of_bump_other by exact Hne. lia.
Qed.

Lemma bump_keys k m :
  fst <$> bump k m
  = if bool_decide (k ∈ fst <$> m) then fst <$> m else (fst <$> m) ++ [k].
Proof.
  induction m as [|[k' v] m IH]; cbn [bump fmap list_fmap fst].
  - rewrite bool_decide_eq_false_2 by (intros H; inversion H). reflexivity.
  - destruct (String.eqb_spec k' k) as [->|Hne]; cbn [fmap list_fmap fst].
    + rewrite bool_decide_eq_true_2 by (left). reflexivity.
    + rewrite IH. case_bool_decide as Hin.
      * rewrite bool_decide_eq_true_2 by (right; exact Hin). reflexivity.
      * rewrite bool_decide_eq_false_2; [reflexivity|].
        intros H. apply elem_of_cons in H as [->|H]; [congruence | tauto].
Qed.

Lemma bump_NoDup k m : NoDup (fst <$> m) -> NoDup (fst <$> bump k m).
Proof.
  intros H. rewrite bump_keys. case_bool_decide as Hin; [exact H|].
  apply NoDup_app. repeat split; [exact H | | apply NoDup_singleton].
  intros x Hx Hx'. apply list_elem_of_singleton in Hx'. subst. exact (Hin Hx).
Qed.

Lemma bump_positive k m :
  Forall (fun kv => 0 < snd kv) m -> Forall (fun kv => 0 < snd kv) (bump k m).
Proof.
  induction m as [|[k' v] m IH]; intros H; cbn [bump].
  - repeat constructor.
  - inversion H as [|? ? Hv Hm]; subst. cbn [snd] in Hv.
    destruct (String.eqb k' k); constructor; cbn [snd]; auto; lia.
Qed.

Lemma bump_total k m : total (bump k m) = total m + 1.
Proof.
  unfold total. induction m as [|[k' v] m IH]; cbn [bump foldr snd]; [lia|].
  destruct (String.eqb k' k); cbn [foldr snd]; lia.
Qed.

(** What holds of the empty counter and is kept by [bump] holds after any
    number of bumps. *)
Lemma bumps_invariant (P : counter -> Prop) ks :
  (forall k m, P m -> P (bump k m)) ->
  forall m, P m -> P (fold_left (fun m s => bump s m) ks m).
Proof.
  intros Hstep. induction ks as [|s ks IH]; intros m Hm; [exact Hm|].
  cbn [fold_left]. apply IH, Hstep, Hm.
Qed.

Lemma bumps_total ks : forall m,
  total (fold_left (fun m s => bump s m) ks m) = total m + Py.len ks.
Proof.
  unfold Py.len. induction ks as [|s ks IH]; intros m; cbn [fold_left length].
  - lia.
  - rewrite IH, bump_total. lia.
Qed.

(** In a counter without repeated key, an entry holds the count of its
    key. *)
Lemma count_of_entry k v m :
  NoDup (fst <$> m) -> (k, v) ∈ m -> count_of k m = v.
Proof.
  induction m as [|[k' v'] m IH]; intros Hnd Hin; [inversion Hin|].
  cbn [fmap list_fmap fst] in Hnd. apply NoDup_cons in Hnd as [Hk' Hnd].
  cbn [count_of]. apply elem_of_cons in Hin as [[= -> ->]|Hin].
  - rewrite String.eqb_refl. reflexivity.
  - destruct (String.eqb_spec k' k) as [->|_]; [|apply IH; assumption].
    exfalso. apply Hk'. apply list_elem_of_fmap. exists (k, v). auto.
Qed.

Lemma entry_of_count k m : count_of k m <> 0 -> (k, count_of k m) ∈ m.
Proof.
  induction m as [|[k' v'] m IH]; cbn [count_of]; [congruence|].
  destruct (String.eqb_spec k' k) as [->|_]; intros H.
  - left.
  - right. apply IH, H.
Qed.

(** The two counters of [analytics_summary]. *)
Lemma fold_tally cs : forall acc,
  fold_left tally_candidate cs acc
  = (fold_left (fun m s => bump s m) (stage_of <$> cs) (fst acc),
     fold_left (fun m s => bump s m) (cs ≫= skills_of) (snd acc)).
Proof.
  induction cs as [|c cs IH]; intros [a b]; [reflexivity|].
  cbn [fold_left]. rewrite IH. unfold tally_candidate.
  cbn [fst snd fmap list_fmap mbind list_bind]. rewrite fold_left_app.
  reflexivity.
Qed.

Lemma occurrences_stage s cs :
  occurrences s (stage_of <$> cs)
  = Py.len (List.filter (fun c => String.eqb s (stage_of c)) cs).
Proof.
  unfold occurrences, Py.len. induction cs as [|c cs IH]; [reflexivity|].
  cbn [fmap list_fmap List.filter].
  destruct (String.eqb s (stage_of c)); cbn [length]; lia.
Qed.

(** The sort of [most_common]. *)
Lemma insert_by_count_perm x l : insert_by_count x l ≡ₚ x :: l.
Proof.
  induction l as [|y l IH]; cbn [insert_by_count]; [reflexivity|].
  destruct (snd x <? snd y); [|reflexivity].
  rewrite IH. apply perm_swap.
Qed.

Lemma sort_by_count_perm m : foldr insert_by_count [] m ≡ₚ m.
Proof.
  induction m as [|x m IH]; [reflexivity|].
  cbn [foldr]. rewrite insert_by_count_perm, IH. reflexivity.
Qed.

Lemma insert_by_count_sorted x l :
  StronglySorted (fun a b => snd b <= snd a) l ->
  StronglySorted (fun a b => snd b <= snd a) (insert_by_count x l).
Proof.
  induction l as [|y l IH]; intros Hs; cbn [insert_by_count].
  - repeat constructor.
  - inversion Hs as [|? ? Hs' Hy]; subst.
    destruct (Z.ltb_spec (snd x) (snd y)) as [Hlt|Hge].
    + constructor; [apply IH, Hs'|].
      rewrite insert_by_count_perm. constructor; [lia | exact Hy].
    + constructor; [exact Hs|]. constructor; [lia|].
      eapply Forall_impl; [exact Hy|]. cbn. intros z Hz. lia.
Qed.

Lemma sort_by_count_sorted m :
  StronglySorted (fun a b => snd b <= snd a) (foldr insert_by_count [] m).
Proof.
  induction m as [|x m IH]; [constructor|].
  cbn [foldr]. apply insert_by_count_sorted, IH.
Qed.

End CounterProperties.

Section AnalyticsProperties.

Lemma analytics_summary_unfold fs :
  analytics_summary fs
  = Analytics.Make
      (fold_left (fun m s => bump s m)
         (stage_of <$> _load_json fs CANDIDATES_FP []) [])
      (most_common 3
         (fold_left (fun m s => bump s m)
            (_load_json fs CANDIDATES_FP [] ≫= skills_of) [])).
Proof. unfold analytics_summary. rewrite fold_tally. reflexivity. Qed.

Lemma most_common_3 m : most_common 3 m = take 3 (foldr insert_by_count [] m).
Proof. reflexivity. Qed.

End AnalyticsProperties.

(** X14.  The stage counts of [analytics_summary]: no stage is listed
    twice, the count of a stage is the number of candidates of that stage
    (a candidate without stage counts under UNKNOWN), every listed count
    is positive, and the counts add up to the number of candidates. *)
Theorem analytics_stage_counts (fs : file_system) :
  let candidates := _load_json fs CANDIDATES_FP [] in
  let counts := Analytics.countByStage (analytics_summary fs) in
  NoDup (fst <$> counts) /\
  (forall s, count_of s counts
             = Py.len (List.filter (fun c => String.eqb s (stage_of c))
                         candidates)) /\
  Forall (fun kv => 0 < snd kv) counts /\
  total counts = Py.len candidates.
Proof.
  cbn zeta. rewrite analytics_summary_unfold. cbn [Analytics.countByStage].
  repeat split.
  - apply (bumps_invariant (fun m => NoDup (fst <$> m))).
    + intros k m. apply bump_NoDup.
    + constructor.
  - intros s. rewrite count_of_bumps, occurrences_stage. cbn [count_of]. lia.
  - apply (bumps_invariant (Forall (fun kv => 0 < snd kv))).
    + intros k m. apply bump_positive.
    + constructor.
  - rewrite bumps_total. unfold Py.len, total. rewrite length_fmap.
    cbn [foldr]. lia.
Qed.

(** X15.  The top skills of [analytics_summary]: at most three entries,
    by descending count, no skill twice; the count of an entry is the
    number of times its skill occurs in the skill lists of the
    candidates; and a skill that occurs but is not listed occurs no more
    often than any listed one, three skills being listed then. *)
Theorem analytics_top_skills (fs : file_system) :
  let skills := _load_json fs CANDIDATES_FP [] ≫= skills_of in
  let top := Analytics.topSkills (analytics_summary fs) in
  Py.len top <= 3 /\
  StronglySorted (fun a b => snd b <= snd a) top /\
  NoDup (fst <$> top) /\
  Forall (fun kv => snd kv = occurrences (fst kv) skills /\ 0 < snd kv) top /\
  (forall s, 0 < occurrences s skills -> s ∉ fst <$> top ->
     Py.len top = 3 /\
     Forall (fun kv => occurrences s skills <= snd kv) top).
Proof.
  cbn zeta. rewrite analytics_summary_unfold. cbn [Analytics.topSkills].
  set (skills := _load_json fs CANDIDATES_FP [] ≫= skills_of).
  set (m := fold_left (fun m s => bump s m) skills []).
  rewrite most_common_3. set (sorted := foldr insert_by_count [] m).
  assert (NoDup (fst <$> m)) as Hnd.
  { apply (bumps_invariant (fun m => NoDup (fst <$> m)));
      [intros k m0; apply bump_NoDup | constructor]. }
  assert (Forall (fun kv => 0 < snd kv) m) as Hpos.
  { apply (bumps_invariant (Forall (fun kv => 0 < snd kv)));
      [intros k m0; apply bump_positive | constructor]. }
  assert (forall s, count_of s m = occurrences s skills) as Hcount.
  { intros s. unfold m. rewrite count_of_bumps. cbn [count_of]. lia. }
  assert (sorted ≡ₚ m) as Hperm by apply sort_by_count_perm.
  assert (StronglySorted (fun a b => snd b <= snd a) sorted) as Hsorted
    by apply sort_by_count_sorted.
  split; [|split; [|split; [|split]]].
  - unfold Py.len. rewrite length_take. lia.
  - apply StronglySorted_take, Hsorted.
  - rewrite fmap_take. eapply sublist_NoDup; [|apply sublist_take].
    rewrite Hperm. exact Hnd.
  - apply Forall_take. rewrite Hperm. rewrite Forall_forall in Hpos |- *.
    intros [k v] Hin. cbn [fst snd]. split; [|exact (Hpos _ Hin)].
    rewrite <- Hcount. symmetry. apply count_of_entry; assumption.
  - intros s Hocc Hout.
    assert ((s, count_of s m) ∈ sorted) as Hin.
    { rewrite Hperm. apply entry_of_count. rewrite Hcount. lia. }
    rewrite <- (take_drop 3 sorted) in Hin, Hsorted.
    apply elem_of_app in Hin as [Hin|Hin].
    { exfalso. apply Hout. apply list_elem_of_fmap. exists (s, count_of s m).
      split; [reflexivity | exact Hin]. }
    split.
    + unfold Py.len. rewrite length_take.
      destruct (Nat.le_gt_cases (length sorted) 3) as [Hle|Hgt]; [|lia].
      rewrite drop_ge in Hin by exact Hle. inversion Hin.
    + rewrite Forall_forall. intros kv Hkv.
      pose proof (StronglySorted_app_1_elem_of _ _ _ _ _ Hsorted Hkv Hin)
        as Hle.
      cbn [snd] in Hle. rewrite Hcount in Hle. exact Hle.
Qed.

(** X15 at the sample files: Redux occurs and is not listed, so it occurs
    no more often than the listed skills. *)
Lemma analytics_top_skills_witness :
  Forall (fun kv => 1 <= snd kv)
         (Analytics.topSkills (analytics_summary Sample.files)).
Proof.
  apply (proj2 (proj2 (proj2 (proj2 (analytics_top_skills Sample.files))))
           "Redux").
  - reflexivity.
  - vm_compute. intros H. repeat (inversion H as [|? ? ? H']; clear H;
                                  try discriminate; rename H' into H).
Defined.

(** ** Further properties: the command loop *)

Section IntentProperties.

Lemma classify_intent_empty : classify_intent "" = "unknown".
Proof. reflexivity. Qed.

Lemma classify_intent_nonempty (q : string) :
  classify_intent q <> "unknown" -> Py.truthy_str q = true.
Proof. destruct q; [intros H; contradiction H; reflexivity | reflexivity]. Qed.

End IntentProperties.

(** X16.  A text is classified as a search exactly when its lower-case
    form contains find, search or look for, whatever else it contains. *)
Theorem classify_intent_search (text : string) :
  classify_intent text = "search" <->
  existsb (fun k => Py.contains k (Py.lower text))
          ["find"; "search"; "look for"] = true.
Proof.
  unfold classify_intent. cbn zeta.
  destruct (existsb _ _); [tauto|].
  repeat (destruct (_ || _)); split; discriminate.
Qed.

(** X16 at a save command that mentions a search. *)
Lemma classify_intent_search_witness :
  classify_intent "Save #1 as my search" = "search".
Proof.
  apply (proj2 (classify_intent_search "Save #1 as my search")).
  reflexivity.
Defined.

(** X17.  A text is classified as quit exactly when its lower-case form
    is quit or exit; a text with anything more is not. *)
Theorem classify_intent_quit (text : string) :
  classify_intent text = "quit" <->
  Py.lower text = "quit" \/ Py.lower text = "exit".
Proof.
  unfold classify_intent. cbn zeta. split.
  - destruct (existsb _ _); [discriminate|].
    do 4 (destruct (_ || _); [discriminate|]).
    destruct (String.eqb_spec (Py.lower text) "quit") as [->|_]; [auto|].
    destruct (String.eqb_spec (Py.lower text) "exit") as [->|_]; [auto|].
    discriminate.
  - intros [-> | ->]; reflexivity.
Qed.

(** X17 at the command of the docstring. *)
Lemma classify_intent_quit_witness : classify_intent "Quit" = "quit".
Proof.
  apply (proj2 (classify_intent_quit "Quit")). left. reflexivity.
Defined.

Section LoopProperties.

Variable fromisoformat : string -> option Date.t.
Variable today : Date.t.

Abbreviation turn := (on_line fromisoformat today).

Lemma on_search_store st q :
  store (snd (fst (on_search fromisoformat today st q))) = store st.
Proof.
  unfold on_search. cbn zeta. destruct (negb _); [reflexivity|].
  destruct (listing 1 _) as [lines ok]. destruct ok; reflexivity.
Qed.

Lemma on_edit_email_store st q :
  store (snd (fst (on_edit_email st q))) = store st.
Proof. unfold on_edit_email. destruct (last_email st); reflexivity. Qed.

Lemma on_save_candidates st q :
  store (snd (fst (on_save st q))) CANDIDATES_FP = store st CANDIDATES_FP.
Proof.
  unfold on_save. cbn zeta. destruct (search save_name_re q); [|reflexivity].
  destruct (Py.truthy_list (findall hash_re q)); [|reflexivity].
  destruct (negb _); reflexivity.
Qed.

(** A quit line ends the loop. *)
Lemma on_line_quit st line :
  classify_intent (Py.strip line) = "quit" ->
  turn st line = (Finished, st, PyText.print "Bye.").
Proof.
  intros Hq. unfold on_line. cbn zeta.
  rewrite classify_intent_nonempty by (rewrite Hq; discriminate).
  rewrite Hq. reflexivity.
Qed.

End LoopProperties.

(** X18.  Only a save command writes: a line that is not classified as
    save leaves every file as it was. *)
Theorem only_save_writes
    (fromisoformat : string -> option Date.t) (today : Date.t)
    (st : session) (line : string) :
  classify_intent (Py.strip line) <> "save" ->
  store (snd (fst (on_line fromisoformat today st line))) = store st.
Proof.
  intros Hsave. unfold on_line. cbn zeta.
  destruct (negb _); [reflexivity|].
  destruct (String.eqb _ "quit"); [reflexivity|].
  destruct (String.eqb _ "search"); [apply on_search_store|].
  destruct (String.eqb_spec (classify_intent (Py.strip line)) "save");
    [contradiction|].
  destruct (String.eqb _ "email"); [reflexivity|].
  destruct (String.eqb _ "edit_email"); [apply on_edit_email_store|].
  destruct (String.eqb _ "analytics"); reflexivity.
Qed.

(** X18 at a search command. *)
Lemma only_save_writes_witness :
  store (snd (fst (on_line Date.fromisoformat Sample.today
                     (Session Sample.files [] None) "Find React interns")))
  = Sample.files.
Proof.
  apply (only_save_writes Date.fromisoformat Sample.today
           (Session Sample.files [] None) "Find React interns").
  discriminate.
Defined.

Section DisplayProperties.

Variable fromisoformat : string -> option Date.t.
Variable today : Date.t.

Lemma mapped_indices_displayed results nums :
  mapped_indices results nums = Scored.index <$> displayed results nums.
Proof.
  induction nums as [|n nums IH]; [reflexivity|].
  cbn [mapped_indices displayed]. rewrite fmap_app, IH. f_equal.
  destruct (_ && _); [|reflexivity].
  destruct (results !! Z.to_nat (Py.int n - 1)); reflexivity.
Qed.

Lemma displayed_Forall (P : Scored.t -> Prop) results nums :
  Forall P results -> Forall P (displayed results nums).
Proof.
  intros H. induction nums as [|n nums IH]; [constructor|].
  cbn [displayed]. apply Forall_app. split; [|exact IH].
  destruct (_ && _); [|constructor].
  destruct (results !! Z.to_nat (Py.int n - 1)) as [r|] eqn:Hr; [|constructor].
  repeat constructor. rewrite Forall_forall in H. apply H.
  apply list_elem_of_lookup_2 in Hr. exact Hr.
Qed.

Lemma saved_lookup (fs : file_system) name indices :
  (_load_json (fst (save_shortlist fs name indices)) SHORTLISTS_FP ∅
   : gmap string (list Z)) !! name = Some indices.
Proof.
  change (<[name := indices]>
            (_load_json fs SHORTLISTS_FP ∅ : gmap string (list Z)) !! name
          = Some indices).
  apply lookup_insert_eq.
Qed.

(** Every result of a search names the position of its candidate. *)
Lemma search_results_positions fs filters top_n :
  Forall (fun r =>
            candidate_at (_load_json fs CANDIDATES_FP []) (Scored.index r)
            = Some (Scored.candidate r))
         (search_candidates fromisoformat today fs filters top_n).
Proof.
  apply search_candidates_Forall.
  eapply Forall_impl; [apply scan_entries|].
  intros r Hr. exact (entry_candidate_at _ _ _ _ _ _ Hr).
Qed.

Lemma omap_positions cs (l : list Scored.t) :
  Forall (fun r => candidate_at cs (Scored.index r)
                   = Some (Scored.candidate r)) l ->
  omap (candidate_at cs) (Scored.index <$> l) = Scored.candidate <$> l.
Proof.
  induction 1 as [|r l Hr _ IH]; [reflexivity|].
  cbn [fmap list_fmap omap list_omap]. rewrite Hr.
  cbn [fmap list_fmap omap list_omap] in IH. rewrite IH. reflexivity.
Qed.

(** The candidates of the results of a search are candidates of the
    file. *)
Lemma search_results_candidates (P : Candidate.t -> Prop) fs filters top_n :
  Forall P (_load_json fs CANDIDATES_FP []) ->
  Forall (fun r => P (Scored.candidate r))
         (search_candidates fromisoformat today fs filters top_n).
Proof.
  intros HP. apply search_candidates_Forall.
  eapply Forall_impl; [apply scan_entries|].
  intros r (k & _ & Hk & _). rewrite Forall_forall in HP. apply HP.
  apply list_elem_of_lookup_2 in Hk. exact Hk.
Qed.

(** The listing stops at a record that lacks a key it reads. *)
Lemma listing_incomplete results : forall i,
  Exists (fun r => ~ complete (Scored.candidate r)) results ->
  snd (listing i results) = false.
Proof.
  induction results as [|r results IH]; intros i H; [inversion H|].
  cbn [listing]. destruct (listing_entry i r) as [lines|] eqn:Hentry;
    [|reflexivity].
  assert (complete (Scored.candidate r)) as Hr.
  { unfold listing_entry in Hentry. unfold complete.
    destruct (Candidate.location (Scored.candidate r)); [|discriminate].
    destruct (Candidate.experienceYears (Scored.candidate r)); [|discriminate].
    destruct (Candidate.skills (Scored.candidate r)); [|discriminate].
    repeat split; eexists; reflexivity. }
  inversion H as [? ? Hbad|? ? Hrest]; subst; [contradiction|].
  specialize (IH (i + 1) Hrest).
  destruct (listing (i + 1) results) as [more ok]. exact IH.
Qed.

Lemma on_search_crashes st q :
  Exists (fun r => ~ complete (Scored.candidate r))
    (search_candidates fromisoformat today (store st) (parse_query q) 5) ->
  fst (fst (on_search fromisoformat today st q)) = Crashed.
Proof.
  intros H. unfold on_search. cbn zeta.
  destruct (search_candidates fromisoformat today (store st) (parse_query q) 5)
    as [|r results] eqn:Hres; [inversion H|].
  cbn [Py.truthy_list negb].
  pose proof (listing_incomplete (r :: results) 1 H) as Hok.
  destruct (listing 1 (r :: results)) as [lines ok]. cbn [snd] in Hok.
  subst ok. reflexivity.
Qed.

Lemma repl_from_quit pre q post : forall st,
  classify_intent (Py.strip q) = "quit" ->
  repl_from fromisoformat today st (pre ++ q :: post)
  = repl_from fromisoformat today st (pre ++ [q]).
Proof.
  induction pre as [|line pre IH]; intros st Hq.
  - cbn [app repl_from]. rewrite (on_line_quit fromisoformat today st q Hq).
    reflexivity.
  - cbn [app repl_from].
    destruct (on_line fromisoformat today st line) as [[s st'] out].
    destruct s; [|reflexivity..]. rewrite (IH st' Hq). reflexivity.
Qed.

End DisplayProperties.

(** X19.  Saving from a listing stores the listed candidates: when the
    display numbers of a search's results are saved under a name, the
    recipients of that name are, for each number within the listing and
    in the order given, the candidate listed under that number. *)
Theorem saved_candidates_are_the_listed_ones
    (fromisoformat : string -> option Date.t) (today : Date.t)
    (fs : file_system) (filters : Filter.t) (top_n : Z)
    (name : string) (nums : list string) :
  let results := search_candidates fromisoformat today fs filters top_n in
  let fs' := fst (save_shortlist fs name (mapped_indices results nums)) in
  _recipients_from_name_or_indices fs' name
  = Scored.candidate <$> displayed results nums.
Proof.
  cbn zeta.
  rewrite (recipients_of_saved_name _ name
             (mapped_indices
                (search_candidates fromisoformat today fs filters top_n) nums))
    by apply saved_lookup.
  rewrite mapped_indices_displayed.
  change (_load_json (fst (save_shortlist fs name _)) CANDIDATES_FP [])
    with (_load_json fs CANDIDATES_FP []).
  apply omap_positions, displayed_Forall, search_results_positions.
Qed.

(** X20.  The listing of a search reads [location], [experienceYears]
    and [skills] by subscript, where the scoring reads them with [get]:
    a search command, given as an ASCII line, whose results hold a
    record without one of these keys ends the loop by an exception that
    nothing catches. *)
Theorem listing_crashes_on_partial_record
    (fromisoformat : string -> option Date.t) (today : Date.t)
    (st : session) (line : string) :
  Py.is_ascii line = true ->
  classify_intent (Py.strip line) = "search" ->
  Exists (fun r => ~ complete (Scored.candidate r))
    (search_candidates fromisoformat today (store st)
       (parse_query (Py.strip line)) 5) ->
  fst (fst (on_line fromisoformat today st line)) = Crashed.
Proof.
  intros _ Hintent Hbad. unfold on_line. cbn zeta.
  rewrite classify_intent_nonempty by (rewrite Hintent; discriminate).
  rewrite Hintent. cbn [String.eqb Ascii.eqb Bool.eqb].
  apply on_search_crashes, Hbad.
Qed.

(** X20 at the sample candidates and a record with a name and skills
    only. *)
Lemma listing_crashes_on_partial_record_witness :
  fst (fst (on_line Date.fromisoformat Sample.today
              (Session Sample.files_with_nadia [] None) "Find React interns"))
  = Crashed.
Proof.
  apply listing_crashes_on_partial_record; [reflexivity | reflexivity|].
  vm_compute. do 3 apply Exists_cons_tl. apply Exists_cons_hd.
  intros ([x Hx] & _). discriminate Hx.
Defined.

(** X21.  Nothing after a quit command is read: the run on input lines
    that hold a line classified as quit is the run on the lines up to and
    with that line. *)
Theorem repl_stops_at_quit
    (fromisoformat : string -> option Date.t) (today : Date.t)
    (fs : file_system) (pre : list string) (q : string)
    (post : list string) :
  classify_intent (Py.strip q) = "quit" ->
  repl fromisoformat today fs (pre ++ q :: post)
  = repl fromisoformat today fs (pre ++ [q]).
Proof.
  intros Hq. unfold repl. rewrite (repl_from_quit _ _ pre q post _ Hq).
  reflexivity.
Qed.

(** X21 at a run of three lines. *)
Lemma repl_stops_at_quit_witness :
  repl Date.fromisoformat Sample.today Sample.files
    (["Show analytics"] ++ "  Exit " :: ["Find React interns"])
  = repl Date.fromisoformat Sample.today Sample.files
      (["Show analytics"] ++ ["  Exit "]).
Proof.
  apply repl_stops_at_quit. reflexivity.
Defined.

(** X22.  An edit command in a session without draft changes nothing: the
    files, the last search and the absent draft stay, and only the notice
    is printed. *)
Theorem edit_without_draft
    (fromisoformat : string -> option Date.t) (today : Date.t)
    (st : session) (line : string) :
  classify_intent (Py.strip line) = "edit_email" ->
  last_email st = None ->
  on_line fromisoformat today st line
  = (Running, st, PyText.print "No email in context. Draft one first.").
Proof.
  intros Hq Hnone. unfold on_line. cbn zeta.
  rewrite classify_intent_nonempty by (rewrite Hq; discriminate).
  rewrite Hq. cbn. unfold on_edit_email. rewrite Hnone. reflexivity.
Qed.

(** X22 at the first command of a session. *)
Lemma edit_without_draft_witness :
  on_line Date.fromisoformat Sample.today (Session Sample.files [] None)
    "Change the subject to something"
  = (Running, Session Sample.files [] None,
     PyText.print "No email in context. Draft one first.").
Proof.
  apply edit_without_draft; reflexivity.
Defined.

Section HashNumbers.

Lemma match_hash_inv prev s m :
  match_here hash_re prev s = Some m ->
  exists n, group 1 m = Some n /\ PyText.isdigit n = true.
Proof.
  unfold match_here, hash_re, digits, plus. cbn [run lit chr].
  destruct s as [|c s]; [discriminate|].
  destruct (Ascii.eqb "#" c); [|discriminate].
  destruct s as [|d s]; [discriminate|].
  destruct (Py.is_digit d) eqn:Hd; [|discriminate].
  intros H.
  change (star_loop (class_step Py.is_digit)
            (fun prev' s' caps' =>
               Some (MatchObject (consumed (String c (String d s)) s')
                       ((1%nat, consumed (String d s) s') :: caps')))
            (String.length s) (Some d) s [] = Some m) in H.
  apply star_loop_class_inv in H as (ds & rest & prev' & -> & Hds & [= <-]).
  rewrite <- str_app_cons, consumed_app.
  exists (String d ds). split; [reflexivity|].
  cbn [PyText.isdigit Py.all_chars]. rewrite Hd, Hds. reflexivity.
Qed.

Lemma finditer_hash_digits s : forall prev skip,
  Forall (fun m => exists n, group 1 m = Some n /\ PyText.isdigit n = true)
         (finditer_from hash_re prev s skip).
Proof.
  induction s as [|c s IH]; intros prev skip.
  - destruct skip; cbn [finditer_from]; [|constructor].
    destruct (match_here hash_re prev "") eqn:Hm; [|constructor].
    repeat constructor. exact (match_hash_inv _ _ _ Hm).
  - destruct skip; cbn [finditer_from]; [|apply IH].
    destruct (match_here hash_re prev (String c s)) eqn:Hm; [|apply IH].
    constructor; [exact (match_hash_inv _ _ _ Hm) | apply IH].
Qed.

Lemma findall_hash_digits q :
  Forall (fun n => PyText.isdigit n = true) (findall hash_re q).
Proof.
  unfold findall. pose proof (finditer_hash_digits q None 0) as H.
  induction H as [|m l (n & Hn & Hd) _ IH]; [constructor|].
  cbn [omap list_omap]. rewrite Hn. constructor; assumption.
Qed.

Lemma recipients_of_numbers (fs : file_system) (nums : list string) :
  Forall (fun n => PyText.isdigit n = true) nums ->
  (_load_json fs SHORTLISTS_FP ∅ : gmap string (list Z))
    !! Py.join "," nums = None ->
  _recipients_from_name_or_indices fs (Py.join "," nums)
  = omap (candidate_at (_load_json fs CANDIDATES_FP [])) (Py.int <$> nums).
Proof.
  intros Hnums Hname. unfold _recipients_from_name_or_indices. cbn zeta.
  rewrite Hname, findall_numbers by assumption. apply pick_candidate_at.
Qed.

End HashNumbers.

(** X23.  An e-mail command without quoted name addresses candidates by
    their position in the candidates file, not by their number in the
    last listing: unless the numbers joined by commas are a shortlist
    name, the recipients are the candidates at the positions given after
    [#], in order. *)
Theorem email_numbers_are_positions (fs : file_system) (q : string) :
  search for_re q = None ->
  (_load_json fs SHORTLISTS_FP ∅ : gmap string (list Z))
    !! email_target q = None ->
  _recipients_from_name_or_indices fs (email_target q)
  = omap (candidate_at (_load_json fs CANDIDATES_FP []))
         (Py.int <$> findall hash_re q).
Proof.
  unfold email_target. intros -> Hname. cbn zeta in *.
  destruct (findall hash_re q) as [|n nums] eqn:Hnums;
    cbn [Py.truthy_list] in *.
  - unfold _recipients_from_name_or_indices. cbn zeta. rewrite Hname.
    reflexivity.
  - apply recipients_of_numbers; [|exact Hname].
    rewrite <- Hnums. apply findall_hash_digits.
Qed.

(** X23 at a listing whose first entry is the second candidate: the
    command for #1 addresses the first candidate of the file. *)
Lemma email_numbers_are_positions_witness :
  _recipients_from_name_or_indices Sample.files
    (email_target "Draft email for #1")
  = [Sample.omar].
Proof.
  rewrite email_numbers_are_positions; reflexivity.
Defined.
